(** * ClickUp Orchestrator dashboard: terminal streaming clients, chat queue,
      API client and settings store

    A shallow embedding of the TypeScript/Svelte sources
    - [lib/api/websocket.ts]            (class [TerminalWebSocket]),
    - [lib/api/ui-refinements-ws.ts]    (class [UIRefinementsWebSocket]),
    - [lib/components/terminal/Terminal.svelte] ([handleMessage]),
    - [routes/ui-refinements/+page.svelte] (the chat queue),
    - [lib/components/kanban/TaskCard.svelte], [KanbanBoard.svelte] and
      [routes/task/[id]/+page.svelte]   (which controls are rendered),
    - [lib/api/client.ts]               ([handleResponse], [ApiError]),
    - [lib/stores/settings.svelte.ts]   ([get], [set]),
    together with the properties the dashboard relies on.

    Conventions.  A JavaScript [number] that only ever holds a counter is a
    [nat]; other integral numbers are [Z].  A JavaScript string is a
    [string].  An object used as a string-keyed dictionary is a
    [gmap string _]; property names inherited from [Object.prototype] are
    outside the model.  A method that mutates [this] is a function from the
    old state to the new one; a call that may throw returns an [option]. *)

From Stdlib Require Import ZArith String List Bool Lia Ascii.
From stdpp Require Import base gmap list strings pretty.
Import ListNotations.
Open Scope string_scope.
Open Scope list_scope.
Open Scope nat_scope.

(* ================================================================== *)
(** * JavaScript values used by the sources *)
(* ================================================================== *)

Module Js.

(** [hay.includes(needle)]: [needle] occurs in [hay] as a contiguous
    substring. *)
Fixpoint includes (needle hay : string) : bool :=
  String.prefix needle hay ||
  match hay with
  | EmptyString => false
  | String _ rest => includes needle rest
  end.

(** The values handed to [JSON.stringify].  A WebSocket frame is kept as
    the value it serialises; the fields of an object keep the order of
    the object literal. *)
#[local] Unset Elimination Schemes.
Inductive Json : Type :=
| JNull
| JBool (b : bool)
| JNum (n : Z)
| JStr (s : string)
| JObj (fields : list (string * Json)).
#[local] Set Elimination Schemes.

(** [a ?? b] where [a] may be [undefined]. *)
Definition nullish {A : Type} (a : option A) (b : A) : A :=
  match a with
  | Some v => v
  | None => b
  end.

(** [a || b] on strings: the empty string is the only falsy string. *)
Definition or_else (a b : string) : string :=
  if String.eqb a "" then b else a.

Definition ESC : string := String "027"%char "".
Definition CRLF : string := String "013"%char (String "010"%char "").

End Js.

Import Js.

(* ================================================================== *)
(** * The browser's [WebSocket] object, as far as the clients use it *)
(* ================================================================== *)

Module Net.

Inductive ReadyState : Type := CONNECTING | OPEN | CLOSING | CLOSED.

#[export] Instance ReadyState_eq_dec : EqDecision ReadyState.
Proof. solve_decision. Defined.

(** The two URLs the clients build:
    [`${WS_BASE}/ws/tasks/${taskId}/terminal`] and
    [`${WS_BASE}/ws/ui-refinements/${sessionId}`]. *)
Inductive Endpoint : Type :=
| TaskTerminal (taskId : Z)
| SessionStream (sessionId : string).

Record WebSocket : Type := mkWebSocket {
  url : Endpoint;
  readyState : ReadyState;
  sent : list Json      (* frames handed to the network, oldest first *)
}.

Definition set_readyState (r : ReadyState) (s : WebSocket) : WebSocket :=
  {| url := url s; readyState := r; sent := sent s |}.

(** [new WebSocket(url)] *)
Definition WebSocket_new (u : Endpoint) : WebSocket :=
  {| url := u; readyState := CONNECTING; sent := [] |}.

(** [socket.send(data)]: throws [InvalidStateError] while CONNECTING,
    transmits when OPEN, and drops the data once closing or closed. *)
Definition WebSocket_send (data : Json) (s : WebSocket) : option WebSocket :=
  match readyState s with
  | CONNECTING => None
  | OPEN => Some {| url := url s; readyState := OPEN; sent := sent s ++ [data] |}
  | CLOSING | CLOSED => Some s
  end.

(** [socket.close()] starts the closing handshake unless it is already
    under way or finished. *)
Definition WebSocket_close (s : WebSocket) : WebSocket :=
  match readyState s with
  | CONNECTING | OPEN => set_readyState CLOSING s
  | CLOSING | CLOSED => s
  end.

End Net.

Import Net.

(* ================================================================== *)
(** * The WebSocket connection managers *)
(* ================================================================== *)

(** [TerminalWebSocket] and [UIRefinementsWebSocket] are the same class up
    to the type of the id ([taskId : number], [sessionId : string]), the
    URL built from it, and what [onmessage] does with a parsed message.
    The shared text is embedded once, over these three parameters. *)

Module Ws.

(** What a handler does to the outside of the object: the callbacks given
    to the constructor, and the reconnect timer it arms. *)
Inductive Effect (Msg : Type) : Type :=
| OnMessage (msg : Msg)              (* this.onMessage(msg) *)
| OnClose                            (* this.onClose() *)
| OnConnect (isRunning : bool)       (* this.onConnect(isRunning) *)
| SetTimeout (delay : Z).            (* setTimeout(() => this.connect(), delay) *)
Arguments OnMessage {Msg} msg.
Arguments OnClose {Msg}.
Arguments OnConnect {Msg} isRunning.
Arguments SetTimeout {Msg} delay.

Definition is_SetTimeout {Msg : Type} (e : Effect Msg) : bool :=
  match e with
  | SetTimeout _ => true
  | _ => false
  end.

(** How many reconnect timers a sequence of effects arms. *)
Definition reconnects {Msg : Type} (out : list (Effect Msg)) : nat :=
  length (filter (fun e => is_SetTimeout e = true) out).

(** The private fields of the object, followed by the part of the browser
    it owns: every socket it has constructed (a reference is an index into
    [sockets]) and the reconnect timers that are armed and have not fired. *)
Record Client (Id : Type) : Type := mkClient {
  ws : option nat;
  ident : Id;
  reconnectAttempts : nat;
  maxReconnectAttempts : nat;
  sockets : list WebSocket;
  timers : list Z
}.
Arguments mkClient {Id}.
Arguments ws {Id}.
Arguments ident {Id}.
Arguments reconnectAttempts {Id}.
Arguments maxReconnectAttempts {Id}.
Arguments sockets {Id}.
Arguments timers {Id}.

(** [1000 * this.reconnectAttempts], in milliseconds. *)
Definition reconnectDelay (attempts : nat) : Z := (1000 * Z.of_nat attempts)%Z.

(** What the server sends is text; [JSON.parse] either yields a message
    of the declared union or throws. *)
Definition Frame (Msg : Type) : Type := option Msg.

(** Calls into the object, and the events the browser raises on the
    sockets and timers the object created. *)
Inductive Event (Msg : Type) : Type :=
| CallConnect
| CallDisconnect
| CallSend (data : Json)                 (* sendInput, sendKill, spawnAgent *)
| SocketOpen (i : nat)
| SocketMessage (i : nat) (data : Frame Msg)
| SocketClose (i : nat)
| TimerFired (k : nat).
Arguments CallConnect {Msg}.
Arguments CallDisconnect {Msg}.
Arguments CallSend {Msg} data.
Arguments SocketOpen {Msg} i.
Arguments SocketMessage {Msg} i data.
Arguments SocketClose {Msg} i.
Arguments TimerFired {Msg} k.

Definition is_SocketOpen {Msg : Type} (e : Event Msg) : bool :=
  match e with
  | SocketOpen _ => true
  | _ => false
  end.

(** A backoff that is exponential in the attempt number: from each of the
    attempts the cap allows to the next, the delay is multiplied by one
    fixed factor [num / den] greater than one. *)
Definition exponential_backoff (delay : nat -> Z) : Prop :=
  exists num den : Z,
    (0 < den < num)%Z /\
    forall n : nat, 1 <= n < 5 -> (delay (S n) * den = delay n * num)%Z.

Section Client.

Context {Id Msg : Type}.
Variable endpoint : Id -> Endpoint.

(** The [is_running] of a message that [onmessage] hands to
    [this.onConnect] instead of [this.onMessage]. *)
Variable to_onConnect : Msg -> option bool.

(** [constructor]: field initialisers, then the assignments. *)
Definition new (id : Id) : Client Id :=
  {| ws := None; ident := id;
     reconnectAttempts := 0; maxReconnectAttempts := 5;
     sockets := []; timers := [] |}.

(** [this.ws?.readyState === WebSocket.OPEN] *)
Definition isConnected (c : Client Id) : bool :=
  match ws c with
  | Some i =>
      match sockets c !! i with
      | Some s => bool_decide (readyState s = OPEN)
      | None => false
      end
  | None => false
  end.

(** [connect()]: the early return, then a fresh socket is constructed and
    stored in [this.ws]; the four handlers it receives are [onopen],
    [onmessage], [onerror] (logging only) and [onclose] below. *)
Definition connect (c : Client Id) : Client Id :=
  if isConnected c then c
  else
    {| ws := Some (length (sockets c)); ident := ident c;
       reconnectAttempts := reconnectAttempts c;
       maxReconnectAttempts := maxReconnectAttempts c;
       sockets := sockets c ++ [WebSocket_new (endpoint (ident c))];
       timers := timers c |}.

(** [this.ws.onopen] *)
Definition onopen (c : Client Id) : Client Id :=
  {| ws := ws c; ident := ident c;
     reconnectAttempts := 0;
     maxReconnectAttempts := maxReconnectAttempts c;
     sockets := sockets c; timers := timers c |}.

(** [this.ws.onmessage]: a parse failure is caught and logged. *)
Definition onmessage (data : Frame Msg) (c : Client Id) : Client Id * list (Effect Msg) :=
  match data with
  | Some msg =>
      match to_onConnect msg with
      | Some isRunning => (c, [OnConnect isRunning])
      | None => (c, [OnMessage msg])
      end
  | None => (c, [])
  end.

(** [this.ws.onclose] *)
Definition onclose (c : Client Id) : Client Id * list (Effect Msg) :=
  if (reconnectAttempts c <? maxReconnectAttempts c)%nat then
    let attempts := S (reconnectAttempts c) in
    ({| ws := ws c; ident := ident c;
        reconnectAttempts := attempts;
        maxReconnectAttempts := maxReconnectAttempts c;
        sockets := sockets c;
        timers := timers c ++ [reconnectDelay attempts] |},
     [OnClose; SetTimeout (reconnectDelay attempts)])
  else (c, [OnClose]).

Definition set_sockets (l : list WebSocket) (c : Client Id) : Client Id :=
  {| ws := ws c; ident := ident c;
     reconnectAttempts := reconnectAttempts c;
     maxReconnectAttempts := maxReconnectAttempts c;
     sockets := l; timers := timers c |}.

(** [this.ws.send(data)]; [None] is an exception reaching the caller. *)
Definition ws_send (data : Json) (c : Client Id) : option (Client Id) :=
  match ws c with
  | Some i =>
      match sockets c !! i with
      | Some s =>
          match WebSocket_send data s with
          | Some s' => Some (set_sockets (<[i := s']> (sockets c)) c)
          | None => None
          end
      | None => None
      end
  | None => None
  end.

(** The body shared by [sendInput], [sendKill] and [spawnAgent]:
    [if (this.ws?.readyState === WebSocket.OPEN) this.ws.send(JSON.stringify(v))]. *)
Definition send_if_open (v : Json) (c : Client Id) : option (Client Id) :=
  if isConnected c then ws_send v c else Some c.

(** [sendInput(data)] *)
Definition sendInput (data : string) (c : Client Id) : option (Client Id) :=
  send_if_open (JObj [("type", JStr "input"); ("data", JStr data)]) c.

(** [sendKill()] *)
Definition sendKill (c : Client Id) : option (Client Id) :=
  send_if_open (JObj [("type", JStr "kill")]) c.

(** [disconnect()] *)
Definition disconnect (c : Client Id) : Client Id :=
  {| ws := None; ident := ident c;
     reconnectAttempts := reconnectAttempts c;
     maxReconnectAttempts := 0;
     sockets := match ws c with
                | Some i => alter WebSocket_close i (sockets c)
                | None => sockets c
                end;
     timers := timers c |}.

(** ** The browser side *)

(** The connection of socket [i] is established: its state becomes OPEN
    and its [onopen] runs.  Only a CONNECTING socket can open. *)
Definition socket_open (i : nat) (c : Client Id) : Client Id :=
  match sockets c !! i with
  | Some s =>
      if bool_decide (readyState s = CONNECTING)
      then onopen (set_sockets (<[i := set_readyState OPEN s]> (sockets c)) c)
      else c
  | None => c
  end.

(** A frame arrives on socket [i]; frames are delivered on OPEN sockets. *)
Definition socket_message (i : nat) (data : Frame Msg) (c : Client Id)
  : Client Id * list (Effect Msg) :=
  match sockets c !! i with
  | Some s =>
      if bool_decide (readyState s = OPEN) then onmessage data c else (c, [])
  | None => (c, [])
  end.

(** Socket [i] is closed (handshake finished, connection lost or never
    made): its state becomes CLOSED and its [onclose] runs, once. *)
Definition socket_close (i : nat) (c : Client Id) : Client Id * list (Effect Msg) :=
  match sockets c !! i with
  | Some s =>
      if bool_decide (readyState s = CLOSED) then (c, [])
      else onclose (set_sockets (<[i := set_readyState CLOSED s]> (sockets c)) c)
  | None => (c, [])
  end.

(** The [k]-th armed timer fires: it is disarmed and runs [this.connect()]. *)
Definition timer_fired (k : nat) (c : Client Id) : Client Id :=
  match timers c !! k with
  | Some _ =>
      connect {| ws := ws c; ident := ident c;
                 reconnectAttempts := reconnectAttempts c;
                 maxReconnectAttempts := maxReconnectAttempts c;
                 sockets := sockets c;
                 timers := delete k (timers c) |}
  | None => c
  end.

(** One call or browser event.  A call that throws leaves the object as
    it was. *)
Definition step (e : Event Msg) (c : Client Id) : Client Id * list (Effect Msg) :=
  match e with
  | CallConnect => (connect c, [])
  | CallDisconnect => (disconnect c, [])
  | CallSend v => (default c (send_if_open v c), [])
  | SocketOpen i => (socket_open i c, [])
  | SocketMessage i data => socket_message i data c
  | SocketClose i => socket_close i c
  | TimerFired k => (timer_fired k c, [])
  end.

Fixpoint run (es : list (Event Msg)) (c : Client Id) : Client Id * list (Effect Msg) :=
  match es with
  | [] => (c, [])
  | e :: es' =>
      let (c1, out1) := step e c in
      let (c2, out2) := run es' c1 in
      (c2, out1 ++ out2)
  end.

End Client.

End Ws.

(** ** [lib/api/websocket.ts] *)

Module TerminalWebSocket.

(** [type WsMessage = OutputMessage | ConnectedMessage | ErrorMessage] *)
Inductive WsMessage : Type :=
| OutputMessage (line : string) (is_stderr : bool)
| ConnectedMessage (task_id : Z) (is_running : bool)
| ErrorMessage (message : string).

Definition t : Type := Ws.Client Z.
Definition Event : Type := Ws.Event WsMessage.
Definition Effect : Type := Ws.Effect WsMessage.

Definition taskId (c : t) : Z := Ws.ident c.

Definition endpoint (taskId : Z) : Endpoint := TaskTerminal taskId.

(** [onmessage] hands every parsed message to [this.onMessage]. *)
Definition to_onConnect (msg : WsMessage) : option bool := None.

Definition new (taskId : Z) : t := Ws.new taskId.
Definition connect : t -> t := Ws.connect endpoint.
Definition sendInput : string -> t -> option t := Ws.sendInput.
Definition sendKill : t -> option t := Ws.sendKill.
Definition disconnect : t -> t := Ws.disconnect.
Definition isConnected : t -> bool := Ws.isConnected.
Definition step : Event -> t -> t * list Effect := Ws.step endpoint to_onConnect.
Definition run : list Event -> t -> t * list Effect := Ws.run endpoint to_onConnect.

End TerminalWebSocket.

(** ** [lib/api/ui-refinements-ws.ts] *)

Module UIRefinementsWebSocket.

(** [type SessionWsMessage =
      OutputMessage | ConnectedMessage | ErrorMessage | SpawnedMessage] *)
Inductive SessionWsMessage : Type :=
| OutputMessage (line : string) (is_stderr : bool)
| ConnectedMessage (session_id : string) (is_running : bool)
| ErrorMessage (message : string)
| SpawnedMessage (pid : Z).

Definition t : Type := Ws.Client string.
Definition Event : Type := Ws.Event SessionWsMessage.
Definition Effect : Type := Ws.Effect SessionWsMessage.

Definition sessionId (c : t) : string := Ws.ident c.

Definition endpoint (sessionId : string) : Endpoint := SessionStream sessionId.

(** [onmessage]: a [connected] message goes to [this.onConnect], every
    other one to [this.onMessage]. *)
Definition to_onConnect (msg : SessionWsMessage) : option bool :=
  match msg with
  | ConnectedMessage _ is_running => Some is_running
  | _ => None
  end.

(** The object literal serialised by [spawnAgent]. *)
Definition spawn_frame (prompt agent worktreePath : string) : Json :=
  JObj [("type", JStr "spawn"); ("prompt", JStr prompt);
        ("agent", JStr agent); ("worktree_path", JStr worktreePath)].

Definition new (sessionId : string) : t := Ws.new sessionId.
Definition connect : t -> t := Ws.connect endpoint.

(** [spawnAgent(prompt, agent, worktreePath)] *)
Definition spawnAgent (prompt agent worktreePath : string) (c : t) : option t :=
  Ws.send_if_open (spawn_frame prompt agent worktreePath) c.

Definition sendInput : string -> t -> option t := Ws.sendInput.
Definition sendKill : t -> option t := Ws.sendKill.
Definition disconnect : t -> t := Ws.disconnect.
Definition isConnected : t -> bool := Ws.isConnected.
Definition step : Event -> t -> t * list Effect := Ws.step endpoint to_onConnect.
Definition run : list Event -> t -> t * list Effect := Ws.run endpoint to_onConnect.

End UIRefinementsWebSocket.

(* ================================================================== *)
(** * [lib/components/terminal/Terminal.svelte] *)
(* ================================================================== *)

Module Terminal.

Import TerminalWebSocket.

(** Calls on the xterm instance. *)
Inductive TermOp : Type :=
| Write (data : string)
| Writeln (data : string).

(** The component's reactive state and what it has written to xterm. *)
Record View : Type := mkView {
  connected : bool;
  isRunning : bool;
  terminal : list TermOp
}.

(** [let connected = $state(false); let isRunning = $state(false)] *)
Definition initial : View :=
  {| connected := false; isRunning := false; terminal := [] |}.

Definition EXIT_MARKER : string := "Process exited with code".

(** [handleMessage(msg)] *)
Definition handleMessage (msg : WsMessage) (v : View) : View :=
  match msg with
  | ConnectedMessage _ is_running =>
      {| connected := true;
         isRunning := is_running;
         terminal :=
           (terminal v ++ [Writeln (ESC +:+ "[32m[Connected to terminal]" +:+ ESC +:+ "[0m")])
           ++ (if negb is_running
               then [Writeln (ESC +:+ "[33m[Process is not running]" +:+ ESC +:+ "[0m")]
               else []) |}
  | OutputMessage line is_stderr =>
      {| connected := connected v;
         isRunning :=
           if includes EXIT_MARKER line then false
           else if negb (isRunning v) then true
           else isRunning v;
         terminal :=
           terminal v ++
           [if is_stderr
            then Write (ESC +:+ "[31m" +:+ line +:+ ESC +:+ "[0m" +:+ CRLF)
            else Write (line +:+ CRLF)] |}
  | ErrorMessage message =>
      {| connected := connected v;
         isRunning := isRunning v;
         terminal :=
           terminal v ++ [Writeln (ESC +:+ "[31m[Error: " +:+ message +:+ "]" +:+ ESC +:+ "[0m")] |}
  end.

(** The callbacks given to [new TerminalWebSocket(taskId, handleMessage,
    () => { connected = false })]. *)
Definition callback (e : Effect) (v : View) : View :=
  match e with
  | Ws.OnMessage msg => handleMessage msg v
  | Ws.OnClose => {| connected := false; isRunning := isRunning v; terminal := terminal v |}
  | Ws.OnConnect _ => v
  | Ws.SetTimeout _ => v
  end.

Definition callbacks (es : list Effect) (v : View) : View :=
  fold_left (fun v e => callback e v) es v.

(** The component receives the messages of a stream one after the other. *)
Definition receive (msgs : list WsMessage) (v : View) : View :=
  fold_left (fun v msg => handleMessage msg v) msgs v.

End Terminal.

(* ================================================================== *)
(** * [routes/ui-refinements/+page.svelte]: the chat and its queue *)
(* ================================================================== *)

Module ChatPage.

Import UIRefinementsWebSocket.

Inductive Role : Type := user | assistant.

#[export] Instance Role_eq_dec : EqDecision Role.
Proof. solve_decision. Defined.

Inductive Status : Type := pending | processing | completed | error.

#[export] Instance Status_eq_dec : EqDecision Status.
Proof. solve_decision. Defined.

Inductive AgentType : Type := claude | codex | gemini.

(** The string the union member stands for. *)
Definition agent_name (a : AgentType) : string :=
  match a with
  | claude => "claude"
  | codex => "codex"
  | gemini => "gemini"
  end.

(** [ElementMetadata]; [attributes], [xpath] and [boundingRect] are never
    read by the page and are left out. *)
Record ElementMetadata : Type := mkElement {
  tagName : string;
  el_id : option string;
  classList : list string;
  textContent : option string;
  cssSelector : string
}.

Record ChatMessage : Type := mkChatMessage {
  id : string;
  role : Role;
  content : string;
  timestamp : Z;
  elementContext : option ElementMetadata;
  status : Status
}.

Record QueuedMessage : Type := mkQueued {
  q_id : string;
  q_content : string;
  q_elementContext : option ElementMetadata;
  queuePosition : nat
}.

(** The [$state] variables of the page that the chat reads or writes,
    and how many times [crypto.randomUUID()] and [Date.now()] have been
    called. *)
Record Page : Type := mkPage {
  branchCreated : bool;
  currentBranch : option string;
  sessionId : option string;
  wsClient : option UIRefinementsWebSocket.t;
  targetRepoPath : string;
  messages : list ChatMessage;
  messageQueue : list QueuedMessage;
  isProcessing : bool;
  selectedAgent : AgentType;
  currentAssistantMessageId : option string;
  highlightMode : bool;
  selectedElement : option ElementMetadata;
  uuids : nat;
  ticks : nat
}.

Definition initial : Page :=
  {| branchCreated := false; currentBranch := None; sessionId := None;
     wsClient := None; targetRepoPath := "";
     messages := []; messageQueue := []; isProcessing := false;
     selectedAgent := claude; currentAssistantMessageId := None;
     highlightMode := false; selectedElement := None;
     uuids := 0; ticks := 0 |}.

(** Field updates. *)
Definition set_messages (l : list ChatMessage) (p : Page) : Page :=
  {| branchCreated := branchCreated p; currentBranch := currentBranch p;
     sessionId := sessionId p; wsClient := wsClient p;
     targetRepoPath := targetRepoPath p;
     messages := l; messageQueue := messageQueue p;
     isProcessing := isProcessing p; selectedAgent := selectedAgent p;
     currentAssistantMessageId := currentAssistantMessageId p;
     highlightMode := highlightMode p; selectedElement := selectedElement p;
     uuids := uuids p; ticks := ticks p |}.

Definition set_messageQueue (q : list QueuedMessage) (p : Page) : Page :=
  {| branchCreated := branchCreated p; currentBranch := currentBranch p;
     sessionId := sessionId p; wsClient := wsClient p;
     targetRepoPath := targetRepoPath p;
     messages := messages p; messageQueue := q;
     isProcessing := isProcessing p; selectedAgent := selectedAgent p;
     currentAssistantMessageId := currentAssistantMessageId p;
     highlightMode := highlightMode p; selectedElement := selectedElement p;
     uuids := uuids p; ticks := ticks p |}.

Definition set_isProcessing (b : bool) (p : Page) : Page :=
  {| branchCreated := branchCreated p; currentBranch := currentBranch p;
     sessionId := sessionId p; wsClient := wsClient p;
     targetRepoPath := targetRepoPath p;
     messages := messages p; messageQueue := messageQueue p;
     isProcessing := b; selectedAgent := selectedAgent p;
     currentAssistantMessageId := currentAssistantMessageId p;
     highlightMode := highlightMode p; selectedElement := selectedElement p;
     uuids := uuids p; ticks := ticks p |}.

Definition set_currentAssistantMessageId (o : option string) (p : Page) : Page :=
  {| branchCreated := branchCreated p; currentBranch := currentBranch p;
     sessionId := sessionId p; wsClient := wsClient p;
     targetRepoPath := targetRepoPath p;
     messages := messages p; messageQueue := messageQueue p;
     isProcessing := isProcessing p; selectedAgent := selectedAgent p;
     currentAssistantMessageId := o;
     highlightMode := highlightMode p; selectedElement := selectedElement p;
     uuids := uuids p; ticks := ticks p |}.

Definition set_wsClient (o : option UIRefinementsWebSocket.t) (p : Page) : Page :=
  {| branchCreated := branchCreated p; currentBranch := currentBranch p;
     sessionId := sessionId p; wsClient := o;
     targetRepoPath := targetRepoPath p;
     messages := messages p; messageQueue := messageQueue p;
     isProcessing := isProcessing p; selectedAgent := selectedAgent p;
     currentAssistantMessageId := currentAssistantMessageId p;
     highlightMode := highlightMode p; selectedElement := selectedElement p;
     uuids := uuids p; ticks := ticks p |}.

Definition set_selection (hl : bool) (o : option ElementMetadata) (p : Page) : Page :=
  {| branchCreated := branchCreated p; currentBranch := currentBranch p;
     sessionId := sessionId p; wsClient := wsClient p;
     targetRepoPath := targetRepoPath p;
     messages := messages p; messageQueue := messageQueue p;
     isProcessing := isProcessing p; selectedAgent := selectedAgent p;
     currentAssistantMessageId := currentAssistantMessageId p;
     highlightMode := hl; selectedElement := o;
     uuids := uuids p; ticks := ticks p |}.

Definition EXIT_MARKER : string := "[Process exited with code".

Definition NOT_CONNECTED : string :=
  "Error: Not connected to backend or no target repository configured.".

(** A string is truthy when it is not empty; an optional one when it is
    defined and not empty. *)
Definition truthy (s : string) : bool := negb (String.eqb s "").

Definition truthy_opt (o : option string) : bool :=
  match o with
  | Some s => truthy s
  | None => false
  end.

(** [buildPrompt(message)] *)
Definition buildPrompt (message : ChatMessage) : string :=
  let prompt := content message in
  match elementContext message with
  | Some ctx =>
      let prompt := prompt +:+ (String "010"%char (String "010"%char "[Element Context]"))
                           +:+ (String "010"%char "Tag: ") +:+ tagName ctx in
      let prompt := if truthy_opt (el_id ctx)
                    then prompt +:+ (String "010"%char "ID: ") +:+ default "" (el_id ctx)
                    else prompt in
      let prompt := if 0 <? length (classList ctx)
                    then prompt +:+ (String "010"%char "Classes: ")
                                +:+ String.concat " " (classList ctx)
                    else prompt in
      let prompt := if truthy (cssSelector ctx)
                    then prompt +:+ (String "010"%char "CSS Selector: ") +:+ cssSelector ctx
                    else prompt in
      let prompt := if truthy_opt (textContent ctx)
                    then prompt +:+ (String "010"%char "Text Content: ")
                                +:+ default "" (textContent ctx)
                    else prompt in
      prompt
  | None => prompt
  end.

(** One optional line of the element block of a prompt: a line break, the
    label and the value when it is [shown], nothing otherwise. *)
Definition context_line (shown : bool) (label value : string) : string :=
  if shown then String "010"%char label +:+ value else "".

Section WithEnvironment.

(** The values returned by the successive calls of [crypto.randomUUID()]
    and of [Date.now()]. *)
Variable randomUUID : nat -> string.
Variable now : nat -> Z.

Definition take_uuid (p : Page) : string * Page :=
  (randomUUID (uuids p),
   {| branchCreated := branchCreated p; currentBranch := currentBranch p;
      sessionId := sessionId p; wsClient := wsClient p;
      targetRepoPath := targetRepoPath p;
      messages := messages p; messageQueue := messageQueue p;
      isProcessing := isProcessing p; selectedAgent := selectedAgent p;
      currentAssistantMessageId := currentAssistantMessageId p;
      highlightMode := highlightMode p; selectedElement := selectedElement p;
      uuids := S (uuids p); ticks := ticks p |}).

Definition take_now (p : Page) : Z * Page :=
  (now (ticks p),
   {| branchCreated := branchCreated p; currentBranch := currentBranch p;
      sessionId := sessionId p; wsClient := wsClient p;
      targetRepoPath := targetRepoPath p;
      messages := messages p; messageQueue := messageQueue p;
      isProcessing := isProcessing p; selectedAgent := selectedAgent p;
      currentAssistantMessageId := currentAssistantMessageId p;
      highlightMode := highlightMode p; selectedElement := selectedElement p;
      uuids := uuids p; ticks := S (ticks p) |}).

(** [!wsClient || !targetRepoPath] *)
Definition not_ready (p : Page) : bool :=
  match wsClient p with
  | Some _ => negb (truthy (targetRepoPath p))
  | None => true
  end.

(** [processMessage(message)], with the call of [processNextInQueue()] on
    its first branch passed as [next].  The function is [async] but never
    awaits: its body runs to the end inside the call. *)
Definition processMessage_then (next : Page -> Page) (message : ChatMessage) (p : Page) : Page :=
  if not_ready p then
    let (uuid, p) := take_uuid p in
    let (ts, p) := take_now p in
    let p := set_messages
               (messages p ++
                [{| id := uuid; role := assistant; content := NOT_CONNECTED;
                    timestamp := ts; elementContext := None; status := error |}]) p in
    let p := set_isProcessing false p in
    next p
  else
    let (assistantId, p) := take_uuid p in
    let p := set_currentAssistantMessageId (Some assistantId) p in
    let (ts, p) := take_now p in
    let p := set_messages
               (messages p ++
                [{| id := assistantId; role := assistant; content := "";
                    timestamp := ts; elementContext := None; status := processing |}]) p in
    let prompt := buildPrompt message in
    match wsClient p with
    | Some c =>
        set_wsClient
          (Some (default c (spawnAgent prompt (agent_name (selectedAgent p)) (targetRepoPath p) c))) p
    | None => p
    end.

(** [processNextInQueue()] when [messageQueue] is [q]. *)
Fixpoint processQueue (q : list QueuedMessage) (p : Page) : Page :=
  match q with
  | [] => p
  | next :: rest =>
      let p := set_messageQueue rest p in
      let (ts, p) := take_now p in
      let newMessage :=
        {| id := q_id next; role := user; content := q_content next;
           timestamp := ts; elementContext := q_elementContext next;
           status := processing |} in
      let p := set_isProcessing true p in
      let p := set_messages (messages p ++ [newMessage]) p in
      processMessage_then (processQueue rest) newMessage p
  end.

(** [processNextInQueue()] *)
Definition processNextInQueue (p : Page) : Page :=
  processQueue (messageQueue p) p.

(** [processMessage(message)] *)
Definition processMessage (message : ChatMessage) (p : Page) : Page :=
  processMessage_then processNextInQueue message p.

(** [handleSendMessage(content)] *)
Definition handleSendMessage (content : string) (p : Page) : Page :=
  let (messageId, p) := take_uuid p in
  let (ts, p) := take_now p in
  let newMessage :=
    {| id := messageId; role := user; content := content; timestamp := ts;
       elementContext := selectedElement p; status := pending |} in
  let p :=
    if isProcessing p then
      set_messageQueue
        (messageQueue p ++
         [{| q_id := messageId; q_content := content;
             q_elementContext := selectedElement p;
             queuePosition := length (messageQueue p) + 1 |}]) p
    else
      let p := set_isProcessing true p in
      let p := set_messages
                 (messages p ++
                  [{| id := messageId; role := user; content := content;
                      timestamp := ts; elementContext := selectedElement p;
                      status := processing |}]) p in
      processMessage newMessage p in
  set_selection (highlightMode p) None p.

(** [if (currentAssistantMessageId) messages = messages.map((m) =>
    m.id === currentAssistantMessageId ? f(m) : m)]; an empty id is falsy
    like [null]. *)
Definition update_current (f : ChatMessage -> ChatMessage) (p : Page) : Page :=
  match currentAssistantMessageId p with
  | Some cur =>
      if truthy cur then
        set_messages
          (map (fun m => if String.eqb (id m) cur then f m else m) (messages p)) p
      else p
  | None => p
  end.

Definition with_content_status (c : string) (s : Status) (m : ChatMessage) : ChatMessage :=
  {| id := id m; role := role m; content := c; timestamp := timestamp m;
     elementContext := elementContext m; status := s |}.

(** [handleWsMessage(msg)] *)
Definition handleWsMessage (msg : SessionWsMessage) (p : Page) : Page :=
  match msg with
  | OutputMessage line _ =>
      let p := update_current
                 (fun m => with_content_status
                             (content m +:+ line +:+ String "010"%char "") (status m) m) p in
      if includes EXIT_MARKER line then
        let p := update_current (fun m => with_content_status (content m) completed m) p in
        let p := set_currentAssistantMessageId None p in
        let p := set_isProcessing false p in
        processNextInQueue p
      else p
  | ErrorMessage message =>
      let p := update_current
                 (fun m => with_content_status
                             (content m +:+ String "010"%char "Error: " +:+ message) error m) p in
      let p := set_currentAssistantMessageId None p in
      let p := set_isProcessing false p in
      processNextInQueue p
  | _ => p
  end.

(** [handleCancelQueue(messageId)] *)
Definition handleCancelQueue (messageId : string) (p : Page) : Page :=
  set_messageQueue
    (filter (fun m => q_id m ≠ messageId) (messageQueue p)) p.

(** [handleElementSelect(element)] *)
Definition handleElementSelect (element : ElementMetadata) (p : Page) : Page :=
  set_selection false (Some element) p.

(** [handleBranchCreate(branchName)], with [connectWebSocket()] inlined:
    [if (!sessionId) return] leaves [wsClient] alone. *)
Definition handleBranchCreate (branchName : string) (p : Page) : Page :=
  let (sid, p) := take_uuid p in
  {| branchCreated := true; currentBranch := Some branchName;
     sessionId := Some sid;
     wsClient :=
       if truthy sid
       then Some (UIRefinementsWebSocket.connect (UIRefinementsWebSocket.new sid))
       else wsClient p;
     targetRepoPath := targetRepoPath p;
     messages := messages p; messageQueue := messageQueue p;
     isProcessing := isProcessing p; selectedAgent := selectedAgent p;
     currentAssistantMessageId := currentAssistantMessageId p;
     highlightMode := highlightMode p; selectedElement := selectedElement p;
     uuids := uuids p; ticks := ticks p |}.

(** The callbacks given to [new UIRefinementsWebSocket(sessionId,
    handleWsMessage, handleWsClose, handleWsConnect)]; the last two only
    write to the console. *)
Definition callback (e : Effect) (p : Page) : Page :=
  match e with
  | Ws.OnMessage msg => handleWsMessage msg p
  | _ => p
  end.

(** A browser event on the sockets and timers of [wsClient]: the client's
    handler runs, then the callbacks it invoked. *)
Definition socket_event (e : UIRefinementsWebSocket.Event) (p : Page) : Page :=
  match wsClient p with
  | Some c =>
      let (c', out) := UIRefinementsWebSocket.step e c in
      fold_left (fun p e => callback e p) out (set_wsClient (Some c') p)
  | None => p
  end.

(** What happens to the page: the user acts on the chat panel, the
    settings request of [onMount] resolves, or the browser raises an
    event for the client. *)
Inductive Event : Type :=
| BranchCreate (branchName : string)
| SettingsLoaded (target_repo_path : option string)
| SendMessage (content : string)
| CancelQueue (messageId : string)
| AgentChange (agent : AgentType)
| ElementSelect (element : ElementMetadata)
| ClearElement
| SocketOpen (i : nat)
| SocketMessage (i : nat) (data : Ws.Frame SessionWsMessage)
| SocketClose (i : nat)
| TimerFired (k : nat)
| Destroy.

Definition step (e : Event) (p : Page) : Page :=
  match e with
  | BranchCreate branchName =>
      (* the overlay is rendered under [{#if !branchCreated}] *)
      if branchCreated p then p else handleBranchCreate branchName p
  | SettingsLoaded path =>
      (* [if (settings.target_repo_path) targetRepoPath = ...] *)
      if truthy_opt path then
        {| branchCreated := branchCreated p; currentBranch := currentBranch p;
           sessionId := sessionId p; wsClient := wsClient p;
           targetRepoPath := default "" path;
           messages := messages p; messageQueue := messageQueue p;
           isProcessing := isProcessing p; selectedAgent := selectedAgent p;
           currentAssistantMessageId := currentAssistantMessageId p;
           highlightMode := highlightMode p; selectedElement := selectedElement p;
           uuids := uuids p; ticks := ticks p |}
      else p
  | SendMessage content => handleSendMessage content p
  | CancelQueue messageId => handleCancelQueue messageId p
  | AgentChange agent =>
      {| branchCreated := branchCreated p; currentBranch := currentBranch p;
         sessionId := sessionId p; wsClient := wsClient p;
         targetRepoPath := targetRepoPath p;
         messages := messages p; messageQueue := messageQueue p;
         isProcessing := isProcessing p; selectedAgent := agent;
         currentAssistantMessageId := currentAssistantMessageId p;
         highlightMode := highlightMode p; selectedElement := selectedElement p;
         uuids := uuids p; ticks := ticks p |}
  | ElementSelect element => handleElementSelect element p
  | ClearElement => set_selection (highlightMode p) None p
  | SocketOpen i => socket_event (Ws.SocketOpen i) p
  | SocketMessage i data => socket_event (Ws.SocketMessage i data) p
  | SocketClose i => socket_event (Ws.SocketClose i) p
  | TimerFired k => socket_event (Ws.TimerFired k) p
  | Destroy =>
      (* [onDestroy(() => wsClient?.disconnect())] *)
      set_wsClient (UIRefinementsWebSocket.disconnect <$> wsClient p) p
  end.

Definition run (es : list Event) (p : Page) : Page :=
  fold_left (fun p e => step e p) es p.

(** A message that ends the current chat message: an output line
    carrying the exit marker, or an error. *)
Definition ends_message (msg : SessionWsMessage) : bool :=
  match msg with
  | OutputMessage line _ => includes EXIT_MARKER line
  | ErrorMessage _ => true
  | _ => false
  end.

(** The arrival of such a message. *)
Definition is_completion (e : Event) : bool :=
  match e with
  | SocketMessage _ (Some msg) => ends_message msg
  | _ => false
  end.

Definition is_cancel (e : Event) : bool :=
  match e with
  | CancelQueue _ => true
  | _ => false
  end.

(** The ids of the user messages in the order in which they were handed
    to [processMessage], and of those still waiting in the queue. *)
Definition processed (p : Page) : list string :=
  map id (filter (fun m => role m = user) (messages p)).

Definition waiting (p : Page) : list string :=
  map q_id (messageQueue p).

(** When nothing is being processed, nothing is waiting. *)
Definition idle_means_empty (p : Page) : Prop :=
  isProcessing p = false -> messageQueue p = [].

(** The messages shown in the state [processing] (those [ChatMessage.svelte]
    draws a spinner for), and the replies of the agent among them. *)
Definition in_processing (p : Page) : list ChatMessage :=
  filter (fun m => status m = processing) (messages p).

Definition streaming (p : Page) : list ChatMessage :=
  filter (fun m => role m = assistant /\ status m = processing) (messages p).

(** At most one reply is being written, it is the one named by
    [currentAssistantMessageId], and there is none on an idle page. *)
Definition one_reply (p : Page) : Prop :=
  length (streaming p) <= 1
  /\ (forall m : ChatMessage,
        m ∈ streaming p -> currentAssistantMessageId p = Some (id m))
  /\ (isProcessing p = false -> currentAssistantMessageId p = None)
  /\ (forall cur : string, currentAssistantMessageId p = Some cur -> cur <> "").

(** The ids given to the messages the user sends in the course of [es],
    in the order of the calls of [handleSendMessage]. *)
Fixpoint arrivals (es : list Event) (p : Page) : list string :=
  match es with
  | [] => []
  | e :: es' =>
      match e with
      | SendMessage _ => [randomUUID (uuids p)]
      | _ => []
      end ++ arrivals es' (step e p)
  end.

End WithEnvironment.

(** A supply of ids and a clock, to run the page on examples. *)
Definition example_uuid (n : nat) : string := "id-" +:+ pretty n.

Definition example_clock (n : nat) : Z := (1700000000000 + Z.of_nat n)%Z.

End ChatPage.

(* ================================================================== *)
(** * The task controls: [TaskCard.svelte], [KanbanBoard.svelte] and the
      task page *)
(* ================================================================== *)

Module Board.

(** [interface Task] of [lib/api/tasks.ts]. *)
Record Task : Type := mkTask {
  id : Z;
  clickup_task_id : string;
  name : string;
  description : option string;
  priority : option Z;
  status : string;
  worktree_path : option string;
  time_spent_ms : Z;
  started_at : option string;
  completed_at : option string;
  is_running : bool
}.

(** The buttons a card or the task page can show. *)
Inductive Control : Type := ViewTerminal | Stop | MarkComplete | Restart | Delete.

#[export] Instance Control_eq_dec : EqDecision Control.
Proof. solve_decision. Defined.

(** Which of the optional handlers a card was given. *)
Record Props : Type := mkProps {
  onStop : bool;
  onRestart : bool;
  onView : bool;
  onDelete : bool;
  onComplete : bool
}.

Definition when (b : bool) (c : Control) : list Control :=
  if b then [c] else [].

(** The [{#if ...}] blocks of [TaskCard.svelte], in document order. *)
Definition TaskCard (props : Props) (task : Task) : list Control :=
  when (onView props) ViewTerminal
  ++ when (String.eqb (status task) "in_progress" && onStop props) Stop
  ++ when (String.eqb (status task) "in_progress" && onComplete props
           && negb (is_running task)) MarkComplete
  ++ when ((String.eqb (status task) "stopped" || String.eqb (status task) "failed")
           && onRestart props) Restart
  ++ when (onDelete props
           && (String.eqb (status task) "stopped" || String.eqb (status task) "failed"
               || String.eqb (status task) "completed")) Delete.

(** [getTasksByStatus(status)] of the tasks store. *)
Definition getTasksByStatus (tasks : list Task) (st : string) : list Task :=
  filter (fun t => status t = st) tasks.

(** [KanbanColumn]: one card per task, all with the column's handlers. *)
Definition KanbanColumn (props : Props) (tasks : list Task) : list (Task * list Control) :=
  map (fun t => (t, TaskCard props t)) tasks.

(** [KanbanBoard.svelte]: the five columns and the handlers each is given;
    the last column is rendered under [{#if tasks.failed.length > 0}]. *)
Definition KanbanBoard (tasks : list Task) : list (Task * list Control) :=
  KanbanColumn {| onStop := false; onRestart := false; onView := true;
                  onDelete := false; onComplete := false |}
               (getTasksByStatus tasks "queued")
  ++ KanbanColumn {| onStop := true; onRestart := false; onView := true;
                     onDelete := false; onComplete := true |}
                  (getTasksByStatus tasks "in_progress")
  ++ KanbanColumn {| onStop := false; onRestart := true; onView := true;
                     onDelete := true; onComplete := false |}
                  (getTasksByStatus tasks "stopped")
  ++ KanbanColumn {| onStop := false; onRestart := false; onView := true;
                     onDelete := true; onComplete := false |}
                  (getTasksByStatus tasks "completed")
  ++ (if 0 <? length (getTasksByStatus tasks "failed")
      then KanbanColumn {| onStop := false; onRestart := true; onView := true;
                           onDelete := true; onComplete := false |}
                        (getTasksByStatus tasks "failed")
      else []).

(** The header buttons of [routes/task/[id]/+page.svelte], under
    [{#if task}]. *)
Definition TaskPage (task : option Task) : list Control :=
  match task with
  | Some task =>
      when (String.eqb (status task) "in_progress") Stop
      ++ when (String.eqb (status task) "stopped" || String.eqb (status task) "failed") Restart
      ++ when (String.eqb (status task) "stopped" || String.eqb (status task) "failed"
               || String.eqb (status task) "completed") Delete
  | None => []
  end.

(** A stopped task, for examples. *)
Definition example_task : Task :=
  {| id := 7; clickup_task_id := "86abc"; name := "Fix login";
     description := None; priority := Some 2%Z; status := "stopped";
     worktree_path := Some "/wt/7"; time_spent_ms := 61000;
     started_at := None; completed_at := None; is_running := false |}.

(** The three statuses named by the delete rule. *)
Definition deletable (st : string) : Prop :=
  st = "stopped" \/ st = "failed" \/ st = "completed".

End Board.

(* ================================================================== *)
(** * [lib/api/client.ts] *)
(* ================================================================== *)

Module ApiClient.

(** What [handleResponse] reads of a [Response] whose body has arrived. *)
Record Response : Type := mkResponse {
  ok : bool;
  status : Z;
  statusText : string;
  body : string
}.

(** [class ApiError extends Error] *)
Record ApiError : Type := mkApiError {
  err_name : string;
  err_status : Z;
  message : string
}.

(** [new ApiError(status, message)] *)
Definition ApiError_new (status : Z) (message : string) : ApiError :=
  {| err_name := "ApiError"; err_status := status; message := message |}.

(** How the promise returned by [handleResponse] settles. *)
Inductive Outcome (T : Type) : Type :=
| Resolved (value : T)
| RejectedApiError (e : ApiError)
| RejectedSyntaxError (message : string).
Arguments Resolved {T} value.
Arguments RejectedApiError {T} e.
Arguments RejectedSyntaxError {T} message.

Section WithJson.

(** [response.json()]: the body parsed as a [T], or the message of the
    [SyntaxError] it rejects with. *)
Context {T : Type}.
Variable json : string -> T + string.

(** [handleResponse<T>(response)] *)
Definition handleResponse (response : Response) : Outcome T :=
  if negb (ok response) then
    let text := body response in
    RejectedApiError (ApiError_new (status response) (or_else text (statusText response)))
  else
    match json (body response) with
    | inl value => Resolved value
    | inr msg => RejectedSyntaxError msg
    end.

End WithJson.

(** A reader for the bodies [true] and [false], to run [handleResponse]
    on examples. *)
Definition json_bool (body : string) : bool + string :=
  if String.eqb body "true" then inl true
  else if String.eqb body "false" then inl false
  else inr "Unexpected token".

(** What the stores put in their [error] state:
    [e instanceof Error ? e.message : fallback].  Both rejections are
    [Error]s. *)
Definition displayed {T : Type} (o : Outcome T) : option string :=
  match o with
  | Resolved _ => None
  | RejectedApiError e => Some (message e)
  | RejectedSyntaxError msg => Some msg
  end.

End ApiClient.

(* ================================================================== *)
(** * [lib/stores/settings.svelte.ts] *)
(* ================================================================== *)

Module Settings.

(** The module-level [$state] variables. *)
Record Store : Type := mkStore {
  settings : gmap string string;
  loading : bool;
  error : option string;
  dirty : bool
}.

Definition initial : Store :=
  {| settings := ∅; loading := false; error := None; dirty := false |}.

(** [const defaults] *)
Definition defaults : gmap string string :=
  list_to_map
    [("parallel_limit", "1");
     ("trigger_status", "Ready for Dev");
     ("target_status", "In Development");
     ("target_repo_path", "");
     ("dev_branch", "dev");
     ("clickup_workspace_id", "");
     ("clickup_space_id", "");
     ("clickup_folder_id", "");
     ("clickup_list_id", "")].

(** [a ?? b] where [b] too may be [undefined]. *)
Definition nullish_opt {A : Type} (a b : option A) : option A :=
  match a with
  | Some v => Some v
  | None => b
  end.

(** [settings] and [defaults] are plain objects (an object literal, the
    parsed body of a response, a spread of [defaults]); the maps above
    hold their own properties.  Every such object inherits the members of
    [Object.prototype], so [o[key]] is defined for their names too. *)

(** What [o[key]] evaluates to when it is not [undefined]: the string
    stored under the key, or the inherited member of that name (a
    function; for [__proto__] the prototype itself).  A member is neither
    [null] nor [undefined], and it is not a string. *)
Inductive Value : Type :=
| Str (s : string)
| Member (name : string).

(** The names of the members of [Object.prototype] (ECMAScript, 20.1.3
    and B.2.2). *)
Definition Object_prototype : list string :=
  ["constructor"; "hasOwnProperty"; "isPrototypeOf"; "propertyIsEnumerable";
   "toLocaleString"; "toString"; "valueOf"; "__proto__";
   "__defineGetter__"; "__defineSetter__"; "__lookupGetter__"; "__lookupSetter__"].

(** [o[key]]: the own property, else the inherited member, else
    [undefined]. *)
Definition read (o : gmap string string) (key : string) : option Value :=
  match o !! key with
  | Some v => Some (Str v)
  | None => if bool_decide (key ∈ Object_prototype) then Some (Member key) else None
  end.

(** [o[key] = value] for a string [value]: the own property is written
    or created.  Only [__proto__] is an accessor of the prototype: where
    the object has no own property of that name the assignment calls its
    setter, which ignores a string. *)
Definition write (key value : string) (o : gmap string string) : gmap string string :=
  match o !! key with
  | Some _ => <[key := value]> o
  | None => if String.eqb key "__proto__" then o else <[key := value]> o
  end.

(** [get(key)]: [settings[key] ?? defaults[key] ?? ''] *)
Definition get (key : string) (s : Store) : Value :=
  nullish (nullish_opt (read (settings s) key) (read defaults key)) (Str "").

(** [set(key, value)] *)
Definition set (key value : string) (s : Store) : Store :=
  {| settings := write key value (settings s);
     loading := loading s; error := error s; dirty := true |}.

(** [load()], once [getSettings()] has settled: with the map the server
    returned, or with the message of the error it threw. *)
Definition load (r : gmap string string + string) (s : Store) : Store :=
  match r with
  | inl fetched =>
      {| settings := fetched; loading := false; error := None; dirty := false |}
  | inr msg =>
      {| settings := defaults; loading := false; error := Some msg; dirty := dirty s |}
  end.

(** [save()], once [updateSettings(settings)] has settled. *)
Definition save (r : gmap string string + string) (s : Store) : Store :=
  match r with
  | inl stored =>
      {| settings := stored; loading := false; error := None; dirty := false |}
  | inr msg =>
      {| settings := settings s; loading := false; error := Some msg; dirty := dirty s |}
  end.

End Settings.

(* ================================================================== *)
(** * The backend the dashboard talks to *)
(* ================================================================== *)

(** The server is not part of the sources above; what the dashboard
    relies on is modelled from its specification. *)


Module Backend.

Import TerminalWebSocket.

(** Modelled from the spec: the error taxonomy of the backend (the
    sources only see the text of an error). *)
Inductive Error : Type :=
| ValidationError
| NotFoundError
| ConflictError
| ExternalServiceError
| ProcessError.

(** Modelled from the spec: the state of the Process Supervisor and of the
    Stream Gateway, which are absent from the sources.  [handles] is the
    set of ids with a live process handle, [stream] the output stream as
    it was produced (each message with the id it belongs to), and
    [clients] the connected clients, each with the id it subscribed to and
    the messages delivered to it so far. *)
Record State : Type := mkState {
  handles : gset Z;
  stream : list (Z * WsMessage);
  clients : list (Z * list WsMessage)
}.

Definition empty : State := {| handles := ∅; stream := []; clients := [] |}.

(** Modelled from the spec: [is_running] is true iff the supervisor holds
    a live handle for the id. *)
Definition is_running (id : Z) (s : State) : bool := bool_decide (id ∈ handles s).

(** Modelled from the spec: the synthetic final output line "containing
    the exit code" and matching "Process exited with code"; the brackets
    are those the chat page looks for. *)
Definition exit_line (code : Z) : string :=
  "[Process exited with code " +:+ pretty code +:+ "]".

(** Modelled from the spec: the messages of the stream that belong to an
    id, in the order produced. *)
Definition stream_of (id : Z) (s : State) : list WsMessage :=
  map snd (filter (fun e => e.1 = id) (stream s)).

(** Modelled from the spec: an output message is pushed to the stream
    and, in the same order, to every client connected for that id. *)
Definition emit (id : Z) (msg : WsMessage) (s : State) : State :=
  {| handles := handles s;
     stream := stream s ++ [(id, msg)];
     clients := map (fun c => if bool_decide (c.1 = id) then (c.1, c.2 ++ [msg]) else c)
                    (clients s) |}.

(** Modelled from the spec: clearing the handle of an id. *)
Definition clear_handle (id : Z) (s : State) : State :=
  {| handles := handles s ∖ {[id]}; stream := stream s; clients := clients s |}.

(** Modelled from the spec: [spawn] "fails with AlreadyRunning if a handle
    exists", reported as a [ConflictError] that "does not replace the
    existing handle". *)
Definition spawn (id : Z) (s : State) : State + Error :=
  if is_running id s then inr ConflictError
  else inl {| handles := handles s ∪ {[id]}; stream := stream s; clients := clients s |}.

(** Modelled from the spec: "every stdout/stderr line is pushed to the
    Log Store and to the Stream Gateway for that id, tagged with its
    stream". *)
Definition printed (id : Z) (line : string) (is_stderr : bool) (s : State) : State :=
  if is_running id s then emit id (OutputMessage line is_stderr) s else s.

(** Modelled from the spec: "on process exit (any cause), the supervisor
    emits a synthetic final output line containing the exit code and
    clears the handle"; without a handle there is nothing to report. *)
Definition exited (id : Z) (code : Z) (s : State) : State :=
  if is_running id s
  then clear_handle id (emit id (OutputMessage (exit_line code) false) s)
  else s.

(** Modelled from the spec: [kill] "sends a termination signal,
    idempotent if already exited"; the exit itself is reported by
    [exited] when the process is gone. *)
Definition kill (id : Z) (s : State) : State := s.

(** Modelled from the spec: "on client connect, immediately send a
    connected message carrying the id and current is_running state",
    "followed eventually by buffered/live output lines". *)
Definition client_connect (id : Z) (s : State) : State :=
  {| handles := handles s;
     stream := stream s;
     clients := clients s ++ [(id, ConnectedMessage id (is_running id s) :: stream_of id s)] |}.

(** Modelled from the spec: what happens at the backend. *)
Inductive Event : Type :=
| Spawn (id : Z)
| Printed (id : Z) (line : string) (is_stderr : bool)
| Exited (id : Z) (code : Z)
| Kill (id : Z)
| ClientConnect (id : Z).

(** Modelled from the spec: one event; a rejected [spawn] changes nothing. *)
Definition step (e : Event) (s : State) : State :=
  match e with
  | Spawn id => match spawn id s with inl s' => s' | inr _ => s end
  | Printed id line is_stderr => printed id line is_stderr s
  | Exited id code => exited id code s
  | Kill id => kill id s
  | ClientConnect id => client_connect id s
  end.

(** Modelled from the spec: a sequence of events. *)
Definition run (es : list Event) (s : State) : State :=
  fold_left (fun s e => step e s) es s.

(** Modelled from the spec: an output line "matching Process exited
    with code", as the terminal recognises it. *)
Definition is_exit_line (m : WsMessage) : bool :=
  match m with
  | OutputMessage line _ => includes Terminal.EXIT_MARKER line
  | _ => false
  end.

(** Modelled from the spec: the number of exit lines among the messages
    of a stream. *)
Definition exit_lines (msgs : list WsMessage) : nat :=
  length (filter (fun m => is_exit_line m = true) msgs).

(** Modelled from the spec: events that leave the process of [id] alone
    and in which that process prints no line that looks like an exit line. *)
Definition quiet (id : Z) (e : Event) : bool :=
  match e with
  | Spawn id' => negb (bool_decide (id' = id))
  | Exited id' _ => negb (bool_decide (id' = id))
  | Printed id' line _ =>
      negb (bool_decide (id' = id)) || negb (includes Terminal.EXIT_MARKER line)
  | Kill _ => true
  | ClientConnect _ => true
  end.

(** Modelled from the spec: the Task rows kept by the Scheduler, with
    their status and worktree, and the worktree directories on disk. *)
Record Tasks : Type := mkTasks {
  rows : gmap Z (string * option string);
  worktrees : gset string
}.

(** Modelled from the spec: "delete is only permitted from
    stopped|failed|completed; it removes the Task row and its worktree";
    from another status it is a [ConflictError], for an unknown id a
    [NotFoundError]. *)
Definition delete_task (id : Z) (t : Tasks) : Tasks + Error :=
  match rows t !! id with
  | None => inr NotFoundError
  | Some (status, worktree) =>
      if String.eqb status "stopped" || String.eqb status "failed"
         || String.eqb status "completed"
      then inl {| rows := delete id (rows t);
                  worktrees := match worktree with
                               | Some dir => worktrees t ∖ {[dir]}
                               | None => worktrees t
                               end |}
      else inr ConflictError
  end.

(** Modelled from the spec: the inbound messages of the session endpoint,
    "{type:"spawn", prompt, agent, worktree_path}" besides [input] and
    [kill]. *)
Inductive Inbound : Type :=
| InSpawn (prompt agent worktree_path : string)
| InInput (data : string)
| InKill.

(** Modelled from the spec: reading an inbound frame field for field. *)
Definition decode (frame : Json) : option Inbound :=
  match frame with
  | JObj [("type", JStr "spawn"); ("prompt", JStr p); ("agent", JStr a);
          ("worktree_path", JStr w)] => Some (InSpawn p a w)
  | JObj [("type", JStr "input"); ("data", JStr d)] => Some (InInput d)
  | JObj [("type", JStr "kill")] => Some InKill
  | _ => None
  end.

End Backend.

(* ================================================================== *)
(** * What can be observed of a connection manager *)
(* ================================================================== *)

Module WsObs.

Definition is_OnClose {Msg : Type} (e : Ws.Effect Msg) : bool :=
  match e with
  | Ws.OnClose => true
  | _ => false
  end.

(** How many times [this.onClose()] is called in a sequence of effects. *)
Definition closes {Msg : Type} (out : list (Ws.Effect Msg)) : nat :=
  length (filter (fun e => is_OnClose e = true) out).

(** How many of the client's sockets have reached CLOSED. *)
Definition closed_sockets {Id : Type} (c : Ws.Client Id) : nat :=
  length (filter (fun s => readyState s = CLOSED) (Ws.sockets c)).

(** The delays of the timers a sequence of effects arms. *)
Definition armed {Msg : Type} (out : list (Ws.Effect Msg)) : list Z :=
  omap (fun e => match e with
                 | Ws.SetTimeout d => Some d
                 | _ => None
                 end) out.

Definition is_CallConnect {Msg : Type} (e : Ws.Event Msg) : bool :=
  match e with
  | Ws.CallConnect => true
  | _ => false
  end.

Definition is_CallSend {Msg : Type} (e : Ws.Event Msg) : bool :=
  match e with
  | Ws.CallSend _ => true
  | _ => false
  end.

(** A delay between one and five seconds. *)
Definition within_backoff (delay : Z) : Prop := (1000 <= delay <= 5000)%Z.

Definition is_SocketMessage {Msg : Type} (e : Ws.Event Msg) : bool :=
  match e with
  | Ws.SocketMessage _ _ => true
  | _ => false
  end.

End WsObs.

(* ================================================================== *)
(** * Durations and priorities on the cards and on the task page *)
(* ================================================================== *)

(** The scripts compute on doubles.  For a whole number of milliseconds
    from 0 to [Number.MAX_SAFE_INTEGER] the double holds the number, each
    quotient by 1000 or 60 rounds to a double whose [Math.floor] is the
    integer quotient [Z.div], [a % b] is [Z.rem], and a template literal
    prints the integer in decimal.  Other arguments (fractions, negative
    numbers, numbers from 2^53 on, where the double quotient can round up
    to the next integer) are outside this model: for them the functions
    below give [None]. *)
Module JsNumber.

Definition MAX_SAFE_INTEGER : Z := (2 ^ 53 - 1)%Z.

Definition safe (x : Z) : bool := (0 <=? x)%Z && (x <=? MAX_SAFE_INTEGER)%Z.

End JsNumber.

(** The script of [TaskCard.svelte]. *)
Module TaskCardScript.

(** [formatDuration(ms)] *)
Definition formatDuration (ms : Z) : option string :=
  if JsNumber.safe ms then
    let seconds := (ms / 1000)%Z in
    let minutes := (seconds / 60)%Z in
    let hours := (minutes / 60)%Z in
    Some (if (0 <? hours)%Z then
            pretty hours +:+ "h " +:+ pretty (Z.rem minutes 60) +:+ "m"
          else if (0 <? minutes)%Z then
            pretty minutes +:+ "m " +:+ pretty (Z.rem seconds 60) +:+ "s"
          else
            pretty seconds +:+ "s")
  else None.

(** [{#if task.time_spent_ms > 0} <span>{formatDuration(task.time_spent_ms)}</span>
    {/if}]: the texts the card shows for the time spent, none when the
    guard is false. *)
Definition time_spent (ms : Z) : option (list string) :=
  if (0 <? ms)%Z then (fun text => [text]) <$> formatDuration ms else Some [].

(** [getPriorityBadge(priority)]: the text and the CSS classes. *)
Definition getPriorityBadge (priority : option Z) : string * string :=
  match priority with
  | Some 1%Z => ("Urgent", "bg-red-100 text-red-800")
  | Some 2%Z => ("High", "bg-orange-100 text-orange-800")
  | Some 3%Z => ("Normal", "bg-blue-100 text-blue-800")
  | Some 4%Z => ("Low", "bg-gray-100 text-gray-800")
  | _ => ("None", "bg-gray-100 text-gray-500")
  end.

End TaskCardScript.

(** The script of [routes/task/[id]/+page.svelte]. *)
Module TaskPageScript.

(** [formatDuration(ms)] *)
Definition formatDuration (ms : Z) : option string :=
  if JsNumber.safe ms then
    let seconds := (ms / 1000)%Z in
    let minutes := (seconds / 60)%Z in
    let hours := (minutes / 60)%Z in
    Some (if (0 <? hours)%Z then
            pretty hours +:+ "h " +:+ pretty (Z.rem minutes 60) +:+ "m "
                         +:+ pretty (Z.rem seconds 60) +:+ "s"
          else if (0 <? minutes)%Z then
            pretty minutes +:+ "m " +:+ pretty (Z.rem seconds 60) +:+ "s"
          else
            pretty seconds +:+ "s")
  else None.

(** [Time: <span>{formatDuration(task.time_spent_ms)}</span>], under
    [{#if task}]: the page shows the time spent of every task. *)
Definition time_spent (ms : Z) : option (list string) :=
  (fun text => [text]) <$> formatDuration ms.

(** [getPriorityLabel(priority)] *)
Definition getPriorityLabel (priority : option Z) : string :=
  match priority with
  | Some 1%Z => "Urgent"
  | Some 2%Z => "High"
  | Some 3%Z => "Normal"
  | Some 4%Z => "Low"
  | _ => "None"
  end.

End TaskPageScript.

(* ================================================================== *)
(** * [lib/stores/tasks.svelte.ts] *)
(* ================================================================== *)

Module TasksStore.

Import Board.

(** [interface TaskStats] of [lib/api/tasks.ts]. *)
Record TaskStats : Type := mkTaskStats {
  queued : Z;
  in_progress : Z;
  stopped : Z;
  completed : Z;
  failed : Z;
  running_processes : Z
}.

(** What [deleteTask] resolves to. *)
Record DeleteResponse : Type := mkDeleteResponse {
  success : bool;
  del_message : string
}.

(** The module-level [$state] variables. *)
Record Store : Type := mkStore {
  tasks : list Task;
  stats : option TaskStats;
  loading : bool;
  error : option string
}.

Definition initial : Store :=
  {| tasks := []; stats := None; loading := false; error := None |}.

(** An asynchronous function of the store is entered when it is called
    and resumed when the request it awaits has settled; other handlers
    run in between, so the two halves are separate steps.  A request
    settles as [handleResponse] says; a rejection of [fetch] itself is an
    [Error] with a message, like the syntax error of a body. *)

(** [catch (e) { error = e instanceof Error ? e.message : ... }] *)
Definition catch {T : Type} (r : ApiClient.Outcome T) (s : Store) : Store :=
  {| tasks := tasks s; stats := stats s; loading := loading s;
     error := ApiClient.displayed r |}.

(** [loadTasks()] up to its [await]. *)
Definition loadTasks_called (s : Store) : Store :=
  {| tasks := tasks s; stats := stats s; loading := true; error := None |}.

(** [loadTasks()] from its [await] on. *)
Definition loadTasks_settled (r : ApiClient.Outcome (list Task)) (s : Store) : Store :=
  let s := match r with
           | ApiClient.Resolved ts =>
               {| tasks := ts; stats := stats s; loading := loading s; error := error s |}
           | _ => catch r s
           end in
  {| tasks := tasks s; stats := stats s; loading := false; error := error s |}.

(** [loadStats()] from its [await] on; a failure is only logged. *)
Definition loadStats_settled (r : ApiClient.Outcome TaskStats) (s : Store) : Store :=
  match r with
  | ApiClient.Resolved st =>
      {| tasks := tasks s; stats := Some st; loading := loading s; error := error s |}
  | _ => s
  end.

(** [tasks.map((t) => (t.id === id ? updated : t))] *)
Definition replace_task (id : Z) (updated : Task) (l : list Task) : list Task :=
  map (fun t => if (Board.id t =? id)%Z then updated else t) l.

(** The body shared by [stop], [restart] and [complete] from the [await]
    of the request to the call of [loadStats()]. *)
Definition updated_settled (id : Z) (r : ApiClient.Outcome Task) (s : Store) : Store :=
  match r with
  | ApiClient.Resolved updated =>
      {| tasks := replace_task id updated (tasks s); stats := stats s;
         loading := loading s; error := error s |}
  | _ => catch r s
  end.

(** [stop(id)], once [stopTask(id)] has settled. *)
Definition stop_settled : Z -> ApiClient.Outcome Task -> Store -> Store := updated_settled.

(** [restart(id)], once [restartTask(id)] has settled. *)
Definition restart_settled : Z -> ApiClient.Outcome Task -> Store -> Store := updated_settled.

(** [complete(id)], once [completeTask(id)] has settled. *)
Definition complete_settled : Z -> ApiClient.Outcome Task -> Store -> Store := updated_settled.

(** [remove(id)], once [deleteTask(id)] has settled. *)
Definition remove_settled (id : Z) (r : ApiClient.Outcome DeleteResponse) (s : Store) : Store :=
  match r with
  | ApiClient.Resolved _ =>
      {| tasks := filter (fun t => Board.id t ≠ id) (tasks s); stats := stats s;
         loading := loading s; error := error s |}
  | _ => catch r s
  end.

(** [getTasksByStatus(status)] *)
Definition getTasksByStatus (st : string) (s : Store) : list Task :=
  Board.getTasksByStatus (tasks s) st.

(** The red banner of [KanbanBoard.svelte], under [{#if tasks.error}]:
    shown for an error that is neither [null] nor the empty string. *)
Definition error_banner (s : Store) : option string :=
  match error s with
  | Some msg => if String.eqb msg "" then None else Some msg
  | None => None
  end.

(** The statuses that have a column on the board. *)
Definition on_board (st : string) : Prop :=
  st = "queued" \/ st = "in_progress" \/ st = "stopped" \/ st = "completed"
  \/ st = "failed".

#[export] Instance on_board_dec (st : string) : Decision (on_board st).
Proof. unfold on_board. apply _. Defined.

(** The cards of the board, whatever their column. *)
Definition cards (s : Store) : list (Task * list Control) := Board.KanbanBoard (tasks s).

(** A task that is being worked on, and a store with it and a stopped
    one, for examples. *)
Definition example_running : Task :=
  {| id := 8; clickup_task_id := "86abd"; name := "Add search";
     description := None; priority := None; status := "in_progress";
     worktree_path := Some "/wt/8"; time_spent_ms := 3725000;
     started_at := None; completed_at := None; is_running := true |}.

Definition example_store : Store :=
  {| tasks := [example_running; Board.example_task]; stats := None; loading := false;
     error := Some "HTTP 500" |}.

End TasksStore.

(* ================================================================== *)
(** * The script of [KanbanBoard.svelte] *)
(* ================================================================== *)

Module KanbanBoardScript.

Import Board.

(** The store it uses and its own [$state]: the confirmation modal. *)
Record State : Type := mkState {
  store : TasksStore.Store;
  deleteModalOpen : bool;
  taskToDelete : option (Z * string)     (* { id, name } *)
}.

Definition initial : State :=
  {| store := TasksStore.initial; deleteModalOpen := false; taskToDelete := None |}.

(** [handleDelete(id)] *)
Definition handleDelete (id : Z) (b : State) : State :=
  match List.find (fun t => (Board.id t =? id)%Z) (TasksStore.tasks (store b)) with
  | Some task =>
      {| store := store b; deleteModalOpen := true;
         taskToDelete := Some (Board.id task, name task) |}
  | None => b
  end.

(** [confirmDelete()], with the id it passes to [tasks.remove], if any. *)
Definition confirmDelete (b : State) : State * option Z :=
  ({| store := store b; deleteModalOpen := false; taskToDelete := None |},
   fst <$> taskToDelete b).

(** [cancelDelete()] *)
Definition cancelDelete (b : State) : State :=
  {| store := store b; deleteModalOpen := false; taskToDelete := None |}.

Definition with_store (f : TasksStore.Store -> TasksStore.Store) (b : State) : State :=
  {| store := f (store b); deleteModalOpen := deleteModalOpen b;
     taskToDelete := taskToDelete b |}.

(** What happens to the board: a Delete button is clicked, the modal is
    answered (Escape and a click on the backdrop cancel), the refresh
    timer fires, or a request of the store settles. *)
Inductive Event : Type :=
| ClickDelete (id : Z)
| Confirm
| Cancel
| Refresh
| TasksLoaded (r : ApiClient.Outcome (list Task))
| StatsLoaded (r : ApiClient.Outcome TasksStore.TaskStats)
| StopSettled (id : Z) (r : ApiClient.Outcome Task)
| RestartSettled (id : Z) (r : ApiClient.Outcome Task)
| CompleteSettled (id : Z) (r : ApiClient.Outcome Task)
| RemoveSettled (id : Z) (r : ApiClient.Outcome TasksStore.DeleteResponse).

Definition is_ClickDelete (e : Event) : bool :=
  match e with
  | ClickDelete _ => true
  | _ => false
  end.

(** The modal is open exactly when a task has been chosen. *)
Definition modal_consistent (b : State) : Prop :=
  deleteModalOpen b = true <-> is_Some (taskToDelete b).

(** One event, with the id of the task whose deletion it requests. *)
Definition step (e : Event) (b : State) : State * option Z :=
  match e with
  | ClickDelete id => (handleDelete id b, None)
  | Confirm => confirmDelete b
  | Cancel => (cancelDelete b, None)
  | Refresh => (with_store TasksStore.loadTasks_called b, None)
  | TasksLoaded r => (with_store (TasksStore.loadTasks_settled r) b, None)
  | StatsLoaded r => (with_store (TasksStore.loadStats_settled r) b, None)
  | StopSettled id r => (with_store (TasksStore.stop_settled id r) b, None)
  | RestartSettled id r => (with_store (TasksStore.restart_settled id r) b, None)
  | CompleteSettled id r => (with_store (TasksStore.complete_settled id r) b, None)
  | RemoveSettled id r => (with_store (TasksStore.remove_settled id r) b, None)
  end.

Fixpoint run (es : list Event) (b : State) : State * list Z :=
  match es with
  | [] => (b, [])
  | e :: es' =>
      let (b1, req) := step e b in
      let (b2, reqs) := run es' b1 in
      (b2, match req with
           | Some id => id :: reqs
           | None => reqs
           end)
  end.

End KanbanBoardScript.

(* ================================================================== *)
(** * [BranchProtectionOverlay.svelte] *)
(* ================================================================== *)

Module BranchProtectionOverlay.

(** [let mode = $state<'select' | 'create'>] *)
Inductive Mode : Type := select | create.

(** What [/git/checkout] and [/git/create-branch] answer:
    [{ success: boolean; error?: string }]. *)
Record GitResponse : Type := mkGitResponse {
  success : bool;
  git_error : option string
}.

(** The [$state] variables of the component. *)
Record State : Type := mkState {
  isLoading : bool;
  isCreating : bool;
  branchName : string;
  error : string;
  targetRepoPath : string;
  existingBranches : list string;
  selectedExisting : option string;
  mode : Mode
}.

(** The two requests of the component, and what they carry. *)
Inductive Kind : Type := Checkout | CreateBranch.

Inductive Effect : Type :=
| Post (k : Kind) (path branch_name : string)
| GetBranches (path : string)
| OnBranchCreate (branchName : option string).

Definition initial : State :=
  {| isLoading := true; isCreating := false; branchName := ""; error := "";
     targetRepoPath := ""; existingBranches := []; selectedExisting := None;
     mode := select |}.

Definition set_error (msg : string) (s : State) : State :=
  {| isLoading := isLoading s; isCreating := isCreating s; branchName := branchName s;
     error := msg; targetRepoPath := targetRepoPath s;
     existingBranches := existingBranches s; selectedExisting := selectedExisting s;
     mode := mode s |}.

Definition set_isCreating (b : bool) (s : State) : State :=
  {| isLoading := isLoading s; isCreating := b; branchName := branchName s;
     error := error s; targetRepoPath := targetRepoPath s;
     existingBranches := existingBranches s; selectedExisting := selectedExisting s;
     mode := mode s |}.

Definition set_isLoading (b : bool) (s : State) : State :=
  {| isLoading := b; isCreating := isCreating s; branchName := branchName s;
     error := error s; targetRepoPath := targetRepoPath s;
     existingBranches := existingBranches s; selectedExisting := selectedExisting s;
     mode := mode s |}.

Definition set_branchName (text : string) (s : State) : State :=
  {| isLoading := isLoading s; isCreating := isCreating s; branchName := text;
     error := error s; targetRepoPath := targetRepoPath s;
     existingBranches := existingBranches s; selectedExisting := selectedExisting s;
     mode := mode s |}.

Definition set_targetRepoPath (path : string) (s : State) : State :=
  {| isLoading := isLoading s; isCreating := isCreating s; branchName := branchName s;
     error := error s; targetRepoPath := path;
     existingBranches := existingBranches s; selectedExisting := selectedExisting s;
     mode := mode s |}.

Definition set_existingBranches (l : list string) (s : State) : State :=
  {| isLoading := isLoading s; isCreating := isCreating s; branchName := branchName s;
     error := error s; targetRepoPath := targetRepoPath s;
     existingBranches := l; selectedExisting := selectedExisting s;
     mode := mode s |}.

Definition set_selectedExisting (b : option string) (s : State) : State :=
  {| isLoading := isLoading s; isCreating := isCreating s; branchName := branchName s;
     error := error s; targetRepoPath := targetRepoPath s;
     existingBranches := existingBranches s; selectedExisting := b;
     mode := mode s |}.

Definition set_mode (m : Mode) (s : State) : State :=
  {| isLoading := isLoading s; isCreating := isCreating s; branchName := branchName s;
     error := error s; targetRepoPath := targetRepoPath s;
     existingBranches := existingBranches s; selectedExisting := selectedExisting s;
     mode := m |}.

(** [b.startsWith('ui-refinements')] *)
Definition PREFIX : string := "ui-refinements".

(** [response.error || fallback]: an absent and an empty error are both
    falsy. *)
Definition error_or (e : option string) (fallback : string) : string :=
  match e with
  | Some msg => or_else msg fallback
  | None => fallback
  end.

(** [e instanceof Error ? e.message : fallback], for a request that was
    rejected; every rejection of the client is an [Error]. *)
Definition caught {T : Type} (r : ApiClient.Outcome T) (fallback : string) : string :=
  match ApiClient.displayed r with
  | Some msg => msg
  | None => fallback
  end.

(** [mode === 'select' && existingBranches.length > 0]: the list of
    branches is shown, else the input for a new name. *)
Definition select_view (s : State) : bool :=
  match mode s with
  | select => 0 <? length (existingBranches s)
  | create => false
  end.

Section WithEnvironment.

(** The suggestion built from the date and [Math.random()] when the
    component is created, and [String.prototype.trim]. *)
Variable suggestedName : string.
Variable trim : string -> string.

(** [onMount], up to the [await] of [getSettings()]. *)
Definition onMount_called (s : State) : State := set_branchName suggestedName s.

(** [onMount], once [getSettings()] has settled ([path] is
    [settings.target_repo_path], absent when the request failed), up to
    the [await] in [loadExistingBranches()] or, when that is not called,
    to its end. *)
Definition onMount_settings (path : option string) (s : State) : State * list Effect :=
  match path with
  | Some path =>
      if ChatPage.truthy path
      then (set_targetRepoPath path s, [GetBranches path])
      else (set_isLoading false s, [])
  | None => (set_isLoading false s, [])
  end.

(** [loadExistingBranches()] from its [await] on, and then the [finally]
    of [onMount]. *)
Definition loadExistingBranches_settled (r : ApiClient.Outcome (list string)) (s : State)
  : State :=
  let s :=
    match r with
    | ApiClient.Resolved branches =>
        let s := set_existingBranches (List.filter (String.prefix PREFIX) branches) s in
        if length (existingBranches s) =? 0 then set_mode create s else s
    | _ => set_mode create s
    end in
  set_isLoading false s.

(** [handleSelectExisting()], up to its [await]. *)
Definition handleSelectExisting_called (s : State) : State * list Effect :=
  match selectedExisting s with
  | Some b =>
      if ChatPage.truthy b
      then (set_error "" (set_isCreating true s), [Post Checkout (targetRepoPath s) b])
      else (set_error "Please select a branch" s, [])
  | None => (set_error "Please select a branch" s, [])
  end.

(** [handleSelectExisting()], from its [await] on. *)
Definition handleSelectExisting_settled (r : ApiClient.Outcome GitResponse) (s : State)
  : State * list Effect :=
  let (s, out) :=
    match r with
    | ApiClient.Resolved response =>
        if success response
        then (s, [OnBranchCreate (selectedExisting s)])
        else (set_error (error_or (git_error response) "Failed to checkout branch") s, [])
    | _ => (set_error (caught r "Failed to checkout branch") s, [])
    end in
  (set_isCreating false s, out).

(** [handleCreate()], up to its [await]. *)
Definition handleCreate_called (s : State) : State * list Effect :=
  if negb (ChatPage.truthy (trim (branchName s))) then
    (set_error "Branch name is required" s, [])
  else if negb (ChatPage.truthy (targetRepoPath s)) then
    (set_error "No target repository configured. Please set one in Settings." s, [])
  else
    (set_error "" (set_isCreating true s),
     [Post CreateBranch (targetRepoPath s) (trim (branchName s))]).

(** [handleCreate()], from its [await] on. *)
Definition handleCreate_settled (r : ApiClient.Outcome GitResponse) (s : State)
  : State * list Effect :=
  let (s, out) :=
    match r with
    | ApiClient.Resolved response =>
        if success response
        then (s, [OnBranchCreate (Some (trim (branchName s)))])
        else (set_error (error_or (git_error response) "Failed to create branch") s, [])
    | _ => (set_error (caught r "Failed to create branch") s, [])
    end in
  (set_isCreating false s, out).

(** The component and the request of it that has not been answered yet:
    the second half of a handler runs once, when its request settles. *)
Record Sys : Type := mkSys {
  view : State;
  pending : option (Kind * string * string)
}.

(** The component when [onMount] has reached its first [await]; nothing
    can happen to it before. *)
Definition start : Sys := {| view := onMount_called initial; pending := None |}.

(** What happens to the component.  A click or a keystroke counts only
    where the template renders the control and does not disable it. *)
Inductive Event : Type :=
| SettingsLoaded (path : option string)
| BranchesLoaded (r : ApiClient.Outcome (list string))
| ClickMode (m : Mode)
| ClickBranch (b : string)
| TypeName (text : string)
| ClickContinue
| ClickCreate
| Settled (r : ApiClient.Outcome GitResponse).

Definition with_view (f : State -> State) (y : Sys) : Sys * list Effect :=
  ({| view := f (view y); pending := pending y |}, []).

(** A handler that may send a request: the request it sent is pending. *)
Definition calling (r : State * list Effect) (y : Sys) : Sys * list Effect :=
  ({| view := r.1;
      pending := match r.2 with
                 | Post k path b :: _ => Some (k, path, b)
                 | _ => pending y
                 end |}, r.2).

Definition step (e : Event) (y : Sys) : Sys * list Effect :=
  let s := view y in
  match e with
  | SettingsLoaded path =>
      ({| view := (onMount_settings path s).1; pending := pending y |},
       (onMount_settings path s).2)
  | BranchesLoaded r => with_view (loadExistingBranches_settled r) y
  | ClickMode m =>
      (* the tabs, under [{#if existingBranches.length > 0}] *)
      if negb (isLoading s) && (0 <? length (existingBranches s))
      then with_view (set_mode m) y else (y, [])
  | ClickBranch b =>
      (* one button for each of [existingBranches] *)
      if negb (isLoading s) && select_view s && existsb (String.eqb b) (existingBranches s)
      then with_view (set_selectedExisting (Some b)) y else (y, [])
  | TypeName text =>
      (* the input, with [disabled={isCreating}] *)
      if negb (isLoading s) && negb (select_view s) && negb (isCreating s)
      then with_view (set_branchName text) y else (y, [])
  | ClickContinue =>
      (* [disabled={isCreating || !selectedExisting}] *)
      if negb (isLoading s) && select_view s
         && negb (isCreating s || negb (ChatPage.truthy_opt (selectedExisting s)))
      then calling (handleSelectExisting_called s) y else (y, [])
  | ClickCreate =>
      (* [disabled={isCreating || !branchName.trim()}] *)
      if negb (isLoading s) && negb (select_view s)
         && negb (isCreating s || negb (ChatPage.truthy (trim (branchName s))))
      then calling (handleCreate_called s) y else (y, [])
  | Settled r =>
      match pending y with
      | Some (Checkout, _, _) =>
          ({| view := (handleSelectExisting_settled r s).1; pending := None |},
           (handleSelectExisting_settled r s).2)
      | Some (CreateBranch, _, _) =>
          ({| view := (handleCreate_settled r s).1; pending := None |},
           (handleCreate_settled r s).2)
      | None => (y, [])
      end
  end.

Definition run (es : list Event) (y : Sys) : Sys :=
  fold_left (fun y e => (step e y).1) es y.

(** The effects of a sequence of events, in order. *)
Fixpoint effects (es : list Event) (y : Sys) : list Effect :=
  match es with
  | [] => []
  | e :: es' => (step e y).2 ++ effects es' (step e y).1
  end.

(** What holds of the component whatever happened to it. *)
Definition consistent (y : Sys) : Prop :=
  (forall k path b, pending y = Some (k, path, b) ->
     isCreating (view y) = true /\ b <> ""
     /\ match k with
        | CreateBranch => b = trim (branchName (view y)) /\ path <> ""
        | Checkout => String.prefix PREFIX b = true /\ is_Some (selectedExisting (view y))
        end)
  /\ (forall b, selectedExisting (view y) = Some b -> String.prefix PREFIX b = true)
  /\ (forall b, In b (existingBranches (view y)) -> String.prefix PREFIX b = true).

End WithEnvironment.

(** A [trim] for examples: it removes one leading space. *)
Definition example_trim (s : string) : string :=
  match s with
  | String " " rest => rest
  | _ => s
  end.

End BranchProtectionOverlay.

(* ================================================================== *)
(** * Properties *)
(* ================================================================== *)

(** ** The settings store *)

Section SettingsFacts.

Import Settings.














End SettingsFacts.

(** ** The API client *)

Section ApiClientFacts.

Import ApiClient.

Lemma or_else_empty (b : string) : or_else "" b = b.
Proof. reflexivity. Qed.

Lemma or_else_nonempty (a b : string) : a ≠ "" -> or_else a b = a.
Proof.
  intros H. unfold or_else. destruct (String.eqb_spec a ""); congruence.
Qed.

(** C7. A response whose [ok] is false makes [handleResponse] reject with
    an [ApiError] that carries the numeric status and, as message, the
    body text, or the status text when the body is empty; that message is
    what the stores display.  A response whose [ok] is true resolves to
    the parsed JSON body. *)
Theorem handleResponse_spec (T : Type) (json : string -> T + string) (r : Response) :
  (ok r = false ->
     let e := {| err_name := "ApiError";
                 err_status := status r;
                 message := if decide (body r = "") then statusText r else body r |} in
     handleResponse json r = RejectedApiError e
     /\ displayed (handleResponse json r) = Some (message e))
  /\ (ok r = true ->
        forall v : T, json (body r) = inl v -> handleResponse json r = Resolved v).
Proof.
  split.
  - intros Hok. unfold handleResponse. rewrite Hok. simpl.
    destruct (decide (body r = "")) as [->|Hne].
    + by rewrite or_else_empty.
    + by rewrite or_else_nonempty.
  - intros Hok v Hv. unfold handleResponse. rewrite Hok. simpl. by rewrite Hv.
Qed.

Lemma handleResponse_spec_witness :
  handleResponse json_bool
    {| ok := false; status := 409; statusText := "Conflict";
       body := "task is still running" |}
  = RejectedApiError (ApiError_new 409 "task is still running")
  /\ handleResponse json_bool
       {| ok := false; status := 404; statusText := "Not Found"; body := "" |}
     = RejectedApiError (ApiError_new 404 "Not Found")
  /\ handleResponse json_bool
       {| ok := true; status := 200; statusText := "OK"; body := "true" |}
     = Resolved true.
Proof.
  split; [|split].
  - destruct (handleResponse_spec bool json_bool
                {| ok := false; status := 409; statusText := "Conflict";
                   body := "task is still running" |}) as [H _].
    destruct (H eq_refl) as [-> _]. reflexivity.
  - destruct (handleResponse_spec bool json_bool
                {| ok := false; status := 404; statusText := "Not Found"; body := "" |})
      as [H _].
    destruct (H eq_refl) as [-> _]. reflexivity.
  - destruct (handleResponse_spec bool json_bool
                {| ok := true; status := 200; statusText := "OK"; body := "true" |})
      as [_ H].
    apply (H eq_refl). reflexivity.
Defined.

End ApiClientFacts.

(** ** The Delete control and the delete rule *)

Section BoardFacts.

Import Board.

Lemma elem_of_when (b : bool) (c c' : Control) :
  c ∈ when b c' <-> b = true /\ c = c'.
Proof.
  unfold when. destruct b.
  - rewrite list_elem_of_singleton. split; [intros ->; done|intros [_ ->]; done].
  - split; [intros H; inversion H|intros [? _]; discriminate].
Qed.

Lemma deletable_eqb (st : string) :
  String.eqb st "stopped" || String.eqb st "failed" || String.eqb st "completed" = true
  <-> deletable st.
Proof.
  unfold deletable. rewrite !orb_true_iff, !String.eqb_eq. tauto.
Qed.

Lemma TaskCard_Delete (props : Props) (t : Task) :
  Delete ∈ TaskCard props t <-> onDelete props = true /\ deletable (status t).
Proof.
  unfold TaskCard. rewrite !elem_of_app, !elem_of_when.
  split.
  - intros [[_ ?]|[[_ ?]|[[_ ?]|[[_ ?]|[H _]]]]]; try discriminate.
    apply andb_true_iff in H. by rewrite <- deletable_eqb.
  - intros [H1 H2]. do 4 right. split; [|done].
    apply andb_true_iff. by rewrite deletable_eqb.
Qed.

Lemma TaskPage_Delete (t : Task) :
  Delete ∈ TaskPage (Some t) <-> deletable (status t).
Proof.
  unfold TaskPage. rewrite !elem_of_app, !elem_of_when, deletable_eqb.
  split; [|tauto].
  intros [[_ ?]|[[_ ?]|[? _]]]; try discriminate. done.
Qed.

Lemma elem_of_KanbanColumn (props : Props) (tasks : list Task) (st : string)
      (t : Task) (cs : list Control) :
  (t, cs) ∈ KanbanColumn props (getTasksByStatus tasks st)
  <-> cs = TaskCard props t /\ t ∈ tasks /\ status t = st.
Proof.
  unfold KanbanColumn, getTasksByStatus. rewrite list_elem_of_fmap. split.
  - intros (t' & Heq & Hin). inversion Heq; subst.
    apply list_elem_of_filter in Hin. destruct Hin as [? ?]. done.
  - intros (-> & Hin & Hst). exists t. split; [done|].
    apply list_elem_of_filter. done.
Qed.

Lemma KanbanBoard_Delete (tasks : list Task) (t : Task) (cs : list Control) :
  (t, cs) ∈ KanbanBoard tasks -> (Delete ∈ cs <-> deletable (status t)).
Proof.
  unfold KanbanBoard. rewrite !elem_of_app.
  assert (Hfailed : (t, cs) ∈
            (if 0 <? length (getTasksByStatus tasks "failed")
             then KanbanColumn {| onStop := false; onRestart := true; onView := true;
                                  onDelete := true; onComplete := false |}
                               (getTasksByStatus tasks "failed")
             else []) ->
          cs = TaskCard {| onStop := false; onRestart := true; onView := true;
                           onDelete := true; onComplete := false |} t
          /\ status t = "failed").
  { destruct (0 <? _).
    - rewrite elem_of_KanbanColumn. tauto.
    - intros H. inversion H. }
  rewrite !elem_of_KanbanColumn.
  intros [(-> & _ & Hst)|[(-> & _ & Hst)|[(-> & _ & Hst)|[(-> & _ & Hst)|H]]]];
    [| | | |destruct (Hfailed H) as [-> Hst]];
    rewrite TaskCard_Delete; simpl; unfold deletable; rewrite Hst;
    (split;
     [intros [_ H']; exact H'
     |intros H'; split;
      [first [reflexivity|exfalso; destruct H' as [?|[?|?]]; discriminate]
      |exact H']]).
Qed.

Lemma KanbanBoard_shows_Delete (tasks : list Task) (t : Task) :
  t ∈ tasks -> deletable (status t) ->
  exists cs : list Control, (t, cs) ∈ KanbanBoard tasks /\ Delete ∈ cs.
Proof.
  intros Hin Hdel.
  assert (Hcard : forall props, onDelete props = true -> Delete ∈ TaskCard props t).
  { intros props Hp. apply TaskCard_Delete. by split. }
  unfold KanbanBoard.
  destruct Hdel as [Hst|[Hst|Hst]].
  - eexists. split; [|apply Hcard; shelve].
    rewrite !elem_of_app. right; right; left.
    apply elem_of_KanbanColumn. split; [reflexivity|done].
    Unshelve. reflexivity.
  - assert (Hf : t ∈ getTasksByStatus tasks "failed").
    { unfold getTasksByStatus. apply list_elem_of_filter. done. }
    eexists. split; [|apply Hcard; shelve].
    rewrite !elem_of_app. do 4 right.
    destruct (getTasksByStatus tasks "failed") as [|x l] eqn:E; [inversion Hf|].
    simpl Nat.ltb. cbv iota. rewrite <- E.
    apply elem_of_KanbanColumn. split; [reflexivity|done].
    Unshelve. reflexivity.
  - eexists. split; [|apply Hcard; shelve].
    rewrite !elem_of_app. right; right; right; left.
    apply elem_of_KanbanColumn. split; [reflexivity|done].
    Unshelve. reflexivity.
Qed.

Lemma delete_task_permitted (id : Z) (tbl : Backend.Tasks) (st : string)
      (wt : option string) :
  Backend.rows tbl !! id = Some (st, wt) ->
  ((exists tbl', Backend.delete_task id tbl = inl tbl') <-> deletable st).
Proof.
  intros Hrow. unfold Backend.delete_task. rewrite Hrow.
  destruct (String.eqb st "stopped" || String.eqb st "failed"
            || String.eqb st "completed") eqn:E.
  - apply deletable_eqb in E. split; [done|]. intros _. eauto.
  - split.
    + intros [tbl' H]. discriminate.
    + intros H. apply deletable_eqb in H. congruence.
Qed.

(** C3. Delete is offered and accepted from [stopped], [failed] and
    [completed] only.  A task card given an [onDelete] handler, every card
    of the kanban board, and the task page render the Delete control
    exactly when the task's status is one of the three, and the board has
    such a card for every task of the store in one of them.  At the
    backend (modelled from its specification) deleting a task whose status
    is [in_progress] is rejected with a conflict and removes nothing,
    while from the three statuses it removes the row and its worktree. *)
Theorem delete_only_when_finished :
  (forall (props : Props) (t : Task),
     onDelete props = true -> (Delete ∈ TaskCard props t <-> deletable (status t)))
  /\ (forall (tasks : list Task) (t : Task) (cs : list Control),
        (t, cs) ∈ KanbanBoard tasks -> (Delete ∈ cs <-> deletable (status t)))
  /\ (forall (tasks : list Task) (t : Task),
        t ∈ tasks -> deletable (status t) ->
        exists cs : list Control, (t, cs) ∈ KanbanBoard tasks /\ Delete ∈ cs)
  /\ (forall t : Task, Delete ∈ TaskPage (Some t) <-> deletable (status t))
  /\ (forall (id : Z) (tbl : Backend.Tasks) (wt : option string),
        Backend.rows tbl !! id = Some ("in_progress", wt) ->
        Backend.delete_task id tbl = inr Backend.ConflictError)
  /\ (forall (id : Z) (tbl : Backend.Tasks) (st : string) (wt : option string),
        Backend.rows tbl !! id = Some (st, wt) ->
        ((exists tbl', Backend.delete_task id tbl = inl tbl') <-> deletable st))
  /\ (forall (id : Z) (tbl tbl' : Backend.Tasks) (st dir : string),
        Backend.rows tbl !! id = Some (st, Some dir) ->
        Backend.delete_task id tbl = inl tbl' ->
        Backend.rows tbl' !! id = None /\ dir ∉ Backend.worktrees tbl').
Proof.
  split; [intros props t Hd; rewrite TaskCard_Delete; tauto|].
  split; [exact KanbanBoard_Delete|].
  split; [exact KanbanBoard_shows_Delete|].
  split; [exact TaskPage_Delete|].
  split.
  { intros id tbl wt Hrow. unfold Backend.delete_task. by rewrite Hrow. }
  split; [exact delete_task_permitted|].
  intros id tbl tbl' st dir Hrow. unfold Backend.delete_task. rewrite Hrow.
  destruct (_ || _); [|discriminate].
  intros [= <-]. simpl. split; [apply lookup_delete_eq|].
  intros H. apply elem_of_difference in H. destruct H as [_ H].
  apply H. by apply elem_of_singleton.
Qed.

Lemma delete_only_when_finished_witness :
  Delete ∈ TaskPage (Some example_task)
  /\ Backend.delete_task 7
       {| Backend.rows := {[ 7%Z := ("in_progress", Some "/wt/7") ]};
          Backend.worktrees := {[ "/wt/7" ]} |}
     = inr Backend.ConflictError
  /\ (exists cs, (example_task, cs) ∈ KanbanBoard [example_task] /\ Delete ∈ cs).
Proof.
  destruct delete_only_when_finished as (_ & _ & Hboard & Hpage & Hrej & _).
  split; [apply Hpage; left; reflexivity|].
  split; [apply (Hrej 7%Z _ (Some "/wt/7")); reflexivity|].
  apply Hboard; [apply list_elem_of_singleton; reflexivity|left; reflexivity].
Defined.

End BoardFacts.

(** ** The connection managers *)

Section WsFacts.

Context {Id Msg : Type}.
Variable endpoint : Id -> Endpoint.
Variable to_onConnect : Msg -> option bool.

#[local] Abbreviation Client := (Ws.Client Id).
#[local] Abbreviation step := (Ws.step endpoint to_onConnect).
#[local] Abbreviation run := (Ws.run endpoint to_onConnect).

(** The socket [this.ws] refers to, when it is OPEN. *)
Lemma isConnected_true (c : Client) :
  Ws.isConnected c = true <->
  exists i s, Ws.ws c = Some i /\ Ws.sockets c !! i = Some s /\ readyState s = OPEN.
Proof.
  unfold Ws.isConnected. split.
  - destruct (Ws.ws c) as [i|]; [|discriminate].
    destruct (Ws.sockets c !! i) as [s|] eqn:Hs; [|discriminate].
    intros H. apply bool_decide_eq_true in H. by exists i, s.
  - intros (i & s & -> & -> & H). by apply bool_decide_eq_true.
Qed.

Lemma connect_when_open (c : Client) :
  Ws.isConnected c = true -> Ws.connect endpoint c = c.
Proof. intros H. unfold Ws.connect. by rewrite H. Qed.

Lemma send_if_closed (v : Json) (c : Client) :
  Ws.isConnected c = false -> Ws.send_if_open v c = Some c.
Proof. intros H. unfold Ws.send_if_open. by rewrite H. Qed.

Lemma send_if_open_sends (v : Json) (c : Client) (i : nat) (s : WebSocket) :
  Ws.ws c = Some i -> Ws.sockets c !! i = Some s -> readyState s = OPEN ->
  Ws.send_if_open v c =
  Some (Ws.set_sockets
          (<[i := {| url := url s; readyState := OPEN; sent := sent s ++ [v] |}]>
             (Ws.sockets c)) c).
Proof.
  intros Hws Hs Hopen.
  assert (Hc : Ws.isConnected c = true) by (apply isConnected_true; eauto).
  unfold Ws.send_if_open, Ws.ws_send, WebSocket_send.
  by rewrite Hc, Hws, Hs, Hopen.
Qed.

Lemma run_app (es1 es2 : list (Ws.Event Msg)) (c : Client) :
  run (es1 ++ es2) c =
  (fst (run es2 (fst (run es1 c))), snd (run es1 c) ++ snd (run es2 (fst (run es1 c)))).
Proof.
  revert c. induction es1 as [|e es1 IH]; intros c; simpl.
  - by destruct (run es2 c).
  - destruct (step e c) as [c1 out1]. rewrite IH.
    destruct (run es1 c1) as [c2 out2]. simpl.
    by rewrite app_assoc.
Qed.

(** *** What a step does to the two counters *)

Lemma step_max (e : Ws.Event Msg) (c : Client) :
  Ws.maxReconnectAttempts (fst (step e c)) = Ws.maxReconnectAttempts c
  \/ Ws.maxReconnectAttempts (fst (step e c)) = 0.
Proof.
  destruct e as [| |v|i|i data|i|k]; simpl.
  - unfold Ws.connect. destruct (Ws.isConnected c); by left.
  - by right.
  - unfold Ws.send_if_open, Ws.ws_send.
    destruct (Ws.isConnected c); [|by left].
    destruct (Ws.ws c) as [j|]; [|by left].
    destruct (Ws.sockets c !! j) as [s|]; [|by left].
    destruct (WebSocket_send v s); by left.
  - unfold Ws.socket_open. destruct (Ws.sockets c !! i) as [s|]; [|by left].
    destruct (bool_decide _); by left.
  - unfold Ws.socket_message, Ws.onmessage.
    destruct (Ws.sockets c !! i) as [s|]; [|by left].
    destruct (bool_decide _); [|by left]. destruct data as [m|]; [|by left].
    destruct (to_onConnect m); by left.
  - unfold Ws.socket_close, Ws.onclose.
    destruct (Ws.sockets c !! i) as [s|]; [|by left].
    destruct (bool_decide _); [by left|]. simpl.
    destruct (_ <? _); by left.
  - unfold Ws.timer_fired. destruct (Ws.timers c !! k); [|by left].
    unfold Ws.connect. destruct (Ws.isConnected _); by left.
Qed.

Lemma step_attempts_le (e : Ws.Event Msg) (c : Client) (bound : nat) :
  Ws.reconnectAttempts c <= bound -> Ws.maxReconnectAttempts c <= bound ->
  Ws.reconnectAttempts (fst (step e c)) <= bound.
Proof.
  intros Ha Hm.
  destruct e as [| |v|i|i data|i|k]; simpl.
  - unfold Ws.connect. by destruct (Ws.isConnected c).
  - done.
  - unfold Ws.send_if_open, Ws.ws_send.
    destruct (Ws.isConnected c); [|done].
    destruct (Ws.ws c) as [j|]; [|done].
    destruct (Ws.sockets c !! j) as [s|]; [|done].
    by destruct (WebSocket_send v s).
  - unfold Ws.socket_open. destruct (Ws.sockets c !! i) as [s|]; [|done].
    destruct (bool_decide _); [simpl; lia|done].
  - unfold Ws.socket_message, Ws.onmessage.
    destruct (Ws.sockets c !! i) as [s|]; [|done].
    destruct (bool_decide _); [|done]. destruct data as [m|]; [|done].
    by destruct (to_onConnect m).
  - unfold Ws.socket_close, Ws.onclose.
    destruct (Ws.sockets c !! i) as [s|]; [|done].
    destruct (bool_decide _); [done|]. simpl.
    destruct (Nat.ltb_spec (Ws.reconnectAttempts c) (Ws.maxReconnectAttempts c));
      simpl; lia.
  - unfold Ws.timer_fired. destruct (Ws.timers c !! k); [|done].
    unfold Ws.connect. by destruct (Ws.isConnected _).
Qed.

Lemma run_attempts_le (es : list (Ws.Event Msg)) (c : Client) (bound : nat) :
  Ws.reconnectAttempts c <= bound -> Ws.maxReconnectAttempts c <= bound ->
  Ws.reconnectAttempts (fst (run es c)) <= bound
  /\ Ws.maxReconnectAttempts (fst (run es c)) <= bound.
Proof.
  revert c. induction es as [|e es IH]; intros c Ha Hm; simpl; [done|].
  pose proof (step_attempts_le e c bound Ha Hm) as Ha1.
  pose proof (step_max e c) as Hm1.
  destruct (step e c) as [c1 out1]. simpl in *.
  assert (Hm1' : Ws.maxReconnectAttempts c1 <= bound) by (destruct Hm1; lia).
  specialize (IH c1 Ha1 Hm1'). by destruct (run es c1).
Qed.

End WsFacts.

Section ReconnectFacts.

Context {Id Msg : Type}.
Variable endpoint : Id -> Endpoint.
Variable to_onConnect : Msg -> option bool.

#[local] Abbreviation Client := (Ws.Client Id).
#[local] Abbreviation step := (Ws.step endpoint to_onConnect).
#[local] Abbreviation run := (Ws.run endpoint to_onConnect).
#[local] Abbreviation socket_close := (Ws.socket_close (Msg:=Msg)).

Lemma reconnects_app (a b : list (Ws.Effect Msg)) :
  Ws.reconnects (a ++ b) = Ws.reconnects a + Ws.reconnects b.
Proof. unfold Ws.reconnects. by rewrite filter_app, length_app. Qed.

Lemma reconnects_nil : Ws.reconnects (@nil (Ws.Effect Msg)) = 0.
Proof. reflexivity. Qed.

Lemma reconnects_cons (e : Ws.Effect Msg) (out : list (Ws.Effect Msg)) :
  Ws.reconnects (e :: out)
  = (if Ws.is_SetTimeout e then 1 else 0) + Ws.reconnects out.
Proof.
  unfold Ws.reconnects. rewrite filter_cons.
  destruct (decide (Ws.is_SetTimeout e = true)) as [H|H].
  - by rewrite H.
  - apply not_true_is_false in H. by rewrite H.
Qed.

#[local] Ltac count_timers :=
  simpl; rewrite ?reconnects_cons, ?reconnects_nil; simpl; try lia; try done.

Lemma socket_close_below_cap (c : Client) (i : nat) (s : WebSocket) :
  Ws.sockets c !! i = Some s -> readyState s ≠ CLOSED ->
  Ws.reconnectAttempts c < Ws.maxReconnectAttempts c ->
  snd (socket_close i c)
  = [Ws.OnClose; Ws.SetTimeout (Ws.reconnectDelay (S (Ws.reconnectAttempts c)))]
  /\ Ws.reconnectAttempts (fst (socket_close i c)) = S (Ws.reconnectAttempts c)
  /\ Ws.timers (fst (socket_close i c))
     = Ws.timers c ++ [Ws.reconnectDelay (S (Ws.reconnectAttempts c))].
Proof.
  intros Hs Hne Hlt. unfold Ws.socket_close. rewrite Hs.
  rewrite bool_decide_eq_false_2 by done.
  unfold Ws.onclose. simpl.
  destruct (Nat.ltb_spec (Ws.reconnectAttempts c) (Ws.maxReconnectAttempts c)); [done|lia].
Qed.

Lemma socket_close_at_cap (c : Client) (i : nat) :
  Ws.maxReconnectAttempts c <= Ws.reconnectAttempts c ->
  Ws.reconnects (snd (socket_close i c)) = 0
  /\ Ws.timers (fst (socket_close i c)) = Ws.timers c
  /\ Ws.reconnectAttempts (fst (socket_close i c)) = Ws.reconnectAttempts c.
Proof.
  intros Hle. unfold Ws.socket_close.
  destruct (Ws.sockets c !! i) as [s|]; [|done].
  destruct (bool_decide _); [done|].
  unfold Ws.onclose. simpl.
  destruct (Nat.ltb_spec (Ws.reconnectAttempts c) (Ws.maxReconnectAttempts c)); [lia|done].
Qed.

Lemma timer_fired_reconnects (c : Client) (k : nat) (d : Z) :
  Ws.timers c !! k = Some d -> Ws.isConnected c = false ->
  Ws.sockets (Ws.timer_fired endpoint k c)
  = Ws.sockets c ++ [WebSocket_new (endpoint (Ws.ident c))]
  /\ Ws.ws (Ws.timer_fired endpoint k c) = Some (length (Ws.sockets c))
  /\ Ws.timers (Ws.timer_fired endpoint k c) = delete k (Ws.timers c).
Proof.
  intros Hk Hc. unfold Ws.timer_fired. rewrite Hk.
  unfold Ws.connect.
  replace (Ws.isConnected _) with (Ws.isConnected c) by reflexivity.
  by rewrite Hc.
Qed.

Lemma socket_open_resets (c : Client) (i : nat) (s : WebSocket) :
  Ws.sockets c !! i = Some s -> readyState s = CONNECTING ->
  Ws.reconnectAttempts (Ws.socket_open i c) = 0.
Proof.
  intros Hs Hr. unfold Ws.socket_open. rewrite Hs.
  by rewrite bool_decide_eq_true_2.
Qed.

(** Without a successful open, [reconnectAttempts] counts the timers armed. *)
Lemma step_counts_reconnects (e : Ws.Event Msg) (c : Client) :
  Ws.is_SocketOpen e = false ->
  Ws.reconnectAttempts (fst (step e c))
  = Ws.reconnectAttempts c + Ws.reconnects (snd (step e c)).
Proof.
  intros Hno.
  destruct e as [| |v|i|i data|i|k]; simpl; try discriminate.
  - unfold Ws.connect. destruct (Ws.isConnected c); count_timers.
  - count_timers.
  - unfold Ws.send_if_open, Ws.ws_send.
    destruct (Ws.isConnected c); [|count_timers].
    destruct (Ws.ws c) as [j|]; [|count_timers].
    destruct (Ws.sockets c !! j) as [s|]; [|count_timers].
    destruct (WebSocket_send v s); count_timers.
  - unfold Ws.socket_message, Ws.onmessage.
    destruct (Ws.sockets c !! i) as [s|]; [|count_timers].
    destruct (bool_decide _); [|count_timers].
    destruct data as [m|]; [|count_timers].
    destruct (to_onConnect m); count_timers.
  - unfold Ws.socket_close, Ws.onclose.
    destruct (Ws.sockets c !! i) as [s|]; [|count_timers].
    destruct (bool_decide _); [count_timers|]. simpl.
    destruct (_ <? _); count_timers.
  - unfold Ws.timer_fired. destruct (Ws.timers c !! k); [|count_timers].
    unfold Ws.connect. destruct (Ws.isConnected _); count_timers.
Qed.

Lemma run_counts_reconnects (es : list (Ws.Event Msg)) (c : Client) :
  forallb (fun e => negb (Ws.is_SocketOpen e)) es = true ->
  Ws.reconnectAttempts (fst (run es c))
  = Ws.reconnectAttempts c + Ws.reconnects (snd (run es c)).
Proof.
  revert c. induction es as [|e es IH]; intros c Hno; simpl in *.
  - rewrite reconnects_nil. lia.
  - apply andb_true_iff in Hno. destruct Hno as [He Hes].
    apply negb_true_iff in He.
    pose proof (step_counts_reconnects e c He) as Hstep.
    destruct (step e c) as [c1 out1]. simpl in Hstep.
    specialize (IH c1 Hes).
    destruct (run es c1) as [c2 out2]. simpl in *.
    rewrite reconnects_app. lia.
Qed.

(** Once [maxReconnectAttempts] is zero it stays zero and no timer is
    armed any more. *)
Lemma step_after_disconnect (e : Ws.Event Msg) (c : Client) :
  Ws.maxReconnectAttempts c = 0 ->
  Ws.maxReconnectAttempts (fst (step e c)) = 0
  /\ Ws.reconnects (snd (step e c)) = 0.
Proof.
  intros Hz.
  destruct e as [| |v|i|i data|i|k]; simpl.
  - unfold Ws.connect. destruct (Ws.isConnected c); count_timers.
  - count_timers.
  - unfold Ws.send_if_open, Ws.ws_send.
    destruct (Ws.isConnected c); [|count_timers].
    destruct (Ws.ws c) as [j|]; [|count_timers].
    destruct (Ws.sockets c !! j) as [s|]; [|count_timers].
    destruct (WebSocket_send v s); count_timers.
  - unfold Ws.socket_open. destruct (Ws.sockets c !! i) as [s|]; [|count_timers].
    destruct (bool_decide _); count_timers.
  - unfold Ws.socket_message, Ws.onmessage.
    destruct (Ws.sockets c !! i) as [s|]; [|count_timers].
    destruct (bool_decide _); [|count_timers]. destruct data as [m|]; [|count_timers].
    destruct (to_onConnect m); count_timers.
  - unfold Ws.socket_close, Ws.onclose.
    destruct (Ws.sockets c !! i) as [s|]; [|count_timers].
    destruct (bool_decide _); [count_timers|]. simpl. rewrite Hz.
    destruct (Ws.reconnectAttempts c); count_timers.
  - unfold Ws.timer_fired. destruct (Ws.timers c !! k); [|count_timers].
    unfold Ws.connect. destruct (Ws.isConnected _); count_timers.
Qed.

Lemma run_after_disconnect (es : list (Ws.Event Msg)) (c : Client) :
  Ws.maxReconnectAttempts c = 0 ->
  Ws.maxReconnectAttempts (fst (run es c)) = 0
  /\ Ws.reconnects (snd (run es c)) = 0.
Proof.
  revert c. induction es as [|e es IH]; intros c Hz; simpl; [done|].
  destruct (step_after_disconnect e c Hz) as [Hz1 Hr1].
  destruct (step e c) as [c1 out1]. simpl in *.
  destruct (IH c1 Hz1) as [Hz2 Hr2].
  destruct (run es c1) as [c2 out2]. simpl in *.
  rewrite reconnects_app. split; [done|lia].
Qed.

(** C4, as the code has it.  For both connection managers (the instances
    of this section at [TerminalWebSocket] and [UIRefinementsWebSocket]):
    - when a socket closes while fewer than [maxReconnectAttempts]
      reconnects have been made since the last open, the attempt counter
      is incremented and one timer is armed whose delay is linear in the
      attempt number, 1000 ms times the attempt; when that timer fires on
      a client that is not connected, a fresh socket to the same endpoint
      is constructed;
    - once the counter has reached the cap a close arms nothing; from
      construction on the counter never exceeds 5, and between two
      successful opens at most 5 timers are armed;
    - a successful open resets the counter to zero;
    - after [disconnect()] no close arms a reconnect timer any more. *)
Theorem reconnect_policy :
  (forall n : nat, Ws.reconnectDelay n = (1000 * Z.of_nat n)%Z)
  /\ (forall (c : Client) (i : nat) (s : WebSocket),
        Ws.sockets c !! i = Some s -> readyState s ≠ CLOSED ->
        Ws.reconnectAttempts c < Ws.maxReconnectAttempts c ->
        snd (step (Ws.SocketClose i) c)
        = [Ws.OnClose; Ws.SetTimeout (1000 * Z.of_nat (S (Ws.reconnectAttempts c)))%Z]
        /\ Ws.reconnectAttempts (fst (step (Ws.SocketClose i) c))
           = S (Ws.reconnectAttempts c)
        /\ Ws.timers (fst (step (Ws.SocketClose i) c))
           = Ws.timers c ++ [(1000 * Z.of_nat (S (Ws.reconnectAttempts c)))%Z])
  /\ (forall (c : Client) (k : nat) (d : Z),
        Ws.timers c !! k = Some d -> Ws.isConnected c = false ->
        Ws.sockets (fst (step (Ws.TimerFired k) c))
        = Ws.sockets c ++ [WebSocket_new (endpoint (Ws.ident c))]
        /\ Ws.ws (fst (step (Ws.TimerFired k) c)) = Some (length (Ws.sockets c)))
  /\ (forall (c : Client) (i : nat),
        Ws.maxReconnectAttempts c <= Ws.reconnectAttempts c ->
        Ws.reconnects (snd (step (Ws.SocketClose i) c)) = 0
        /\ Ws.timers (fst (step (Ws.SocketClose i) c)) = Ws.timers c)
  /\ (forall (id : Id) (es : list (Ws.Event Msg)),
        Ws.reconnectAttempts (fst (run es (Ws.new id))) <= 5)
  /\ (forall (c : Client) (i : nat) (s : WebSocket) (es : list (Ws.Event Msg)),
        Ws.maxReconnectAttempts c <= 5 ->
        Ws.sockets c !! i = Some s -> readyState s = CONNECTING ->
        forallb (fun e => negb (Ws.is_SocketOpen e)) es = true ->
        Ws.reconnects (snd (run es (fst (step (Ws.SocketOpen i) c)))) <= 5)
  /\ (forall (id : Id) (es : list (Ws.Event Msg)),
        forallb (fun e => negb (Ws.is_SocketOpen e)) es = true ->
        Ws.reconnects (snd (run es (Ws.new id))) <= 5)
  /\ (forall (c : Client) (i : nat) (s : WebSocket),
        Ws.sockets c !! i = Some s -> readyState s = CONNECTING ->
        Ws.reconnectAttempts (fst (step (Ws.SocketOpen i) c)) = 0)
  /\ (forall (c : Client) (es : list (Ws.Event Msg)),
        Ws.maxReconnectAttempts (Ws.disconnect c) = 0
        /\ Ws.reconnects (snd (run es (Ws.disconnect c))) = 0).
Proof.
  split; [reflexivity|].
  split; [intros c i s Hs Hne Hlt; exact (socket_close_below_cap c i s Hs Hne Hlt)|].
  split.
  { intros c k d Hk Hc.
    destruct (timer_fired_reconnects c k d Hk Hc) as (H1 & H2 & _). by split. }
  split.
  { intros c i Hle. destruct (socket_close_at_cap c i Hle) as (H1 & H2 & _). by split. }
  split.
  { intros id es.
    destruct (run_attempts_le endpoint to_onConnect es (Ws.new id) 5) as [H _];
      simpl; [lia|lia|exact H]. }
  split.
  { intros c i s es Hm Hs Hr Hno. simpl.
    pose proof (socket_open_resets c i s Hs Hr) as Hz.
    assert (Hm' : Ws.maxReconnectAttempts (Ws.socket_open i c) <= 5).
    { unfold Ws.socket_open. rewrite Hs. by rewrite bool_decide_eq_true_2. }
    pose proof (run_counts_reconnects es (Ws.socket_open i c) Hno) as Hcount.
    destruct (run_attempts_le endpoint to_onConnect es (Ws.socket_open i c) 5)
      as [Hle _]; [lia|done|].
    lia. }
  split.
  { intros id es Hno.
    pose proof (run_counts_reconnects es (Ws.new id) Hno) as Hcount.
    destruct (run_attempts_le endpoint to_onConnect es (Ws.new id) 5) as [Hle _];
      simpl; [lia|lia|].
    simpl in Hcount. lia. }
  split; [intros c i s Hs Hr; exact (socket_open_resets c i s Hs Hr)|].
  intros c es. split; [reflexivity|].
  by apply run_after_disconnect.
Qed.

End ReconnectFacts.

(** The delays 1000, 2000, 3000, ... do not grow by a constant factor:
    C4 as stated, with an exponential backoff, does not hold. *)
Lemma reconnect_delay_not_exponential :
  ~ Ws.exponential_backoff Ws.reconnectDelay.
Proof.
  intros (num & den & Hpos & Hgeo).
  pose proof (Hgeo 1 ltac:(lia)) as H1.
  pose proof (Hgeo 2 ltac:(lia)) as H2.
  unfold Ws.reconnectDelay in H1, H2. lia.
Qed.

Lemma reconnect_policy_witness :
  snd (TerminalWebSocket.step (Ws.SocketClose 0)
         (TerminalWebSocket.connect (TerminalWebSocket.new 5)))
  = [Ws.OnClose; Ws.SetTimeout 1000]
  /\ Ws.reconnects
       (snd (UIRefinementsWebSocket.run
               [Ws.CallConnect; Ws.SocketClose 0; Ws.TimerFired 0; Ws.SocketClose 1;
                Ws.TimerFired 0; Ws.SocketClose 2; Ws.TimerFired 0; Ws.SocketClose 3;
                Ws.TimerFired 0; Ws.SocketClose 4; Ws.TimerFired 0; Ws.SocketClose 5;
                Ws.TimerFired 0; Ws.SocketClose 6]
               (UIRefinementsWebSocket.new "s1"))) <= 5
  /\ Ws.reconnectAttempts
       (fst (TerminalWebSocket.step (Ws.SocketOpen 0)
               (TerminalWebSocket.connect (TerminalWebSocket.new 5)))) = 0.
Proof.
  split; [|split].
  - pose proof (reconnect_policy TerminalWebSocket.endpoint TerminalWebSocket.to_onConnect)
      as (_ & Hclose & _).
    destruct (Hclose (TerminalWebSocket.connect (TerminalWebSocket.new 5)) 0
                (WebSocket_new (TaskTerminal 5)))
      as (H & _); [reflexivity|discriminate|simpl; lia|exact H].
  - pose proof (reconnect_policy UIRefinementsWebSocket.endpoint
                  UIRefinementsWebSocket.to_onConnect)
      as (_ & _ & _ & _ & _ & _ & Hcap & _).
    apply Hcap. reflexivity.
  - pose proof (reconnect_policy TerminalWebSocket.endpoint TerminalWebSocket.to_onConnect)
      as (_ & _ & _ & _ & _ & _ & _ & Hopen & _).
    apply (Hopen _ 0 (WebSocket_new (TaskTerminal 5))); reflexivity.
Defined.

(** A timer armed before [disconnect()] is not cleared by it: when it
    fires, [connect()] still constructs a socket. *)
Example armed_timer_survives_disconnect :
  let c := fst (TerminalWebSocket.run
                  [Ws.CallConnect; Ws.SocketClose 0; Ws.CallDisconnect; Ws.TimerFired 0]
                  (TerminalWebSocket.new 5)) in
  Ws.ws c = Some 1 /\ length (Ws.sockets c) = 2.
Proof. split; reflexivity. Qed.

(** C8. On both connection managers [connect()] is a no-op while the
    socket in [this.ws] is OPEN: the object, its socket and the list of
    sockets it has constructed are exactly as before. *)
Theorem connect_idempotent_when_open :
  (forall c : TerminalWebSocket.t,
     TerminalWebSocket.isConnected c = true -> TerminalWebSocket.connect c = c)
  /\ (forall c : UIRefinementsWebSocket.t,
        UIRefinementsWebSocket.isConnected c = true ->
        UIRefinementsWebSocket.connect c = c).
Proof.
  split; intros c H.
  - exact (connect_when_open TerminalWebSocket.endpoint c H).
  - exact (connect_when_open UIRefinementsWebSocket.endpoint c H).
Qed.

Lemma connect_idempotent_when_open_witness :
  let c := fst (TerminalWebSocket.run [Ws.CallConnect; Ws.SocketOpen 0]
                  (TerminalWebSocket.new 5)) in
  TerminalWebSocket.isConnected c = true
  /\ TerminalWebSocket.connect c = c
  /\ length (Ws.sockets (TerminalWebSocket.connect c)) = 1.
Proof.
  intros c. split; [reflexivity|].
  destruct connect_idempotent_when_open as [H _].
  split; [exact (H c eq_refl)|reflexivity].
Defined.

(** C9. On a connection manager whose socket is not OPEN, [sendInput],
    [sendKill] and [spawnAgent] return normally and leave the object and
    all its sockets unchanged: nothing is sent and nothing is kept for
    later, so whatever happens next happens as if the call had not been
    made. *)
Theorem send_while_closed_is_dropped :
  (forall (c : TerminalWebSocket.t) (data : string),
     TerminalWebSocket.isConnected c = false ->
     TerminalWebSocket.sendInput data c = Some c
     /\ TerminalWebSocket.sendKill c = Some c)
  /\ (forall (c : UIRefinementsWebSocket.t) (data prompt agent worktreePath : string),
        UIRefinementsWebSocket.isConnected c = false ->
        UIRefinementsWebSocket.sendInput data c = Some c
        /\ UIRefinementsWebSocket.sendKill c = Some c
        /\ UIRefinementsWebSocket.spawnAgent prompt agent worktreePath c = Some c)
  /\ (forall (c : TerminalWebSocket.t) (v : Json) (es : list TerminalWebSocket.Event),
        TerminalWebSocket.isConnected c = false ->
        TerminalWebSocket.run (Ws.CallSend v :: es) c = TerminalWebSocket.run es c)
  /\ (forall (c : UIRefinementsWebSocket.t) (v : Json)
             (es : list UIRefinementsWebSocket.Event),
        UIRefinementsWebSocket.isConnected c = false ->
        UIRefinementsWebSocket.run (Ws.CallSend v :: es) c
        = UIRefinementsWebSocket.run es c).
Proof.
  split; [|split; [|split]].
  - intros c data H. split; by apply send_if_closed.
  - intros c data prompt agent worktreePath H. repeat split; by apply send_if_closed.
  - intros c v es H. unfold TerminalWebSocket.run. simpl.
    rewrite (send_if_closed v c H). simpl.
    by destruct (Ws.run _ _ es c).
  - intros c v es H. unfold UIRefinementsWebSocket.run. simpl.
    rewrite (send_if_closed v c H). simpl.
    by destruct (Ws.run _ _ es c).
Qed.

Lemma send_while_closed_is_dropped_witness :
  TerminalWebSocket.sendInput "ls"
    (TerminalWebSocket.connect (TerminalWebSocket.new 5))
  = Some (TerminalWebSocket.connect (TerminalWebSocket.new 5))
  /\ UIRefinementsWebSocket.spawnAgent "make it blue" "claude" "/repo"
       (UIRefinementsWebSocket.new "s1")
     = Some (UIRefinementsWebSocket.new "s1").
Proof.
  destruct send_while_closed_is_dropped as (Ht & Hu & _).
  split.
  - destruct (Ht (TerminalWebSocket.connect (TerminalWebSocket.new 5)) "ls" eq_refl)
      as [H _].
    exact H.
  - destruct (Hu (UIRefinementsWebSocket.new "s1") "" "make it blue" "claude" "/repo"
                eq_refl) as (_ & _ & H).
    exact H.
Defined.

(** C6. While the socket of the session client is OPEN,
    [spawnAgent(prompt, agent, worktreePath)] sends on it exactly one
    frame, the object [{type: "spawn", prompt, agent, worktree_path}] with
    the three arguments as values; nothing else about the client changes,
    and the frame reads as a spawn request under the inbound contract of
    the session endpoint. *)
Theorem spawnAgent_sends_spawn (c : UIRefinementsWebSocket.t) (i : nat) (s : WebSocket)
        (prompt agent worktreePath : string) :
  Ws.ws c = Some i -> Ws.sockets c !! i = Some s -> readyState s = OPEN ->
  let frame := JObj [("type", JStr "spawn"); ("prompt", JStr prompt);
                     ("agent", JStr agent); ("worktree_path", JStr worktreePath)] in
  UIRefinementsWebSocket.spawnAgent prompt agent worktreePath c
  = Some (Ws.set_sockets
            (<[i := {| url := url s; readyState := OPEN; sent := sent s ++ [frame] |}]>
               (Ws.sockets c)) c)
  /\ Backend.decode frame = Some (Backend.InSpawn prompt agent worktreePath).
Proof.
  intros Hws Hs Hopen frame. split.
  - exact (send_if_open_sends frame c i s Hws Hs Hopen).
  - reflexivity.
Qed.

Lemma spawnAgent_sends_spawn_witness :
  let c := fst (UIRefinementsWebSocket.run [Ws.CallConnect; Ws.SocketOpen 0]
                  (UIRefinementsWebSocket.new "s1")) in
  exists c',
    UIRefinementsWebSocket.spawnAgent "make it blue" "claude" "/repo" c = Some c'
    /\ sent <$> Ws.sockets c'
       = [[JObj [("type", JStr "spawn"); ("prompt", JStr "make it blue");
                 ("agent", JStr "claude"); ("worktree_path", JStr "/repo")]]].
Proof.
  intros c.
  destruct (spawnAgent_sends_spawn c 0 (mkWebSocket (SessionStream "s1") OPEN [])
              "make it blue" "claude" "/repo") as [H _];
    [reflexivity|reflexivity|reflexivity|].
  eexists. split; [exact H|reflexivity].
Defined.

(** ** The terminal and the stream it listens to *)

Section StreamFacts.

Import TerminalWebSocket Backend.

Lemma exit_line_is_exit_line (code : Z) :
  includes Terminal.EXIT_MARKER (exit_line code) = true.
Proof. reflexivity. Qed.

Lemma exit_line_ends_chat_message (code : Z) :
  includes ChatPage.EXIT_MARKER (exit_line code) = true.
Proof. reflexivity. Qed.

Lemma handleMessage_exit (v : Terminal.View) (line : string) (is_stderr : bool) :
  includes Terminal.EXIT_MARKER line = true ->
  Terminal.isRunning (Terminal.handleMessage (OutputMessage line is_stderr) v) = false.
Proof. intros H. simpl. by rewrite H. Qed.

Lemma handleMessage_output (v : Terminal.View) (line : string) (is_stderr : bool) :
  includes Terminal.EXIT_MARKER line = false ->
  Terminal.isRunning (Terminal.handleMessage (OutputMessage line is_stderr) v) = true.
Proof. intros H. simpl. rewrite H. by destruct (Terminal.isRunning v). Qed.

Lemma handleMessage_connected (v : Terminal.View) (id : Z) (r : bool) :
  Terminal.connected (Terminal.handleMessage (ConnectedMessage id r) v) = true
  /\ Terminal.isRunning (Terminal.handleMessage (ConnectedMessage id r) v) = r.
Proof. by split. Qed.

Lemma is_running_iff (id : Z) (s : State) : is_running id s = true <-> id ∈ handles s.
Proof. unfold is_running. apply bool_decide_eq_true. Qed.

Lemma stream_of_emit (id id' : Z) (msg : WsMessage) (s : State) :
  stream_of id (emit id' msg s)
  = if bool_decide (id' = id) then stream_of id s ++ [msg] else stream_of id s.
Proof.
  unfold stream_of, emit; simpl. rewrite filter_app, map_app.
  rewrite filter_cons, filter_nil. simpl.
  destruct (decide (id' = id)) as [->|Hne].
  - by rewrite bool_decide_eq_true_2.
  - rewrite bool_decide_eq_false_2 by done. simpl. by rewrite app_nil_r.
Qed.

Lemma exit_lines_snoc (l : list WsMessage) (m : WsMessage) :
  exit_lines (l ++ [m]) = exit_lines l + (if is_exit_line m then 1 else 0).
Proof.
  unfold exit_lines. rewrite filter_app, length_app, filter_cons, filter_nil.
  destruct (decide (is_exit_line m = true)) as [H|H].
  - by rewrite H.
  - apply not_true_is_false in H. by rewrite H.
Qed.

Lemma exited_live (id code : Z) (s : State) :
  is_running id s = true ->
  exited id code s = clear_handle id (emit id (OutputMessage (exit_line code) false) s).
Proof. intros H. unfold exited. by rewrite H. Qed.

Lemma exited_gone (id code : Z) (s : State) :
  is_running id s = false -> exited id code s = s.
Proof. intros H. unfold exited. by rewrite H. Qed.

Lemma is_running_clear (id : Z) (s : State) : is_running id (clear_handle id s) = false.
Proof.
  unfold is_running, clear_handle; simpl. apply bool_decide_eq_false.
  intros H. apply elem_of_difference in H. destruct H as [_ H].
  apply H. by apply elem_of_singleton.
Qed.

(** An event that leaves the process of [id] alone changes neither its
    handle nor the number of exit lines on its stream. *)
Lemma quiet_step (id : Z) (e : Event) (s : State) :
  quiet id e = true ->
  is_running id (step e s) = is_running id s
  /\ exit_lines (stream_of id (step e s)) = exit_lines (stream_of id s).
Proof.
  intros Hq. destruct e as [id'|id' line b|id' code|id'|id']; simpl in *.
  - apply negb_true_iff, bool_decide_eq_false in Hq.
    unfold spawn. destruct (is_running id' s) eqn:E; [done|].
    split; [|done]. unfold is_running; simpl.
    apply bool_decide_ext. rewrite elem_of_union, elem_of_singleton.
    split; [intros [?|?]; [done|congruence]|tauto].
  - unfold printed. destruct (is_running id' s); [|done].
    split; [done|]. rewrite stream_of_emit.
    destruct (bool_decide (id' = id)) eqn:E; [|done].
    simpl in Hq. apply negb_true_iff in Hq.
    rewrite exit_lines_snoc. simpl. rewrite Hq. lia.
  - apply negb_true_iff, bool_decide_eq_false in Hq.
    unfold exited. destruct (is_running id' s); [|done]. split.
    + unfold is_running, clear_handle; simpl.
      apply bool_decide_ext. rewrite elem_of_difference, elem_of_singleton.
      split; [tauto|intros ?; split; [done|congruence]].
    + unfold clear_handle, stream_of; simpl.
      change (exit_lines (stream_of id (emit id' (OutputMessage (exit_line code) false) s))
              = exit_lines (stream_of id s)).
      rewrite stream_of_emit. by rewrite bool_decide_eq_false_2.
  - done.
  - done.
Qed.

Lemma quiet_run (id : Z) (es : list Event) (s : State) :
  forallb (quiet id) es = true ->
  is_running id (run es s) = is_running id s
  /\ exit_lines (stream_of id (run es s)) = exit_lines (stream_of id s).
Proof.
  revert s. induction es as [|e es IH]; intros s Hq; simpl in *; [done|].
  apply andb_true_iff in Hq. destruct Hq as [He Hes].
  destruct (quiet_step id e s He) as [H1 H2].
  destruct (IH (step e s) Hes) as [H3 H4].
  unfold run in *. split; congruence.
Qed.

Lemma run_app_backend (es1 es2 : list Event) (s : State) :
  run (es1 ++ es2) s = run es2 (run es1 s).
Proof. unfold run. apply fold_left_app. Qed.

(** From spawn to exit, exactly one exit line is put on the stream of the
    id, and the handle is gone afterwards. *)
Lemma one_exit_line_per_process (id code : Z) (es : list Event) (s : State) :
  is_running id s = false -> forallb (quiet id) es = true ->
  exit_lines (stream_of id (run (Spawn id :: es ++ [Exited id code]) s))
  = exit_lines (stream_of id s) + 1
  /\ is_running id (run (Spawn id :: es ++ [Exited id code]) s) = false.
Proof.
  intros Hidle Hq.
  change (run (Spawn id :: es ++ [Exited id code]) s)
    with (run (es ++ [Exited id code]) (step (Spawn id) s)).
  rewrite run_app_backend.
  set (s1 := step (Spawn id) s).
  assert (Hrun1 : is_running id s1 = true).
  { unfold s1; simpl. unfold spawn. rewrite Hidle.
    unfold is_running; simpl. apply bool_decide_eq_true.
    apply elem_of_union. right. by apply elem_of_singleton. }
  assert (Hex1 : exit_lines (stream_of id s1) = exit_lines (stream_of id s)).
  { unfold s1; simpl. unfold spawn. by rewrite Hidle. }
  destruct (quiet_run id es s1 Hq) as [Hrun2 Hex2].
  rewrite Hrun1 in Hrun2. rewrite Hex1 in Hex2.
  change (run [Exited id code] (run es s1)) with (exited id code (run es s1)).
  rewrite (exited_live _ _ _ Hrun2). split.
  - change (stream_of id (clear_handle id ?x)) with (stream_of id x).
    rewrite stream_of_emit, bool_decide_eq_true_2 by done.
    rewrite exit_lines_snoc.
    replace (is_exit_line (OutputMessage (exit_line code) false)) with true
      by (symmetry; apply exit_line_is_exit_line).
    lia.
  - apply is_running_clear.
Qed.

End StreamFacts.

Section GatewayFacts.

Import TerminalWebSocket Backend.

Lemma emit_inbox (id : Z) (msg : WsMessage) (s : State) (n : nat) (id0 : Z)
      (inbox : list WsMessage) :
  clients s !! n = Some (id0, inbox) ->
  exists more : list WsMessage, clients (emit id msg s) !! n = Some (id0, inbox ++ more).
Proof.
  intros Hn. unfold emit; simpl. rewrite list_lookup_fmap, Hn. simpl.
  destruct (bool_decide (id0 = id)).
  - by exists [msg].
  - exists []. by rewrite app_nil_r.
Qed.

(** Whatever happens at the backend, a client's messages only grow at the end. *)
Lemma step_inbox (e : Event) (s : State) (n : nat) (id0 : Z) (inbox : list WsMessage) :
  clients s !! n = Some (id0, inbox) ->
  exists more : list WsMessage, clients (step e s) !! n = Some (id0, inbox ++ more).
Proof.
  intros Hn.
  assert (Hsame : exists more : list WsMessage, clients s !! n = Some (id0, inbox ++ more)).
  { exists []. by rewrite app_nil_r. }
  destruct e as [id|id line b|id code|id|id]; simpl.
  - unfold spawn. by destruct (is_running id s).
  - unfold printed. destruct (is_running id s); [|done]. by apply emit_inbox.
  - unfold exited. destruct (is_running id s); [|done].
    unfold clear_handle; simpl.
    change (exists more, clients (emit id (OutputMessage (exit_line code) false) s) !! n
                         = Some (id0, inbox ++ more)).
    by apply emit_inbox.
  - done.
  - unfold client_connect; simpl.
    exists []. rewrite app_nil_r. rewrite lookup_app_l; [done|].
    by apply lookup_lt_Some in Hn.
Qed.

Lemma run_inbox (es : list Event) (s : State) (n : nat) (id0 : Z) (inbox : list WsMessage) :
  clients s !! n = Some (id0, inbox) ->
  exists more : list WsMessage, clients (run es s) !! n = Some (id0, inbox ++ more).
Proof.
  revert s inbox. induction es as [|e es IH]; intros s inbox Hn; simpl.
  - exists []. by rewrite app_nil_r.
  - destruct (step_inbox e s n id0 inbox Hn) as [more1 H1].
    destruct (IH (step e s) (inbox ++ more1) H1) as [more2 H2].
    exists (more1 ++ more2). unfold run in *. by rewrite app_assoc.
Qed.

(** C2.  At the gateway (modelled from its specification) the messages
    delivered to a client that connects for a task start with
    [{type: "connected", task_id, is_running}], where [is_running] says
    whether the supervisor holds a handle for the task at that moment,
    whatever is delivered afterwards.  In the dashboard, [handleMessage]
    on a [connected] message sets the connected indicator and copies
    [is_running] into the running indicator, also when the message comes
    in as a frame on the open socket of the [TerminalWebSocket]. *)
Theorem connected_is_first_message :
  (forall (s : State) (id : Z) (es : list Event),
     exists rest : list WsMessage,
       clients (run es (client_connect id s)) !! length (clients s)
       = Some (id, ConnectedMessage id (is_running id s) :: rest))
  /\ (forall (s : State) (id : Z), is_running id s = true <-> id ∈ handles s)
  /\ (forall (v : Terminal.View) (id : Z) (r : bool),
        Terminal.connected (Terminal.handleMessage (ConnectedMessage id r) v) = true
        /\ Terminal.isRunning (Terminal.handleMessage (ConnectedMessage id r) v) = r)
  /\ (forall (c : TerminalWebSocket.t) (i : nat) (sk : WebSocket)
             (v : Terminal.View) (id : Z) (r : bool),
        Ws.sockets c !! i = Some sk -> readyState sk = OPEN ->
        let out := snd (TerminalWebSocket.step
                          (Ws.SocketMessage i (Some (ConnectedMessage id r))) c) in
        Terminal.connected (Terminal.callbacks out v) = true
        /\ Terminal.isRunning (Terminal.callbacks out v) = r).
Proof.
  split.
  { intros s id es.
    destruct (run_inbox es (client_connect id s) (length (clients s)) id
                (ConnectedMessage id (is_running id s) :: stream_of id s)) as [more H].
    - unfold client_connect; simpl. by rewrite list_lookup_middle.
    - eexists. rewrite H. reflexivity. }
  split; [intros s id; apply is_running_iff|].
  split; [exact handleMessage_connected|].
  intros c i sk v id r Hs Hopen out. unfold out.
  unfold TerminalWebSocket.step; simpl. unfold Ws.socket_message.
  rewrite Hs. rewrite bool_decide_eq_true_2 by done. by split.
Qed.

Lemma connected_is_first_message_witness :
  let c := fst (TerminalWebSocket.run [Ws.CallConnect; Ws.SocketOpen 0]
                  (TerminalWebSocket.new 5)) in
  let out := snd (TerminalWebSocket.step
                    (Ws.SocketMessage 0 (Some (ConnectedMessage 5 true))) c) in
  Terminal.connected (Terminal.callbacks out Terminal.initial) = true
  /\ Terminal.isRunning (Terminal.callbacks out Terminal.initial) = true.
Proof.
  intros c out.
  destruct connected_is_first_message as (_ & _ & _ & H).
  apply (H c 0 (mkWebSocket (TaskTerminal 5) OPEN [])); reflexivity.
Defined.

(** C1.  At the supervisor (modelled from its specification): when a
    process exits, one line containing "Process exited with code" is
    emitted on the output stream, and to every client connected for the
    id, while the handle is still held, and the handle is cleared right
    after; an exit reported for an id without a handle emits nothing; so
    from the spawn of a process to its exit exactly one such line is put
    on the stream of its id, the process itself printing none.  In the
    dashboard, [handleMessage] on an output message whose line contains
    that text sets the running indicator to false -- in particular on the
    supervisor's exit line -- and on any other output line the indicator
    is true afterwards, so a line received while it is false sets it back
    to true. *)
Theorem exit_line_once_and_running_flag :
  (forall (s : State) (id code : Z),
     is_running id s = true ->
     let s1 := emit id (OutputMessage (exit_line code) false) s in
     exited id code s = clear_handle id s1
     /\ is_running id s1 = true
     /\ stream (exited id code s) = stream s ++ [(id, OutputMessage (exit_line code) false)]
     /\ clients (exited id code s)
        = map (fun c => if bool_decide (c.1 = id)
                        then (c.1, c.2 ++ [OutputMessage (exit_line code) false])
                        else c) (clients s)
     /\ is_running id (exited id code s) = false
     /\ includes Terminal.EXIT_MARKER (exit_line code) = true)
  /\ (forall (s : State) (id code : Z),
        is_running id s = false -> exited id code s = s /\ kill id s = s)
  /\ (forall (s : State) (id code : Z) (es : list Event),
        is_running id s = false -> forallb (quiet id) es = true ->
        exit_lines (stream_of id (run (Spawn id :: es ++ [Exited id code]) s))
        = exit_lines (stream_of id s) + 1
        /\ is_running id (run (Spawn id :: es ++ [Exited id code]) s) = false)
  /\ (forall (v : Terminal.View) (line : string) (is_stderr : bool),
        includes "Process exited with code" line = true ->
        Terminal.isRunning (Terminal.handleMessage (OutputMessage line is_stderr) v) = false)
  /\ (forall (v : Terminal.View) (line : string) (is_stderr : bool),
        includes "Process exited with code" line = false ->
        Terminal.isRunning (Terminal.handleMessage (OutputMessage line is_stderr) v) = true)
  /\ (forall (v : Terminal.View) (code : Z),
        Terminal.isRunning
          (Terminal.handleMessage (OutputMessage (exit_line code) false) v) = false).
Proof.
  split.
  { intros s id code Hrun s1. rewrite (exited_live id code s Hrun).
    split; [reflexivity|]. split; [exact Hrun|]. split; [reflexivity|].
    split; [reflexivity|]. split; [apply is_running_clear|reflexivity]. }
  split; [intros s id code H; split; [by apply exited_gone|reflexivity]|].
  split; [intros s id code es H1 H2; by apply one_exit_line_per_process|].
  split; [exact handleMessage_exit|].
  split; [exact handleMessage_output|].
  intros v code. apply handleMessage_exit. apply exit_line_is_exit_line.
Qed.

Lemma exit_line_once_and_running_flag_witness :
  exit_lines
    (stream_of 5 (run [Spawn 5; ClientConnect 5; Printed 5 "compiling" false;
                       Kill 5; Exited 5 137] empty)) = 1
  /\ Terminal.isRunning
       (Terminal.receive
          (stream_of 5 (run [Spawn 5; ClientConnect 5; Printed 5 "compiling" false;
                             Kill 5; Exited 5 137; Exited 5 137] empty))
          Terminal.initial) = false
  /\ Terminal.isRunning
       (Terminal.handleMessage (OutputMessage "compiling" false) Terminal.initial) = true.
Proof.
  destruct exit_line_once_and_running_flag as (_ & _ & Hlife & _ & Hout & _).
  split; [|split].
  - destruct (Hlife empty 5%Z 137%Z
                [ClientConnect 5; Printed 5 "compiling" false; Kill 5])
      as [H _]; [reflexivity|reflexivity|exact H].
  - reflexivity.
  - apply Hout. reflexivity.
Defined.

End GatewayFacts.

(** ** The chat queue *)

Section ChatFacts.

Import UIRefinementsWebSocket ChatPage.

Variable randomUUID : nat -> string.
Variable now : nat -> Z.

#[local] Abbreviation step := (ChatPage.step randomUUID now).
#[local] Abbreviation run := (ChatPage.run randomUUID now).
#[local] Abbreviation arrivals := (ChatPage.arrivals randomUUID now).
#[local] Abbreviation processMessage_then := (ChatPage.processMessage_then randomUUID now).
#[local] Abbreviation processQueue := (ChatPage.processQueue randomUUID now).
#[local] Abbreviation processNextInQueue := (ChatPage.processNextInQueue randomUUID now).
#[local] Abbreviation processMessage := (ChatPage.processMessage randomUUID now).
#[local] Abbreviation handleSendMessage := (ChatPage.handleSendMessage randomUUID now).
#[local] Abbreviation handleWsMessage := (ChatPage.handleWsMessage randomUUID now).

Lemma user_ids_snoc (l : list ChatMessage) (m : ChatMessage) :
  map id (filter (fun m => role m = user) (l ++ [m]))
  = map id (filter (fun m => role m = user) l)
    ++ (if decide (role m = user) then [id m] else []).
Proof.
  rewrite filter_app, map_app, filter_cons, filter_nil.
  by destruct (decide (role m = user)).
Qed.

Lemma user_ids_map (g : ChatMessage -> ChatMessage) (l : list ChatMessage) :
  (forall m, id (g m) = id m /\ role (g m) = role m) ->
  map id (filter (fun m => role m = user) (map g l))
  = map id (filter (fun m => role m = user) l).
Proof.
  intros Hg. induction l as [|m l IH]; [done|].
  simpl map at 2. rewrite !filter_cons.
  destruct (Hg m) as [Hid Hrole]. rewrite Hrole.
  destruct (decide (role m = user)); simpl; by rewrite ?Hid, IH.
Qed.

(** [update_current] rewrites contents and statuses only. *)
Lemma update_current_fields (f : ChatMessage -> ChatMessage) (p : Page) :
  (forall m, id (f m) = id m /\ role (f m) = role m) ->
  processed (update_current f p) = processed p
  /\ messageQueue (update_current f p) = messageQueue p
  /\ isProcessing (update_current f p) = isProcessing p
  /\ wsClient (update_current f p) = wsClient p
  /\ targetRepoPath (update_current f p) = targetRepoPath p
  /\ uuids (update_current f p) = uuids p
  /\ selectedAgent (update_current f p) = selectedAgent p.
Proof.
  intros Hf. unfold update_current.
  destruct (currentAssistantMessageId p) as [cur|]; [|done].
  destruct (truthy cur); [|done].
  simpl. repeat split. unfold processed; simpl.
  apply user_ids_map. intros m. destruct (String.eqb (id m) cur); [apply Hf|done].
Qed.

Lemma not_ready_ext (p p' : Page) :
  wsClient p = wsClient p' -> targetRepoPath p = targetRepoPath p' ->
  not_ready p = not_ready p'.
Proof. intros H1 H2. unfold not_ready. by rewrite H1, H2. Qed.

(** The first branch of [processMessage]: an error message is shown and
    the queue is looked at again. *)
Lemma processMessage_not_ready (next : Page -> Page) (msg : ChatMessage) (p : Page) :
  not_ready p = true ->
  exists p2 : Page,
    processMessage_then next msg p = next p2
    /\ processed p2 = processed p
    /\ messageQueue p2 = messageQueue p
    /\ isProcessing p2 = false
    /\ wsClient p2 = wsClient p
    /\ targetRepoPath p2 = targetRepoPath p.
Proof.
  intros H. unfold ChatPage.processMessage_then. rewrite H.
  unfold take_uuid, take_now. simpl. eexists. split; [reflexivity|].
  simpl. repeat split. unfold processed; simpl. rewrite user_ids_snoc. simpl.
  by rewrite app_nil_r.
Qed.

(** The second branch: the assistant placeholder is added and the agent
    is asked for. *)
Lemma processMessage_ready (next : Page -> Page) (msg : ChatMessage) (p : Page) :
  not_ready p = false ->
  processed (processMessage_then next msg p) = processed p
  /\ messageQueue (processMessage_then next msg p) = messageQueue p
  /\ isProcessing (processMessage_then next msg p) = isProcessing p
  /\ currentAssistantMessageId (processMessage_then next msg p)
     = Some (randomUUID (uuids p)).
Proof.
  intros H. unfold ChatPage.processMessage_then. rewrite H.
  unfold take_uuid, take_now. simpl.
  destruct (wsClient p) as [c|]; simpl; repeat split;
    unfold processed; simpl; rewrite user_ids_snoc; simpl; by rewrite app_nil_r.
Qed.

(** One turn of [processNextInQueue()] on a queue that is not empty. *)
Lemma processQueue_cons (next : QueuedMessage) (rest : list QueuedMessage) (p : Page) :
  exists (msg : ChatMessage) (p1 : Page),
    processQueue (next :: rest) p = processMessage_then (processQueue rest) msg p1
    /\ processed p1 = processed p ++ [q_id next]
    /\ messageQueue p1 = rest
    /\ isProcessing p1 = true
    /\ wsClient p1 = wsClient p
    /\ targetRepoPath p1 = targetRepoPath p
    /\ id msg = q_id next /\ content msg = q_content next
    /\ elementContext msg = q_elementContext next.
Proof.
  simpl. unfold take_now. simpl. eexists. eexists. split; [reflexivity|].
  simpl. repeat split. unfold processed; simpl. by rewrite user_ids_snoc.
Qed.

(** [processNextInQueue()] hands over the head of the queue, or the whole
    of it when the page is not ready, never out of order. *)
Lemma processQueue_order (q : list QueuedMessage) (p : Page) :
  messageQueue p = q ->
  processed (processQueue q p) ++ waiting (processQueue q p)
  = processed p ++ map q_id q
  /\ idle_means_empty (processQueue q p).
Proof.
  revert p. induction q as [|next rest IH]; intros p Hq.
  - simpl. unfold waiting, idle_means_empty. by rewrite Hq.
  - destruct (processQueue_cons next rest p)
      as (msg & p1 & -> & Hproc & Hqueue & Hbusy & Hws & Hpath & _).
    destruct (not_ready p1) eqn:Hready.
    + destruct (processMessage_not_ready (processQueue rest) msg p1 Hready)
        as (p2 & -> & Hproc2 & Hqueue2 & _).
      destruct (IH p2) as [H1 H2]; [congruence|].
      split; [|exact H2]. rewrite H1, Hproc2, Hproc. by rewrite <- app_assoc.
    + destruct (processMessage_ready (processQueue rest) msg p1 Hready)
        as (Hproc2 & Hqueue2 & Hbusy2 & _).
      split.
      * unfold waiting. rewrite Hproc2, Hqueue2, Hproc, Hqueue. by rewrite <- app_assoc.
      * unfold idle_means_empty. rewrite Hbusy2, Hbusy. discriminate.
Qed.

(** On a page that is connected and configured, the head of the queue
    becomes the next user message and the agent is asked for it. *)
Lemma processQueue_head_spawn (next : QueuedMessage) (rest : list QueuedMessage)
      (p : Page) (c : UIRefinementsWebSocket.t) :
  wsClient p = Some c -> truthy (targetRepoPath p) = true ->
  let msg := {| id := q_id next; role := user; content := q_content next;
                timestamp := now (ticks p);
                elementContext := q_elementContext next; status := processing |} in
  messages (processQueue (next :: rest) p)
  = messages p ++
    [msg;
     {| id := randomUUID (uuids p); role := assistant; content := "";
        timestamp := now (S (ticks p)); elementContext := None; status := processing |}]
  /\ wsClient (processQueue (next :: rest) p)
     = Some (default c (spawnAgent (buildPrompt msg) (agent_name (selectedAgent p))
                                   (targetRepoPath p) c)).
Proof.
  intros Hc Hpath msg. simpl.
  unfold ChatPage.processMessage_then, not_ready, take_uuid, take_now. simpl.
  rewrite Hc, Hpath. simpl. rewrite ?Hc. simpl. split; [|reflexivity].
  by rewrite <- app_assoc.
Qed.

(** When the page is ready, exactly the head of the queue is handed over. *)
Lemma processQueue_head (next : QueuedMessage) (rest : list QueuedMessage) (p : Page) :
  not_ready p = false ->
  processed (processQueue (next :: rest) p) = processed p ++ [q_id next]
  /\ messageQueue (processQueue (next :: rest) p) = rest
  /\ isProcessing (processQueue (next :: rest) p) = true.
Proof.
  intros Hready.
  destruct (processQueue_cons next rest p)
    as (msg & p1 & -> & Hproc & Hqueue & Hbusy & Hws & Hpath & _).
  assert (Hready1 : not_ready p1 = false).
  { rewrite <- Hready. by apply not_ready_ext. }
  destruct (processMessage_ready (processQueue rest) msg p1 Hready1)
    as (Hproc2 & Hqueue2 & Hbusy2 & _).
  by rewrite Hproc2, Hqueue2, Hbusy2.
Qed.

(** A message that ends the current one: the assistant message is closed,
    the page is idle for a moment, and the queue is looked at. *)
Lemma handleWsMessage_completion (msg : SessionWsMessage) (p : Page) :
  ends_message msg = true ->
  exists p0 : Page,
    handleWsMessage msg p = processNextInQueue p0
    /\ processed p0 = processed p
    /\ messageQueue p0 = messageQueue p
    /\ isProcessing p0 = false
    /\ currentAssistantMessageId p0 = None
    /\ wsClient p0 = wsClient p
    /\ targetRepoPath p0 = targetRepoPath p
    /\ uuids p0 = uuids p
    /\ selectedAgent p0 = selectedAgent p.
Proof.
  intros Hend. destruct msg as [line b|sid r|message|pid]; simpl in Hend; try discriminate.
  - unfold ChatPage.handleWsMessage. rewrite Hend.
    eexists. split; [reflexivity|]. simpl.
    match goal with
    | |- context [update_current ?f (update_current ?g p)] =>
        destruct (update_current_fields g p) as (H1 & H2 & H3 & H4 & H5 & H6 & H7);
          [intros m; by split|];
        destruct (update_current_fields f (update_current g p))
          as (G1 & G2 & G3 & G4 & G5 & G6 & G7);
          [intros m; by split|]
    end.
    unfold processed in *. simpl. repeat split; congruence.
  - unfold ChatPage.handleWsMessage.
    eexists. split; [reflexivity|]. simpl.
    match goal with
    | |- context [update_current ?g p] =>
        destruct (update_current_fields g p) as (H1 & H2 & H3 & H4 & H5 & H6 & H7);
          [intros m; by split|]
    end.
    unfold processed in *. simpl. repeat split; congruence.
Qed.

(** Any other message leaves the queue and the processing flag alone. *)
Lemma handleWsMessage_other (msg : SessionWsMessage) (p : Page) :
  ends_message msg = false ->
  processed (handleWsMessage msg p) = processed p
  /\ messageQueue (handleWsMessage msg p) = messageQueue p
  /\ isProcessing (handleWsMessage msg p) = isProcessing p
  /\ uuids (handleWsMessage msg p) = uuids p.
Proof.
  intros Hend. destruct msg as [line b|sid r|message|pid]; simpl in Hend; try discriminate.
  - unfold ChatPage.handleWsMessage. rewrite Hend.
    match goal with
    | |- context [update_current ?g p] =>
        destruct (update_current_fields g p) as (H1 & H2 & H3 & _ & _ & H6 & _);
          [intros m; by split|]
    end.
    done.
  - done.
  - done.
Qed.

(** What a browser event on the client's sockets does to the page: the
    client changes, and at most one message reaches [handleWsMessage]. *)
Lemma socket_event_cases (e : UIRefinementsWebSocket.Event) (p : Page) :
  (exists o : option UIRefinementsWebSocket.t, socket_event randomUUID now e p = set_wsClient o p)
  \/ (exists (i : nat) (msg : SessionWsMessage) (c' : UIRefinementsWebSocket.t),
        e = Ws.SocketMessage i (Some msg)
        /\ socket_event randomUUID now e p = handleWsMessage msg (set_wsClient (Some c') p)).
Proof.
  unfold socket_event.
  destruct (wsClient p) as [c|] eqn:Hc.
  2:{ left. exists None. destruct p; simpl in *. by rewrite Hc. }
  unfold UIRefinementsWebSocket.step.
  destruct e as [| |v|i|i data|i|k]; simpl; try (left; eexists; reflexivity).
  - unfold Ws.socket_message, Ws.onmessage.
    destruct (Ws.sockets c !! i) as [sk|]; [|left; eexists; reflexivity].
    destruct (bool_decide _); [|left; eexists; reflexivity].
    destruct data as [msg|]; [|left; eexists; reflexivity].
    destruct (to_onConnect msg); [left; eexists; reflexivity|].
    right. exists i, msg, c. done.
  - unfold Ws.socket_close, Ws.onclose.
    destruct (Ws.sockets c !! i) as [sk|]; [|left; eexists; reflexivity].
    destruct (bool_decide _); [left; eexists; reflexivity|]. simpl.
    destruct (_ <? _); left; eexists; reflexivity.
Qed.

(** A message sent while another is being processed goes to the end of
    the queue and nothing else moves. *)
Lemma handleSendMessage_busy (content : string) (p : Page) :
  isProcessing p = true ->
  messageQueue (handleSendMessage content p)
  = messageQueue p ++
    [{| q_id := randomUUID (uuids p); q_content := content;
        q_elementContext := selectedElement p;
        queuePosition := length (messageQueue p) + 1 |}]
  /\ messages (handleSendMessage content p) = messages p
  /\ isProcessing (handleSendMessage content p) = true
  /\ currentAssistantMessageId (handleSendMessage content p)
     = currentAssistantMessageId p.
Proof.
  intros H. unfold ChatPage.handleSendMessage, take_uuid, take_now. simpl.
  rewrite H. simpl. rewrite ?H. done.
Qed.

(** A message sent while the page is idle is handed over at once. *)
Lemma handleSendMessage_idle (content : string) (p : Page) :
  isProcessing p = false -> messageQueue p = [] ->
  processed (handleSendMessage content p) ++ waiting (handleSendMessage content p)
  = processed p ++ [randomUUID (uuids p)]
  /\ idle_means_empty (handleSendMessage content p).
Proof.
  intros Hidle Hq. unfold ChatPage.handleSendMessage, take_uuid, take_now. simpl.
  rewrite Hidle. unfold ChatPage.processMessage.
  match goal with
  | |- context [ChatPage.processMessage_then _ _ ?k ?m ?x] =>
      set (msg := m); set (p1 := x)
  end.
  assert (Hproc1 : processed p1 = processed p ++ [randomUUID (uuids p)]).
  { unfold processed, p1; simpl. by rewrite user_ids_snoc. }
  assert (Hq1 : messageQueue p1 = []) by (unfold p1; simpl; done).
  assert (Hsel : forall r b,
             processed (set_selection b None r) = processed r
             /\ waiting (set_selection b None r) = waiting r
             /\ (idle_means_empty r -> idle_means_empty (set_selection b None r))).
  { intros r b. by repeat split. }
  destruct (not_ready p1) eqn:Hready.
  - destruct (processMessage_not_ready processNextInQueue msg p1 Hready)
      as (p2 & -> & Hproc2 & Hq2 & _).
    destruct (processQueue_order (messageQueue p2) p2 eq_refl) as [H1 H2].
    fold (processNextInQueue p2) in H1, H2.
    destruct (Hsel (processNextInQueue p2) (highlightMode (processNextInQueue p2)))
      as (-> & -> & Hidle').
    split; [|by apply Hidle'].
    rewrite H1, Hproc2, Hproc1, Hq2, Hq1. simpl. by rewrite app_nil_r.
  - destruct (processMessage_ready processNextInQueue msg p1 Hready)
      as (Hproc2 & Hq2 & Hbusy2 & _).
    match goal with
    | |- context [set_selection ?b None ?r] =>
        destruct (Hsel r b) as (-> & -> & Hidle')
    end.
    split.
    + unfold waiting. rewrite Hproc2, Hq2, Hproc1, Hq1. simpl. by rewrite app_nil_r.
    + apply Hidle'. unfold idle_means_empty. rewrite Hbusy2. unfold p1; simpl. discriminate.
Qed.

(** The order of the ids, processed ones first, changes only by a new
    arrival at its end. *)
Lemma step_order (e : Event) (p : Page) :
  idle_means_empty p -> is_cancel e = false ->
  processed (step e p) ++ waiting (step e p)
  = (processed p ++ waiting p) ++ arrivals [e] p
  /\ idle_means_empty (step e p).
Proof.
  intros Hinv Hnc.
  assert (Hsame : forall p' : Page,
             processed p' = processed p -> messageQueue p' = messageQueue p ->
             isProcessing p' = isProcessing p ->
             processed p' ++ waiting p' = (processed p ++ waiting p) ++ []
             /\ idle_means_empty p').
  { intros p' H1 H2 H3. unfold waiting, idle_means_empty in *.
    rewrite H1, H2, H3, app_nil_r. by split. }
  assert (Hsock : forall ev : UIRefinementsWebSocket.Event,
             processed (socket_event randomUUID now ev p)
             ++ waiting (socket_event randomUUID now ev p)
             = (processed p ++ waiting p) ++ []
             /\ idle_means_empty (socket_event randomUUID now ev p)).
  { intros ev.
    destruct (socket_event_cases ev p) as [[o ->]|(i & msg & c' & _ & ->)];
      [by apply Hsame|].
    destruct (ends_message msg) eqn:Hend.
    - destruct (handleWsMessage_completion msg (set_wsClient (Some c') p) Hend)
        as (p0 & -> & Hp & Hq & _).
      destruct (processQueue_order (messageQueue p0) p0 eq_refl) as [H1 H2].
      split; [|exact H2].
      unfold ChatPage.processNextInQueue. rewrite H1, Hp, Hq.
      by rewrite app_nil_r.
    - destruct (handleWsMessage_other msg (set_wsClient (Some c') p) Hend)
        as (H1 & H2 & H3 & _).
      by apply Hsame. }
  destruct e as [branchName|path|text|messageId|agent|element| |i|i data|i|k| ];
    simpl in Hnc; try discriminate; simpl.
  - destruct (branchCreated p); by apply Hsame.
  - destruct (truthy_opt path); by apply Hsame.
  - destruct (isProcessing p) eqn:Hbusy.
    + destruct (handleSendMessage_busy text p Hbusy) as (Hq & Hm & Hb & _).
      split.
      * unfold waiting, processed. rewrite Hq, Hm, map_app. simpl.
        by rewrite !app_assoc.
      * unfold idle_means_empty. rewrite Hb. discriminate.
    + destruct (handleSendMessage_idle text p Hbusy (Hinv Hbusy)) as [H1 H2].
      split; [|exact H2]. rewrite H1. unfold waiting. rewrite (Hinv Hbusy). simpl.
      by rewrite !app_nil_r.
  - by apply Hsame.
  - by apply Hsame.
  - by apply Hsame.
  - apply Hsock.
  - apply Hsock.
  - apply Hsock.
  - apply Hsock.
  - by apply Hsame.
Qed.

Lemma run_order (es : list Event) (p : Page) :
  idle_means_empty p -> forallb (fun e => negb (is_cancel e)) es = true ->
  processed (run es p) ++ waiting (run es p)
  = (processed p ++ waiting p) ++ arrivals es p
  /\ idle_means_empty (run es p).
Proof.
  revert p. induction es as [|e es IH]; intros p Hinv Hnc.
  - simpl. by rewrite app_nil_r.
  - simpl in Hnc. apply andb_true_iff in Hnc. destruct Hnc as [He Hes].
    apply negb_true_iff in He.
    destruct (step_order e p Hinv He) as [H1 H2].
    destruct (IH (step e p) H2 Hes) as [H3 H4].
    split; [|exact H4].
    change (run (e :: es) p) with (run es (step e p)).
    rewrite H3, H1. simpl. rewrite app_nil_r. by rewrite <- !app_assoc.
Qed.

(** While a message is being processed and nothing ends it, no other
    message is handed over. *)
Lemma step_busy (e : Event) (p : Page) :
  isProcessing p = true -> is_completion e = false ->
  isProcessing (step e p) = true /\ processed (step e p) = processed p.
Proof.
  intros Hbusy Hnc.
  assert (Hsock : forall ev : UIRefinementsWebSocket.Event,
             (forall i msg, ev = Ws.SocketMessage i (Some msg) -> ends_message msg = false) ->
             isProcessing (socket_event randomUUID now ev p) = true
             /\ processed (socket_event randomUUID now ev p) = processed p).
  { intros ev Hev.
    destruct (socket_event_cases ev p) as [[o ->]|(i & msg & c' & Heq & ->)]; [done|].
    destruct (handleWsMessage_other msg (set_wsClient (Some c') p) (Hev i msg Heq))
      as (H1 & _ & H3 & _).
    by rewrite H1, H3. }
  destruct e as [branchName|path|text|messageId|agent|element| |i|i data|i|k| ];
    simpl in *.
  - by destruct (branchCreated p).
  - by destruct (truthy_opt path).
  - destruct (handleSendMessage_busy text p Hbusy) as (_ & Hm & Hb & _).
    unfold processed. by rewrite Hm.
  - done.
  - done.
  - done.
  - done.
  - apply Hsock. intros; discriminate.
  - apply Hsock. intros i0 msg [= _ ->]. exact Hnc.
  - apply Hsock. intros; discriminate.
  - apply Hsock. intros; discriminate.
  - done.
Qed.

Lemma run_busy (es : list Event) (p : Page) :
  isProcessing p = true -> forallb (fun e => negb (is_completion e)) es = true ->
  isProcessing (run es p) = true /\ processed (run es p) = processed p.
Proof.
  revert p. induction es as [|e es IH]; intros p Hbusy Hnc; [done|].
  simpl in Hnc. apply andb_true_iff in Hnc. destruct Hnc as [He Hes].
  apply negb_true_iff in He.
  destruct (step_busy e p Hbusy He) as [H1 H2].
  destruct (IH (step e p) H1 Hes) as [H3 H4].
  change (run (e :: es) p) with (run es (step e p)).
  split; congruence.
Qed.

(** *** The reply being written *)

Section OneReply.

(** [crypto.randomUUID()] never returns the empty string. *)
Hypothesis uuid_not_empty : forall n : nat, randomUUID n <> "".

Lemma streaming_snoc (l : list ChatMessage) (m : ChatMessage) :
  filter (fun m => role m = assistant /\ status m = processing) (l ++ [m])
  = filter (fun m => role m = assistant /\ status m = processing) l
    ++ (if decide (role m = assistant /\ status m = processing) then [m] else []).
Proof.
  rewrite filter_app, filter_cons, filter_nil.
  by destruct (decide (role m = assistant /\ status m = processing)).
Qed.

Lemma streaming_snoc_other (l : list ChatMessage) (m : ChatMessage) :
  role m = user \/ status m <> processing ->
  filter (fun m => role m = assistant /\ status m = processing) (l ++ [m])
  = filter (fun m => role m = assistant /\ status m = processing) l.
Proof.
  intros H. rewrite streaming_snoc.
  destruct (decide _) as [[H1 H2]|_]; [|by rewrite app_nil_r].
  destruct H as [H|H]; [congruence|done].
Qed.

Lemma streaming_snoc_reply (l : list ChatMessage) (m : ChatMessage) :
  role m = assistant -> status m = processing ->
  filter (fun m => role m = assistant /\ status m = processing) (l ++ [m])
  = filter (fun m => role m = assistant /\ status m = processing) l ++ [m].
Proof.
  intros H1 H2. rewrite streaming_snoc.
  destruct (decide _) as [_|Hno]; [done|]. by destruct Hno.
Qed.

Lemma filter_none {A : Type} (P : A -> Prop) `{forall x, Decision (P x)} (l : list A) :
  (forall x, x ∈ l -> ~ P x) -> filter P l = [].
Proof.
  induction l as [|x l IH]; intros Hl; [done|].
  rewrite filter_cons. destruct (decide (P x)) as [HP|_].
  - destruct (Hl x); [by left|done].
  - apply IH. intros y Hy. apply Hl. by right.
Qed.

Lemma filter_map_keep {A : Type} (P : A -> Prop) `{forall x, Decision (P x)}
      (h : A -> A) (l : list A) :
  (forall x, P (h x) <-> P x) -> filter P (map h l) = map h (filter P l).
Proof.
  intros Hh. induction l as [|x l IH]; [done|].
  simpl map. rewrite !filter_cons.
  destruct (decide (P (h x))) as [H1|H1], (decide (P x)) as [H2|H2]; simpl;
    rewrite ?IH; try done.
  - destruct H2. by apply Hh.
  - destruct H1. by apply Hh.
Qed.

(** A page keeps [one_reply] when the three fields it reads are kept. *)
Lemma one_reply_ext (p p' : Page) :
  messages p' = messages p -> isProcessing p' = isProcessing p ->
  currentAssistantMessageId p' = currentAssistantMessageId p ->
  one_reply p -> one_reply p'.
Proof.
  intros Hm Hb Hc. unfold one_reply, streaming. by rewrite Hm, Hb, Hc.
Qed.

(** A page on which no reply is being written and none is named. *)
Lemma settled_one_reply (p : Page) :
  streaming p = [] -> currentAssistantMessageId p = None -> one_reply p.
Proof.
  intros Hs Hc. unfold one_reply. rewrite Hs, Hc. simpl.
  split; [lia|]. split; [by intros m H; apply not_elem_of_nil in H|]. done.
Qed.

Lemma one_reply_settled (p : Page) :
  one_reply p -> currentAssistantMessageId p = None -> streaming p = [].
Proof.
  intros (_ & Hcur & _) Hc. destruct (streaming p) as [|m l] eqn:Hs; [done|].
  specialize (Hcur m). rewrite Hc in Hcur. discriminate Hcur. by left.
Qed.

(** What [update_current] does to the messages. *)
Lemma update_current_messages (f : ChatMessage -> ChatMessage) (p : Page) :
  exists h : ChatMessage -> ChatMessage,
    messages (update_current f p) = map h (messages p)
    /\ (forall m, h m = f m \/ h m = m)
    /\ (forall m cur, currentAssistantMessageId p = Some cur -> cur <> "" ->
                      id m = cur -> h m = f m)
    /\ (forall m, currentAssistantMessageId p <> Some (id m) -> h m = m)
    /\ isProcessing (update_current f p) = isProcessing p
    /\ currentAssistantMessageId (update_current f p) = currentAssistantMessageId p
    /\ messageQueue (update_current f p) = messageQueue p.
Proof.
  unfold update_current. destruct (currentAssistantMessageId p) as [cur|] eqn:Hc.
  - destruct (truthy cur) eqn:Ht.
    + exists (fun m => if String.eqb (id m) cur then f m else m). simpl.
      split; [done|]. split; [intros m; destruct (String.eqb _ _); by auto|].
      split.
      { intros m cur' [= <-] _ Hid. apply String.eqb_eq in Hid. by rewrite Hid. }
      split; [|done].
      intros m Hne. destruct (String.eqb_spec (id m) cur) as [Heq|_]; [|done].
      destruct Hne. by rewrite Heq.
    + exists (fun m => m). rewrite map_id, Hc.
      split; [done|]. split; [by right|]. split; [|done].
      intros m cur' [= <-] Hne _. unfold truthy in Ht.
      destruct (String.eqb_spec cur ""); [done|discriminate].
  - exists (fun m => m). rewrite map_id, Hc. split; [done|]. split; [by right|]. done.
Qed.

(** Output that does not end the reply leaves the statuses alone. *)
Lemma update_current_keeps (f : ChatMessage -> ChatMessage) (p : Page) :
  (forall m, id (f m) = id m /\ role (f m) = role m /\ status (f m) = status m) ->
  one_reply p -> one_reply (update_current f p).
Proof.
  intros Hf (Hlen & Hcur & Hidle & Hne).
  destruct (update_current_messages f p) as (h & Hm & Hh & _ & _ & Hb & Hc & _).
  assert (Hkeep : forall m, id (h m) = id m /\ role (h m) = role m
                            /\ status (h m) = status m).
  { intros m. destruct (Hh m) as [-> | ->]; [apply Hf|done]. }
  assert (Hs : streaming (update_current f p) = map h (streaming p)).
  { unfold streaming. rewrite Hm. apply filter_map_keep.
    intros m. destruct (Hkeep m) as (_ & -> & ->). done. }
  unfold one_reply. rewrite Hs, Hb, Hc, length_map.
  split; [done|]. split; [|done].
  intros m' Hin. apply list_elem_of_fmap in Hin. destruct Hin as (m & -> & Hin).
  destruct (Hkeep m) as (-> & _). by apply Hcur.
Qed.

(** An update that ends the reply leaves no reply being written. *)
Lemma update_current_ends (f : ChatMessage -> ChatMessage) (p : Page) :
  (forall m, status (f m) <> processing) ->
  one_reply p -> streaming (update_current f p) = [].
Proof.
  intros Hf (Hlen & Hcur & Hidle & Hne).
  destruct (update_current_messages f p) as (h & Hm & _ & Hhit & Hmiss & _).
  unfold streaming. rewrite Hm. apply filter_none.
  intros m' Hin [Hrole Hst]. apply list_elem_of_fmap in Hin.
  destruct Hin as (m & -> & Hin).
  destruct (currentAssistantMessageId p) as [cur|] eqn:Hc.
  - destruct (String.eqb_spec (id m) cur) as [Heq|Hneq].
    + rewrite (Hhit m cur eq_refl (Hne cur eq_refl) Heq) in Hst. by apply (Hf m).
    + assert (Hsame : h m = m) by (apply Hmiss; congruence).
      rewrite Hsame in Hrole, Hst.
      assert (Hs : m ∈ streaming p) by (apply list_elem_of_filter; done).
      apply Hcur in Hs. congruence.
  - assert (Hsame : h m = m) by (by apply Hmiss).
    rewrite Hsame in Hrole, Hst.
    assert (Hs : m ∈ streaming p) by (apply list_elem_of_filter; done).
    apply Hcur in Hs. discriminate.
Qed.

(** [processNextInQueue()] on a page where no reply is being written. *)
Lemma processQueue_one_reply (q : list QueuedMessage) :
  forall p : Page,
    streaming p = [] -> currentAssistantMessageId p = None ->
    one_reply (processQueue q p).
Proof.
  induction q as [|next rest IH]; intros p Hs Hc; [by apply settled_one_reply|].
  simpl. unfold take_now. simpl.
  unfold ChatPage.processMessage_then. simpl.
  match goal with
  | |- context [if not_ready ?x then _ else _] => destruct (not_ready x) eqn:Hready
  end.
  - unfold take_uuid, take_now. simpl. apply IH; [|done].
    unfold streaming in *. simpl.
    rewrite !streaming_snoc_other; [done|by left|by right].
  - unfold take_uuid, take_now. simpl.
    assert (Hgoal : forall r : Page,
               messages r
               = (messages p ++
                  [{| id := q_id next; role := user; content := q_content next;
                      timestamp := now (ticks p);
                      elementContext := q_elementContext next; status := processing |}])
                 ++ [{| id := randomUUID (uuids p); role := assistant; content := "";
                        timestamp := now (S (ticks p)); elementContext := None;
                        status := processing |}] ->
               isProcessing r = true ->
               currentAssistantMessageId r = Some (randomUUID (uuids p)) ->
               one_reply r).
    { intros r Hm Hb Hcur. unfold one_reply, streaming. rewrite Hm, Hb, Hcur.
      unfold streaming in Hs.
      rewrite streaming_snoc_reply, streaming_snoc_other, Hs; [|by left|done|done].
      simpl. split; [lia|]. split.
      - intros m Hin. apply list_elem_of_singleton in Hin. by subst m.
      - split; [discriminate|]. intros cur [= <-]. apply uuid_not_empty. }
    destruct (wsClient p) as [c|]; simpl; by apply Hgoal.
Qed.

Lemma handleWsMessage_one_reply (msg : SessionWsMessage) (p : Page) :
  one_reply p -> one_reply (handleWsMessage msg p).
Proof.
  intros Hp. destruct msg as [line b|sid r|message|pid]; simpl; try done.
  - set (g := fun m : ChatMessage =>
                with_content_status (content m +:+ line +:+ String "010"%char "")
                  (status m) m).
    assert (Hg : one_reply (update_current g p)).
    { apply update_current_keeps; [by intros m|done]. }
    destruct (includes EXIT_MARKER line); [|exact Hg].
    unfold ChatPage.processNextInQueue. apply processQueue_one_reply; [|done].
    unfold streaming. simpl. fold (streaming (update_current
      (fun m => with_content_status (content m) completed m) (update_current g p))).
    apply update_current_ends; [by intros m|done].
  - unfold ChatPage.processNextInQueue. apply processQueue_one_reply; [|done].
    unfold streaming. simpl.
    match goal with
    | |- context [messages (update_current ?f p)] =>
        fold (streaming (update_current f p)); apply update_current_ends;
          [by intros m|done]
    end.
Qed.

Lemma handleSendMessage_one_reply (text : string) (p : Page) :
  one_reply p -> one_reply (handleSendMessage text p).
Proof.
  intros Hp. pose proof Hp as (Hlen & Hcur & Hidle & Hne).
  unfold ChatPage.handleSendMessage, take_uuid, take_now. simpl.
  destruct (isProcessing p) eqn:Hb.
  - simpl. eapply one_reply_ext; [| | |exact Hp]; by simpl.
  - pose proof (Hidle eq_refl) as Hc. pose proof (one_reply_settled p Hp Hc) as Hs.
    eapply one_reply_ext; [reflexivity|reflexivity|reflexivity|].
    unfold ChatPage.processMessage, ChatPage.processMessage_then. simpl.
    match goal with
    | |- context [if not_ready ?x then _ else _] => destruct (not_ready x) eqn:Hready
    end.
    + unfold take_uuid, take_now, ChatPage.processNextInQueue. simpl.
      apply processQueue_one_reply; [|done].
      unfold streaming in *. simpl.
      rewrite !streaming_snoc_other; [done|by left|by right].
    + unfold take_uuid, take_now. simpl.
      assert (Hgoal : forall r : Page,
                 messages r
                 = (messages p ++
                    [{| id := randomUUID (uuids p); role := user; content := text;
                        timestamp := now (ticks p);
                        elementContext := selectedElement p; status := processing |}])
                   ++ [{| id := randomUUID (S (uuids p)); role := assistant;
                          content := ""; timestamp := now (S (ticks p));
                          elementContext := None; status := processing |}] ->
                 isProcessing r = true ->
                 currentAssistantMessageId r = Some (randomUUID (S (uuids p))) ->
                 one_reply r).
      { intros r Hm Hbusy Hcur'. unfold one_reply, streaming. rewrite Hm, Hbusy, Hcur'.
        unfold streaming in Hs.
        rewrite streaming_snoc_reply, streaming_snoc_other, Hs; [|by left|done|done].
        simpl. split; [lia|]. split.
        - intros m Hin. apply list_elem_of_singleton in Hin. by subst m.
        - split; [discriminate|]. intros cur [= <-]. apply uuid_not_empty. }
      destruct (wsClient p) as [c|]; simpl; by apply Hgoal.
Qed.

Lemma step_one_reply (e : Event) (p : Page) : one_reply p -> one_reply (step e p).
Proof.
  intros Hp.
  assert (Hsock : forall ev : UIRefinementsWebSocket.Event,
             one_reply (socket_event randomUUID now ev p)).
  { intros ev.
    destruct (socket_event_cases ev p) as [[o ->]|(i & msg & c' & _ & ->)].
    - by eapply one_reply_ext; [| | |exact Hp].
    - apply handleWsMessage_one_reply. by eapply one_reply_ext; [| | |exact Hp]. }
  destruct e as [branchName|path|text|messageId|agent|element| |i|i data|i|k| ]; simpl;
    try apply Hsock; try (by eapply one_reply_ext; [| | |exact Hp]).
  - destruct (branchCreated p); [done|]. by eapply one_reply_ext; [| | |exact Hp].
  - destruct (truthy_opt path); [|done]. by eapply one_reply_ext; [| | |exact Hp].
  - by apply handleSendMessage_one_reply.
Qed.

Lemma run_one_reply (es : list Event) : one_reply (run es initial).
Proof.
  induction es as [|e es IH] using rev_ind.
  - by apply settled_one_reply.
  - unfold ChatPage.run. rewrite fold_left_app. simpl. by apply step_one_reply.
Qed.

End OneReply.

(** C5.  The chat processes one message at a time, in the order sent.
    - At most one reply of the agent is in the state [processing] at any
      time: the one named by [currentAssistantMessageId], while the page
      is busy; on an idle page there is none.  (The user's message that
      is being answered is in that state too.)
    - A message sent while another is being processed is appended to the
      end of the queue; the message list and the processing flag stay as
      they are.
    - While a message is being processed, and until an exit line or an
      error arrives for it, no other message is handed to
      [processMessage], whatever else happens on the page.
    - When the exit line or an error arrives, the head of the queue is
      removed and handed over next (the page being connected and
      configured): it becomes the next user message, with its id, text
      and element context, and [spawnAgent] is called with the prompt
      built from it; with an empty queue the page becomes idle; in no
      case does a message overtake another.
    - Hence, from the initial page and as long as no queued message is
      cancelled, the ids of the messages handed over so far followed by
      the ids still waiting are the ids of the messages in the order in
      which they were sent. *)
Theorem chat_queue_fifo :
  (forall (p : Page) (text : string),
     isProcessing p = true ->
     messageQueue (handleSendMessage text p)
     = messageQueue p ++
       [{| q_id := randomUUID (uuids p); q_content := text;
           q_elementContext := selectedElement p;
           queuePosition := length (messageQueue p) + 1 |}]
     /\ messages (handleSendMessage text p) = messages p
     /\ isProcessing (handleSendMessage text p) = true)
  /\ (forall (p : Page) (es : list Event),
        isProcessing p = true ->
        forallb (fun e => negb (is_completion e)) es = true ->
        isProcessing (run es p) = true /\ processed (run es p) = processed p)
  /\ (forall (p : Page) (msg : SessionWsMessage) (next : QueuedMessage)
             (rest : list QueuedMessage),
        ends_message msg = true -> messageQueue p = next :: rest ->
        not_ready p = false ->
        processed (handleWsMessage msg p) = processed p ++ [q_id next]
        /\ messageQueue (handleWsMessage msg p) = rest
        /\ isProcessing (handleWsMessage msg p) = true)
  /\ (forall (p : Page) (msg : SessionWsMessage) (next : QueuedMessage)
             (rest : list QueuedMessage) (c : UIRefinementsWebSocket.t),
        ends_message msg = true -> messageQueue p = next :: rest ->
        wsClient p = Some c -> truthy (targetRepoPath p) = true ->
        exists (earlier : list ChatMessage) (ts ts' : Z),
          let handed := {| id := q_id next; role := user; content := q_content next;
                           timestamp := ts; elementContext := q_elementContext next;
                           status := processing |} in
          messages (handleWsMessage msg p)
          = earlier ++
            [handed;
             {| id := randomUUID (uuids p); role := assistant; content := "";
                timestamp := ts'; elementContext := None; status := processing |}]
          /\ wsClient (handleWsMessage msg p)
             = Some (default c (spawnAgent (buildPrompt handed)
                                           (agent_name (selectedAgent p))
                                           (targetRepoPath p) c)))
  /\ (forall (p : Page) (msg : SessionWsMessage),
        ends_message msg = true -> messageQueue p = [] ->
        isProcessing (handleWsMessage msg p) = false
        /\ processed (handleWsMessage msg p) = processed p)
  /\ (forall (p : Page) (msg : SessionWsMessage),
        ends_message msg = true ->
        processed (handleWsMessage msg p) ++ waiting (handleWsMessage msg p)
        = processed p ++ waiting p)
  /\ (forall es : list Event,
        forallb (fun e => negb (is_cancel e)) es = true ->
        processed (run es initial) ++ waiting (run es initial) = arrivals es initial)
  /\ ((forall n : nat, randomUUID n <> "") ->
      forall es : list Event,
        length (streaming (run es initial)) <= 1
        /\ (forall m : ChatMessage,
              m ∈ streaming (run es initial) ->
              currentAssistantMessageId (run es initial) = Some (id m)
              /\ isProcessing (run es initial) = true)
        /\ (isProcessing (run es initial) = false -> streaming (run es initial) = [])).
Proof.
  split.
  { intros p text H. destruct (handleSendMessage_busy text p H) as (H1 & H2 & H3 & _).
    done. }
  split; [intros p es; apply run_busy|].
  split.
  { intros p msg next rest Hend Hq Hready.
    destruct (handleWsMessage_completion msg p Hend)
      as (p0 & -> & Hp & Hq0 & _ & _ & Hws & Hpath & _).
    unfold ChatPage.processNextInQueue. rewrite Hq0, Hq.
    rewrite <- Hp. apply processQueue_head.
    rewrite <- Hready. by apply not_ready_ext. }
  split.
  { intros p msg next rest c Hend Hq Hc Hpath.
    destruct (handleWsMessage_completion msg p Hend)
      as (p0 & -> & _ & Hq0 & _ & _ & Hws & Hpath0 & Huu & Hag).
    unfold ChatPage.processNextInQueue. rewrite Hq0, Hq.
    rewrite <- Hws in Hc. rewrite <- Hpath0 in Hpath.
    destruct (processQueue_head_spawn next rest p0 c Hc Hpath) as [H1 H2].
    exists (messages p0), (now (ticks p0)), (now (S (ticks p0))). cbv zeta.
    rewrite H1, H2, Huu, Hag, Hpath0. done. }
  split.
  { intros p msg Hend Hq.
    destruct (handleWsMessage_completion msg p Hend)
      as (p0 & -> & Hp & Hq0 & Hidle & _).
    unfold ChatPage.processNextInQueue. rewrite Hq0, Hq. simpl. done. }
  split.
  { intros p msg Hend.
    destruct (handleWsMessage_completion msg p Hend) as (p0 & -> & Hp & Hq0 & _).
    destruct (processQueue_order (messageQueue p0) p0 eq_refl) as [H1 _].
    unfold ChatPage.processNextInQueue. rewrite H1. unfold waiting. by rewrite Hp, Hq0. }
  split.
  { intros es Hnc.
    destruct (run_order es initial) as [H _]; [done|exact Hnc|].
    rewrite H. reflexivity. }
  intros Hne es. pose proof (run_one_reply Hne es) as Hone.
  pose proof Hone as (Hlen & Hcur & Hidle & _).
  split; [exact Hlen|]. split.
  - intros m Hin. split; [by apply Hcur|].
    destruct (isProcessing (run es initial)) eqn:Hb; [done|].
    specialize (Hcur m Hin). rewrite (Hidle eq_refl) in Hcur. discriminate.
  - intros Hb. by apply one_reply_settled, Hidle.
Qed.

End ChatFacts.

(** One message sent on a connected and configured page: the message of
    the user and the placeholder of the reply are both in the state
    [processing].  C5 as stated, with at most one message in that state,
    does not hold. *)
Lemma two_messages_in_processing :
  let p := ChatPage.run ChatPage.example_uuid ChatPage.example_clock
             [ChatPage.BranchCreate "ui/header"; ChatPage.SettingsLoaded (Some "/repo");
              ChatPage.SocketOpen 0; ChatPage.SendMessage "make the header blue"]
             ChatPage.initial in
  map ChatPage.role (ChatPage.in_processing p) = [ChatPage.user; ChatPage.assistant]
  /\ ~ length (ChatPage.in_processing p) <= 1.
Proof.
  intros p. split; [reflexivity|]. vm_compute. lia.
Qed.

Lemma chat_queue_fifo_witness :
  let es := [ChatPage.BranchCreate "ui/header"; ChatPage.SettingsLoaded (Some "/repo");
             ChatPage.SocketOpen 0;
             ChatPage.SendMessage "make the header blue";
             ChatPage.SendMessage "and the footer grey";
             ChatPage.SendMessage "undo the footer"] in
  let p := ChatPage.run ChatPage.example_uuid ChatPage.example_clock es ChatPage.initial in
  ChatPage.processed p ++ ChatPage.waiting p = ["id-1"; "id-3"; "id-4"]
  /\ ChatPage.isProcessing
       (ChatPage.run ChatPage.example_uuid ChatPage.example_clock
          [ChatPage.SendMessage "one more";
           ChatPage.SocketMessage 0 (Some (UIRefinementsWebSocket.OutputMessage "working" false))]
          p) = true
  /\ ChatPage.processed
       (ChatPage.handleWsMessage ChatPage.example_uuid ChatPage.example_clock
          (UIRefinementsWebSocket.OutputMessage "[Process exited with code 0]" false) p)
     = ["id-1"; "id-3"]
  /\ (forall n : nat, ChatPage.example_uuid n <> "")
  /\ map ChatPage.id (ChatPage.streaming p) = ["id-2"]
  /\ ChatPage.currentAssistantMessageId p = Some "id-2".
Proof.
  intros es p.
  assert (Hne : forall n : nat, ChatPage.example_uuid n <> "").
  { intros n H. unfold ChatPage.example_uuid in H. discriminate H. }
  destruct (chat_queue_fifo ChatPage.example_uuid ChatPage.example_clock)
    as (_ & Hbusy & Hnext & _ & _ & _ & Hfifo & Hone).
  split; [|split; [|split; [|split; [exact Hne|split; [reflexivity|]]]]];
    [| | |destruct (Hone Hne es) as (_ & Hcur & _);
          apply (Hcur {| ChatPage.id := "id-2"; ChatPage.role := ChatPage.assistant;
                         ChatPage.content := "";
                         ChatPage.timestamp := 1700000000001;
                         ChatPage.elementContext := None;
                         ChatPage.status := ChatPage.processing |});
          vm_compute; by left].
  - unfold p. rewrite (Hfifo es eq_refl). reflexivity.
  - apply (Hbusy p); reflexivity.
  - destruct (Hnext p (UIRefinementsWebSocket.OutputMessage "[Process exited with code 0]" false)
                {| ChatPage.q_id := "id-3"; ChatPage.q_content := "and the footer grey";
                   ChatPage.q_elementContext := None; ChatPage.queuePosition := 1 |}
                [{| ChatPage.q_id := "id-4"; ChatPage.q_content := "undo the footer";
                    ChatPage.q_elementContext := None; ChatPage.queuePosition := 2 |}])
      as (H & _); [reflexivity|reflexivity|reflexivity|].
    rewrite H. reflexivity.
Defined.

(* ================================================================== *)
(** * Further properties of the connection managers *)
(* ================================================================== *)

Section WsMoreFacts.

Context {Id Msg : Type}.
Variable endpoint : Id -> Endpoint.
Variable to_onConnect : Msg -> option bool.

#[local] Abbreviation Client := (Ws.Client Id).
#[local] Abbreviation step := (Ws.step endpoint to_onConnect).
#[local] Abbreviation run := (Ws.run endpoint to_onConnect).

(** X1.  The senders never throw, whatever the state of the client: the
    guard keeps [socket.send] away from a socket that is still
    connecting.  They change nothing but the frames of the client's
    sockets, and when [this.ws] is OPEN they append the frame to that
    socket, once. *)
Theorem senders_never_throw (v : Json) (c : Client) :
  exists c' : Client,
    Ws.send_if_open v c = Some c'
    /\ Ws.ws c' = Ws.ws c
    /\ Ws.reconnectAttempts c' = Ws.reconnectAttempts c
    /\ Ws.maxReconnectAttempts c' = Ws.maxReconnectAttempts c
    /\ Ws.timers c' = Ws.timers c
    /\ length (Ws.sockets c') = length (Ws.sockets c)
    /\ (readyState <$> Ws.sockets c') = (readyState <$> Ws.sockets c)
    /\ (Ws.isConnected c = false -> c' = c)
    /\ (forall i s, Ws.isConnected c = true -> Ws.ws c = Some i ->
                    Ws.sockets c !! i = Some s ->
                    Ws.sockets c' !! i
                    = Some {| url := url s; readyState := OPEN; sent := sent s ++ [v] |}
                    /\ forall j, j ≠ i -> Ws.sockets c' !! j = Ws.sockets c !! j).
Proof.
  destruct (Ws.isConnected c) eqn:Hc.
  - destruct (proj1 (isConnected_true c) Hc) as (i & s & Hws & Hs & Hopen).
    rewrite (send_if_open_sends v c i s Hws Hs Hopen).
    eexists. split; [reflexivity|]. simpl.
    assert (Hi : i < length (Ws.sockets c)) by (by apply lookup_lt_Some in Hs).
    repeat split.
    + by rewrite length_insert.
    + rewrite list_fmap_insert. simpl. rewrite <- Hopen.
      apply list_insert_id. by rewrite list_lookup_fmap, Hs.
    + discriminate.
    + rewrite Hws in H0. injection H0 as <-. rewrite Hs in H1. injection H1 as <-.
      by rewrite list_lookup_insert_eq.
    + intros j Hj. rewrite Hws in H0. injection H0 as <-.
      by rewrite list_lookup_insert_ne.
  - rewrite (send_if_closed v c Hc). exists c. repeat split; try done.
Qed.

(** X2.  [disconnect()] may be called twice, as [Terminal.svelte] does
    when it is unmounted: the second call changes nothing.  After it the
    client is not connected and the senders send nothing; the socket it
    held is closing (if it was connecting or open) and no other socket is
    touched. *)
Theorem disconnect_twice (c : Client) :
  Ws.disconnect (Ws.disconnect c) = Ws.disconnect c
  /\ Ws.isConnected (Ws.disconnect c) = false
  /\ (forall v : Json, Ws.send_if_open v (Ws.disconnect c) = Some (Ws.disconnect c))
  /\ (forall i s, Ws.ws c = Some i -> Ws.sockets c !! i = Some s ->
                  Ws.sockets (Ws.disconnect c) !! i = Some (WebSocket_close s)
                  /\ readyState (WebSocket_close s) ≠ OPEN
                  /\ readyState (WebSocket_close s) ≠ CONNECTING)
  /\ (forall i j, Ws.ws c = Some i -> j ≠ i ->
                  Ws.sockets (Ws.disconnect c) !! j = Ws.sockets c !! j).
Proof.
  split; [reflexivity|]. split; [reflexivity|]. split; [reflexivity|].
  split.
  - intros i s Hws Hs. unfold Ws.disconnect; simpl. rewrite Hws.
    rewrite list_lookup_alter_eq, Hs. simpl. split; [done|].
    unfold WebSocket_close. destruct (readyState s) eqn:E; simpl; rewrite ?E; done.
  - intros i j Hws Hne. unfold Ws.disconnect; simpl. rewrite Hws.
    by rewrite list_lookup_alter_ne.
Qed.

(** *** After [disconnect()] *)

Lemma step_stays_disconnected (e : Ws.Event Msg) (c : Client) :
  WsObs.is_CallConnect e = false ->
  Ws.maxReconnectAttempts c = 0 -> Ws.timers c = [] -> Ws.ws c = None ->
  Ws.maxReconnectAttempts (fst (step e c)) = 0
  /\ Ws.timers (fst (step e c)) = []
  /\ Ws.ws (fst (step e c)) = None
  /\ length (Ws.sockets (fst (step e c))) = length (Ws.sockets c).
Proof.
  intros He Hm Ht Hw.
  destruct e as [| |v|i|i data|i|k]; simpl in *; try discriminate.
  - unfold Ws.disconnect; simpl. by rewrite Hw.
  - unfold Ws.send_if_open, Ws.isConnected. by rewrite Hw.
  - unfold Ws.socket_open. destruct (Ws.sockets c !! i) as [s|]; [|done].
    destruct (bool_decide _); [|done]. simpl. by rewrite length_insert.
  - unfold Ws.socket_message, Ws.onmessage.
    destruct (Ws.sockets c !! i) as [s|]; [|done].
    destruct (bool_decide _); [|done]. destruct data as [m|]; [|done].
    by destruct (to_onConnect m).
  - unfold Ws.socket_close, Ws.onclose.
    destruct (Ws.sockets c !! i) as [s|]; [|done].
    destruct (bool_decide _); [done|]. simpl. rewrite Hm.
    destruct (Ws.reconnectAttempts c); simpl; by rewrite length_insert.
  - unfold Ws.timer_fired. by rewrite Ht.
Qed.

(** X3.  [disconnect()] is final when no reconnect timer is armed: as
    long as [connect()] is not called again, whatever the browser reports
    afterwards, [this.ws] stays [null], the client is never connected, no
    socket is constructed and no timer is armed. *)
Theorem disconnect_is_final (c : Client) (es : list (Ws.Event Msg)) :
  Ws.timers c = [] ->
  forallb (fun e => negb (WsObs.is_CallConnect e)) es = true ->
  Ws.ws (fst (run es (Ws.disconnect c))) = None
  /\ Ws.isConnected (fst (run es (Ws.disconnect c))) = false
  /\ length (Ws.sockets (fst (run es (Ws.disconnect c)))) = length (Ws.sockets c)
  /\ Ws.timers (fst (run es (Ws.disconnect c))) = [].
Proof.
  intros Ht Hes.
  assert (Hgen : forall c0 : Client,
             Ws.maxReconnectAttempts c0 = 0 -> Ws.timers c0 = [] -> Ws.ws c0 = None ->
             Ws.ws (fst (run es c0)) = None
             /\ length (Ws.sockets (fst (run es c0))) = length (Ws.sockets c0)
             /\ Ws.timers (fst (run es c0)) = []).
  { induction es as [|e es' IH]; intros c0 Hm Ht0 Hw; [done|].
    simpl in Hes. apply andb_true_iff in Hes. destruct Hes as [He Hes'].
    apply negb_true_iff in He.
    destruct (step_stays_disconnected e c0 He Hm Ht0 Hw) as (H1 & H2 & H3 & H4).
    simpl. destruct (step e c0) as [c1 out1]. simpl in *.
    destruct (IH Hes' c1 H1 H2 H3) as (G1 & G2 & G3).
    destruct (run es' c1) as [c2 out2]. simpl in *.
    split; [done|]. split; [congruence|done]. }
  destruct (Hgen (Ws.disconnect c)) as (H1 & H2 & H3); [done|done|done|].
  split; [done|]. split; [unfold Ws.isConnected; by rewrite H1|].
  split; [|done]. rewrite H2. unfold Ws.disconnect; simpl.
  destruct (Ws.ws c); [by rewrite length_alter|done].
Qed.

(** *** The delays of the timers *)

Lemma step_timers_bounded (e : Ws.Event Msg) (c : Client) :
  Ws.maxReconnectAttempts c <= 5 ->
  Forall WsObs.within_backoff (Ws.timers c) ->
  Forall WsObs.within_backoff (Ws.timers (fst (step e c)))
  /\ Forall WsObs.within_backoff (WsObs.armed (snd (step e c))).
Proof.
  intros Hm Hall.
  assert (Hnone : Forall WsObs.within_backoff (WsObs.armed (@nil (Ws.Effect Msg))))
    by constructor.
  destruct e as [| |v|i|i data|i|k]; simpl.
  - unfold Ws.connect. by destruct (Ws.isConnected c).
  - done.
  - unfold Ws.send_if_open, Ws.ws_send.
    destruct (Ws.isConnected c); [|done].
    destruct (Ws.ws c) as [j|]; [|done].
    destruct (Ws.sockets c !! j) as [s|]; [|done].
    by destruct (WebSocket_send v s).
  - unfold Ws.socket_open. destruct (Ws.sockets c !! i) as [s|]; [|done].
    by destruct (bool_decide _).
  - unfold Ws.socket_message, Ws.onmessage.
    destruct (Ws.sockets c !! i) as [s|]; [|done].
    destruct (bool_decide _); [|done]. destruct data as [m|]; [|done].
    destruct (to_onConnect m); split; try done; constructor.
  - unfold Ws.socket_close, Ws.onclose.
    destruct (Ws.sockets c !! i) as [s|]; [|done].
    destruct (bool_decide _); [done|]. simpl.
    destruct (Nat.ltb_spec (Ws.reconnectAttempts c) (Ws.maxReconnectAttempts c)) as [Hlt|Hge];
      simpl.
    + assert (Hd : WsObs.within_backoff (Ws.reconnectDelay (S (Ws.reconnectAttempts c)))).
      { unfold WsObs.within_backoff, Ws.reconnectDelay. lia. }
      split.
      * apply Forall_app. split; [done|]. by constructor.
      * by constructor.
    + split; [done|constructor].
  - unfold Ws.timer_fired. destruct (Ws.timers c !! k) eqn:Hk; [|done].
    split; [|done].
    unfold Ws.connect. destruct (Ws.isConnected _); simpl; by apply Forall_delete.
Qed.

(** X4.  Every reconnect timer a client ever arms waits between 1000 and
    5000 milliseconds, whatever sequence of calls and browser events it
    goes through from its construction. *)
Theorem timers_within_backoff (id : Id) (es : list (Ws.Event Msg)) :
  Forall WsObs.within_backoff (Ws.timers (fst (run es (Ws.new id))))
  /\ Forall WsObs.within_backoff (WsObs.armed (snd (run es (Ws.new id)))).
Proof.
  assert (Hgen : forall c : Client,
             Ws.maxReconnectAttempts c <= 5 ->
             Forall WsObs.within_backoff (Ws.timers c) ->
             Forall WsObs.within_backoff (Ws.timers (fst (run es c)))
             /\ Forall WsObs.within_backoff (WsObs.armed (snd (run es c)))).
  { induction es as [|e es' IH]; intros c Hm Hall; simpl.
    - split; [done|constructor].
    - destruct (step_timers_bounded e c Hm Hall) as [H1 H2].
      pose proof (step_max endpoint to_onConnect e c) as Hm1.
      destruct (step e c) as [c1 out1]. simpl in *.
      destruct (IH c1) as [G1 G2]; [destruct Hm1; lia|done|].
      destruct (run es' c1) as [c2 out2]. simpl in *.
      split; [done|]. unfold WsObs.armed in *. rewrite omap_app.
      apply Forall_app. by split. }
  apply Hgen; simpl; [lia|constructor].
Qed.

End WsMoreFacts.

Lemma senders_never_throw_witness :
  let c := fst (TerminalWebSocket.run [Ws.CallConnect; Ws.SocketOpen 0]
                  (TerminalWebSocket.new 5)) in
  exists c',
    TerminalWebSocket.sendInput "ls" c = Some c'
    /\ sent <$> Ws.sockets c' = [[JObj [("type", JStr "input"); ("data", JStr "ls")]]].
Proof.
  intros c.
  destruct (senders_never_throw (Id:=Z)
              (JObj [("type", JStr "input"); ("data", JStr "ls")]) c)
    as (c' & Hsend & _ & _ & _ & _ & _ & _ & _ & Hopen).
  exists c'. split; [exact Hsend|].
  destruct (Hopen 0 (mkWebSocket (TaskTerminal 5) OPEN []) eq_refl eq_refl eq_refl)
    as [H0 _].
  assert (Hc' : TerminalWebSocket.sendInput "ls" c = Some c') by exact Hsend.
  vm_compute in Hc'. injection Hc' as <-. reflexivity.
Defined.

Lemma disconnect_twice_witness :
  let c := fst (TerminalWebSocket.run [Ws.CallConnect; Ws.SocketOpen 0]
                  (TerminalWebSocket.new 5)) in
  Ws.sockets (TerminalWebSocket.disconnect c) !! 0
  = Some (mkWebSocket (TaskTerminal 5) CLOSING [])
  /\ TerminalWebSocket.sendKill (TerminalWebSocket.disconnect c)
     = Some (TerminalWebSocket.disconnect c).
Proof.
  intros c.
  destruct (disconnect_twice (Id:=Z) c) as (_ & _ & Hsend & Hsock & _).
  split.
  - destruct (Hsock 0 (mkWebSocket (TaskTerminal 5) OPEN []) eq_refl eq_refl) as (H & _).
    exact H.
  - apply Hsend.
Defined.

Lemma disconnect_is_final_witness :
  let c := fst (UIRefinementsWebSocket.run [Ws.CallConnect; Ws.SocketOpen 0]
                  (UIRefinementsWebSocket.new "s1")) in
  Ws.isConnected
    (fst (UIRefinementsWebSocket.run [Ws.SocketClose 0; Ws.TimerFired 0; Ws.SocketOpen 0]
            (UIRefinementsWebSocket.disconnect c))) = false.
Proof.
  intros c.
  destruct (disconnect_is_final UIRefinementsWebSocket.endpoint
              UIRefinementsWebSocket.to_onConnect c
              [Ws.SocketClose 0; Ws.TimerFired 0; Ws.SocketOpen 0])
    as (_ & H & _); [reflexivity|reflexivity|exact H].
Defined.

Section WsSocketFacts.

Context {Id Msg : Type}.
Variable endpoint : Id -> Endpoint.
Variable to_onConnect : Msg -> option bool.

#[local] Abbreviation Client := (Ws.Client Id).
#[local] Abbreviation step := (Ws.step endpoint to_onConnect).
#[local] Abbreviation run := (Ws.run endpoint to_onConnect).

Lemma insert_keeps (l : list WebSocket) (i j : nat) (s x : WebSocket) :
  l !! i = Some s ->
  <[j := x]> l !! i = Some (if decide (i = j) then x else s).
Proof.
  intros Hi. destruct (decide (i = j)) as [->|Hne].
  - apply list_lookup_insert_eq. by apply lookup_lt_Some in Hi.
  - by rewrite list_lookup_insert_ne.
Qed.

(** A step keeps every socket, its URL and the frames already sent on it;
    only a sender adds a frame. *)
Lemma step_keeps_sockets (e : Ws.Event Msg) (c : Client) (i : nat) (s : WebSocket) :
  Ws.sockets c !! i = Some s ->
  exists s' : WebSocket,
    Ws.sockets (fst (step e c)) !! i = Some s'
    /\ url s' = url s
    /\ (sent s' = sent s \/ exists v, e = Ws.CallSend v /\ sent s' = sent s ++ [v]).
Proof.
  intros Hi.
  assert (Hsame : exists s' : WebSocket,
             Ws.sockets c !! i = Some s' /\ url s' = url s
             /\ (sent s' = sent s \/ exists v, e = Ws.CallSend v /\ sent s' = sent s ++ [v])).
  { exists s. by repeat split; [|left]. }
  assert (Hgrow : forall x, exists s' : WebSocket,
             (Ws.sockets c ++ [x]) !! i = Some s' /\ url s' = url s
             /\ (sent s' = sent s \/ exists v, e = Ws.CallSend v /\ sent s' = sent s ++ [v])).
  { intros x. exists s. split; [|by split; [|left]].
    rewrite lookup_app_l; [done|]. by apply lookup_lt_Some in Hi. }
  destruct e as [| |v|j|j data|j|k]; simpl.
  - unfold Ws.connect. destruct (Ws.isConnected c); simpl; [done|apply Hgrow].
  - unfold Ws.disconnect; simpl. destruct (Ws.ws c) as [j|]; [|done].
    destruct (decide (i = j)) as [->|Hne].
    + rewrite list_lookup_alter_eq, Hi. simpl. eexists. split; [reflexivity|].
      unfold WebSocket_close. destruct (readyState s); simpl; by split; [|left].
    + rewrite list_lookup_alter_ne by done. done.
  - unfold Ws.send_if_open, Ws.ws_send.
    destruct (Ws.isConnected c); [|done].
    destruct (Ws.ws c) as [j|]; [|done].
    destruct (Ws.sockets c !! j) as [sj|] eqn:Hj; [|done].
    unfold WebSocket_send. destruct (readyState sj) eqn:Hr; simpl; try done.
    + rewrite (insert_keeps _ i j s _ Hi). eexists. split; [reflexivity|].
      destruct (decide (i = j)) as [->|Hne]; [|by split; [|left]].
      rewrite Hi in Hj. injection Hj as <-. simpl. split; [done|].
      right. by exists v.
    + rewrite (insert_keeps _ i j s _ Hi). eexists. split; [reflexivity|].
      destruct (decide (i = j)) as [->|Hne]; [|by split; [|left]].
      rewrite Hi in Hj. injection Hj as <-. by split; [|left].
    + rewrite (insert_keeps _ i j s _ Hi). eexists. split; [reflexivity|].
      destruct (decide (i = j)) as [->|Hne]; [|by split; [|left]].
      rewrite Hi in Hj. injection Hj as <-. by split; [|left].
  - unfold Ws.socket_open. destruct (Ws.sockets c !! j) as [sj|] eqn:Hj; [|done].
    destruct (bool_decide _); [|done]. simpl.
    rewrite (insert_keeps _ i j s _ Hi). eexists. split; [reflexivity|].
    destruct (decide (i = j)) as [->|Hne]; [|by split; [|left]].
    rewrite Hi in Hj. injection Hj as <-. by split; [|left].
  - unfold Ws.socket_message, Ws.onmessage.
    destruct (Ws.sockets c !! j) as [sj|]; [|done].
    destruct (bool_decide _); [|done]. destruct data as [m|]; [|done].
    by destruct (to_onConnect m).
  - unfold Ws.socket_close, Ws.onclose.
    destruct (Ws.sockets c !! j) as [sj|] eqn:Hj; [|done].
    destruct (bool_decide _); [done|]. simpl.
    assert (Hins : exists s' : WebSocket,
               <[j := set_readyState CLOSED sj]> (Ws.sockets c) !! i = Some s'
               /\ url s' = url s
               /\ (sent s' = sent s
                   \/ exists v, @Ws.SocketClose Msg j = Ws.CallSend v
                                /\ sent s' = sent s ++ [v])).
    { rewrite (insert_keeps _ i j s _ Hi). eexists. split; [reflexivity|].
      destruct (decide (i = j)) as [->|Hne]; [|by split; [|left]].
      rewrite Hi in Hj. injection Hj as <-. by split; [|left]. }
    by destruct (_ <? _).
  - unfold Ws.timer_fired. destruct (Ws.timers c !! k); [|done].
    unfold Ws.connect. destruct (Ws.isConnected _); simpl; [done|apply Hgrow].
Qed.

(** X5.  A connection manager never forgets a socket it constructed and
    never takes back or reorders a frame: through any sequence of calls
    and events each socket keeps its URL, the frames sent on it so far
    stay a prefix of its frames, and without a call of a sender its
    frames do not change at all. *)
Theorem frames_append_only (es : list (Ws.Event Msg)) (c : Client) (i : nat) (s : WebSocket) :
  Ws.sockets c !! i = Some s ->
  exists s' : WebSocket,
    Ws.sockets (fst (run es c)) !! i = Some s'
    /\ url s' = url s
    /\ sent s `prefix_of` sent s'
    /\ (forallb (fun e => negb (WsObs.is_CallSend e)) es = true -> sent s' = sent s).
Proof.
  revert c s. induction es as [|e es IH]; intros c s Hi; simpl.
  - exists s. by repeat split.
  - destruct (step_keeps_sockets e c i s Hi) as (s1 & H1 & Hu1 & Hsent1).
    destruct (step e c) as [c1 out1]. simpl in H1.
    destruct (IH c1 s1 H1) as (s2 & H2 & Hu2 & Hp2 & Heq2).
    destruct (run es c1) as [c2 out2]. simpl in *.
    exists s2. split; [done|]. split; [congruence|]. split.
    + etrans; [|exact Hp2].
      destruct Hsent1 as [->|(v & _ & ->)]; [done|by apply prefix_app_r].
    + intros Hno. apply andb_true_iff in Hno. destruct Hno as [He Hes].
      rewrite (Heq2 Hes).
      destruct Hsent1 as [->|(v & -> & _)]; [done|discriminate].
Qed.

(** *** [onClose] and the sockets that are closed *)

Lemma closed_after_insert (l : list WebSocket) (i : nat) (s x : WebSocket) :
  l !! i = Some s ->
  length (filter (fun s => readyState s = CLOSED) (<[i := x]> l))
  + match readyState s with CLOSED => 1 | _ => 0 end
  = length (filter (fun s => readyState s = CLOSED) l)
    + match readyState x with CLOSED => 1 | _ => 0 end.
Proof.
  intros Hi.
  assert (Hlt : i < length l) by (by apply lookup_lt_Some in Hi).
  assert (Hone : forall y : WebSocket,
             length (filter (fun s => readyState s = CLOSED) [y])
             = match readyState y with CLOSED => 1 | _ => 0 end).
  { intros y. rewrite filter_cons, filter_nil.
    destruct (decide (readyState y = CLOSED)) as [->|Hne]; [done|].
    by destruct (readyState y). }
  rewrite insert_take_drop by done.
  rewrite <- (take_drop_middle l i s Hi) at 3.
  change (x :: drop (S i) l) with ([x] ++ drop (S i) l).
  change (s :: drop (S i) l) with ([s] ++ drop (S i) l).
  rewrite !filter_app, !length_app, !Hone. lia.
Qed.

Lemma close_keeps_closed (s : WebSocket) :
  match readyState (WebSocket_close s) with CLOSED => 1 | _ => 0 end
  = match readyState s with CLOSED => 1 | _ => 0 end.
Proof. unfold WebSocket_close. destruct (readyState s) eqn:E; simpl; by rewrite ?E. Qed.

Lemma closes_nil : WsObs.closes (@nil (Ws.Effect Msg)) = 0.
Proof. reflexivity. Qed.

Lemma closes_app (a b : list (Ws.Effect Msg)) :
  WsObs.closes (a ++ b) = WsObs.closes a + WsObs.closes b.
Proof. unfold WsObs.closes. by rewrite filter_app, length_app. Qed.

Lemma step_closes (e : Ws.Event Msg) (c : Client) :
  WsObs.closes (snd (step e c)) + WsObs.closed_sockets c
  = WsObs.closed_sockets (fst (step e c)).
Proof.
  unfold WsObs.closed_sockets.
  destruct e as [| |v|j|j data|j|k]; simpl.
  - unfold Ws.connect. destruct (Ws.isConnected c); simpl; [done|].
    by rewrite filter_app, length_app.
  - unfold Ws.disconnect; simpl. destruct (Ws.ws c) as [j|]; [|done].
    destruct (Ws.sockets c !! j) as [sj|] eqn:Hj.
    + assert (Halter : alter WebSocket_close j (Ws.sockets c)
                       = <[j := WebSocket_close sj]> (Ws.sockets c)).
      { rewrite list_insert_alter. apply list_alter_ext; [|done].
        intros x Hx. rewrite Hj in Hx. by injection Hx as <-. }
      rewrite Halter.
      pose proof (closed_after_insert _ j sj (WebSocket_close sj) Hj) as H.
      rewrite close_keeps_closed in H. lia.
    + rewrite (list_alter_ext WebSocket_close (fun x => x) _ (Ws.sockets c) j);
        [by rewrite list_alter_id|intros x Hx; congruence|done].
  - unfold Ws.send_if_open, Ws.ws_send.
    destruct (Ws.isConnected c); [|done].
    destruct (Ws.ws c) as [j|]; [|done].
    destruct (Ws.sockets c !! j) as [sj|] eqn:Hj; [|done].
    unfold WebSocket_send. destruct (readyState sj) eqn:Hr; simpl; try done.
    + pose proof (closed_after_insert _ j sj
                    {| url := url sj; readyState := OPEN; sent := sent sj ++ [v] |} Hj) as H.
      simpl in H. rewrite Hr in H. lia.
    + by rewrite (list_insert_id _ _ _ Hj).
    + by rewrite (list_insert_id _ _ _ Hj).
  - unfold Ws.socket_open. destruct (Ws.sockets c !! j) as [sj|] eqn:Hj; [|done].
    destruct (bool_decide (readyState sj = CONNECTING)) eqn:Hb; [|done]. simpl.
    apply bool_decide_eq_true in Hb.
    pose proof (closed_after_insert _ j sj (set_readyState OPEN sj) Hj) as H.
    simpl in H. rewrite Hb in H. lia.
  - unfold Ws.socket_message, Ws.onmessage.
    destruct (Ws.sockets c !! j) as [sj|]; [|done].
    destruct (bool_decide _); [|done]. destruct data as [m|]; [|done].
    by destruct (to_onConnect m).
  - unfold Ws.socket_close, Ws.onclose.
    destruct (Ws.sockets c !! j) as [sj|] eqn:Hj; [|done].
    destruct (bool_decide (readyState sj = CLOSED)) eqn:Hb; [done|].
    apply bool_decide_eq_false in Hb. simpl.
    pose proof (closed_after_insert _ j sj (set_readyState CLOSED sj) Hj) as H.
    simpl in H.
    assert (Hz : match readyState sj with CLOSED => 1 | _ => 0 end = 0)
      by (by destruct (readyState sj)).
    rewrite Hz in H.
    destruct (_ <? _); simpl; unfold WsObs.closes; simpl; lia.
  - unfold Ws.timer_fired. destruct (Ws.timers c !! k); [|done].
    unfold Ws.connect. destruct (Ws.isConnected _); simpl; [done|].
    by rewrite filter_app, length_app.
Qed.

(** X6.  [onClose] is called exactly once for every socket that closes:
    through any sequence of calls and events, the number of calls equals
    the number of sockets that have become CLOSED; so it is called neither
    twice for one socket nor for a socket that [disconnect()] has merely
    started to close. *)
Theorem onClose_once_per_socket (es : list (Ws.Event Msg)) (c : Client) :
  WsObs.closes (snd (run es c)) + WsObs.closed_sockets c
  = WsObs.closed_sockets (fst (run es c)).
Proof.
  revert c. induction es as [|e es IH]; intros c; simpl; [done|].
  pose proof (step_closes e c) as H1.
  destruct (step e c) as [c1 out1]. simpl in H1.
  specialize (IH c1). destruct (run es c1) as [c2 out2]. simpl in *.
  rewrite closes_app. lia.
Qed.

End WsSocketFacts.

Lemma frames_append_only_witness :
  let c := fst (UIRefinementsWebSocket.run
                  [Ws.CallConnect; Ws.SocketOpen 0;
                   Ws.CallSend (UIRefinementsWebSocket.spawn_frame "p" "claude" "/repo")]
                  (UIRefinementsWebSocket.new "s1")) in
  exists s',
    Ws.sockets (fst (UIRefinementsWebSocket.run
                       [Ws.SocketClose 0; Ws.TimerFired 0; Ws.CallDisconnect] c)) !! 0
    = Some s'
    /\ sent s' = [UIRefinementsWebSocket.spawn_frame "p" "claude" "/repo"].
Proof.
  intros c.
  destruct (frames_append_only UIRefinementsWebSocket.endpoint
              UIRefinementsWebSocket.to_onConnect
              [Ws.SocketClose 0; Ws.TimerFired 0; Ws.CallDisconnect] c 0
              (mkWebSocket (SessionStream "s1") OPEN
                 [UIRefinementsWebSocket.spawn_frame "p" "claude" "/repo"]) eq_refl)
    as (s' & H & _ & _ & Heq).
  exists s'. split; [exact H|]. exact (Heq eq_refl).
Defined.

(* ================================================================== *)
(** * Further properties of the terminal component *)
(* ================================================================== *)

Section TerminalMoreFacts.

Import TerminalWebSocket.

Lemma receive_snoc (msgs : list WsMessage) (m : WsMessage) (v : Terminal.View) :
  Terminal.receive (msgs ++ [m]) v = Terminal.handleMessage m (Terminal.receive msgs v).
Proof. unfold Terminal.receive. by rewrite fold_left_app. Qed.

Lemma handleMessage_log (m : WsMessage) (v : Terminal.View) :
  exists ops : list Terminal.TermOp,
    Terminal.terminal (Terminal.handleMessage m v) = Terminal.terminal v ++ ops
    /\ 1 <= length ops <= 2.
Proof.
  destruct m as [line b|id r|message]; simpl.
  - eexists. split; [reflexivity|]. simpl. lia.
  - eexists. split; [symmetry; apply app_assoc|]. destruct r; simpl; lia.
  - eexists. split; [reflexivity|]. simpl. lia.
Qed.

(** X7.  The running indicator of the terminal depends on the last output
    line only: after a stream that ends with an output line it is on
    exactly when that line is not an exit line, whatever came before.  An
    error message touches neither indicator.  The component only ever adds
    to what it has written to xterm, one or two writes per message. *)
Theorem terminal_follows_last_line :
  (forall (msgs : list WsMessage) (v : Terminal.View) (line : string) (is_stderr : bool),
     Terminal.isRunning (Terminal.receive (msgs ++ [OutputMessage line is_stderr]) v)
     = negb (includes "Process exited with code" line))
  /\ (forall (v : Terminal.View) (message : string),
        Terminal.connected (Terminal.handleMessage (ErrorMessage message) v)
        = Terminal.connected v
        /\ Terminal.isRunning (Terminal.handleMessage (ErrorMessage message) v)
           = Terminal.isRunning v)
  /\ (forall (msgs : list WsMessage) (v : Terminal.View),
        Terminal.terminal v `prefix_of` Terminal.terminal (Terminal.receive msgs v)
        /\ length (Terminal.terminal v) + length msgs
           <= length (Terminal.terminal (Terminal.receive msgs v))
        /\ length (Terminal.terminal (Terminal.receive msgs v))
           <= length (Terminal.terminal v) + 2 * length msgs).
Proof.
  split.
  { intros msgs v line b. rewrite receive_snoc. simpl.
    change Terminal.EXIT_MARKER with "Process exited with code".
    destruct (includes "Process exited with code" line); [done|].
    by destruct (Terminal.isRunning _). }
  split; [done|].
  intros msgs. induction msgs as [|m msgs IH] using rev_ind; intros v.
  - simpl. split; [done|lia].
  - rewrite receive_snoc, length_app. simpl.
    destruct (IH v) as (Hp & Hlo & Hhi).
    destruct (handleMessage_log m (Terminal.receive msgs v)) as (ops & -> & Hops).
    rewrite length_app. split; [by apply prefix_app_r|lia].
Qed.

(** X8.  Nothing but a message changes the running indicator or the
    terminal: when the socket closes, the component shows "Disconnected"
    and keeps the running indicator, and with it the Kill button, as they
    were; a frame that does not parse changes nothing at all. *)
Theorem close_keeps_running_indicator :
  (forall (e : Event) (c : t) (v : Terminal.View),
     WsObs.is_SocketMessage e = false ->
     Terminal.isRunning (Terminal.callbacks (snd (step e c)) v) = Terminal.isRunning v
     /\ Terminal.terminal (Terminal.callbacks (snd (step e c)) v) = Terminal.terminal v)
  /\ (forall (c : t) (i : nat) (s : WebSocket) (v : Terminal.View),
        Ws.sockets c !! i = Some s -> readyState s ≠ CLOSED ->
        Terminal.connected (Terminal.callbacks (snd (step (Ws.SocketClose i) c)) v) = false)
  /\ (forall (c : t) (i : nat) (v : Terminal.View),
        Terminal.callbacks (snd (step (Ws.SocketMessage i None) c)) v = v).
Proof.
  split; [|split].
  - intros e c v He. unfold step.
    destruct e as [| |x|i|i data|i|k]; simpl in *; try discriminate; try done.
    unfold Ws.socket_close, Ws.onclose.
    destruct (Ws.sockets c !! i) as [s|]; [|done].
    destruct (bool_decide _); [done|]. simpl. by destruct (_ <? _).
  - intros c i s v Hs Hne. unfold step; simpl. unfold Ws.socket_close, Ws.onclose.
    rewrite Hs. rewrite bool_decide_eq_false_2 by done. simpl.
    by destruct (_ <? _).
  - intros c i v. unfold step; simpl. unfold Ws.socket_message.
    destruct (Ws.sockets c !! i) as [s|]; [|done]. by destruct (bool_decide _).
Qed.

Lemma close_keeps_running_indicator_witness :
  let c := fst (run [Ws.CallConnect; Ws.SocketOpen 0] (new 5)) in
  let v := Terminal.receive [ConnectedMessage 5 true] Terminal.initial in
  let v' := Terminal.callbacks (snd (step (Ws.SocketClose 0) c)) v in
  Terminal.connected v' = false /\ Terminal.isRunning v' = true.
Proof.
  intros c v v'.
  destruct close_keeps_running_indicator as (Hkeep & Hclose & _).
  split.
  - apply (Hclose c 0 (mkWebSocket (TaskTerminal 5) OPEN [])); [reflexivity|discriminate].
  - destruct (Hkeep (Ws.SocketClose 0) c v eq_refl) as [H _]. exact H.
Defined.

End TerminalMoreFacts.

(* ================================================================== *)
(** * Further properties of the chat page *)
(* ================================================================== *)

Section PromptFacts.

Import ChatPage.

Lemma prefix_empty (s : string) : String.prefix "" s = true.
Proof. by destruct s. Qed.

Lemma prefix_same (s : string) : String.prefix s s = true.
Proof.
  induction s as [|a s IH]; [reflexivity|]. simpl.
  by destruct (Ascii.ascii_dec a a).
Qed.

Lemma prefix_weaken (s1 s2 t : string) :
  String.prefix s1 s2 = true -> String.prefix s1 (s2 +:+ t) = true.
Proof.
  revert s2. induction s1 as [|a s1 IH]; intros s2 H; [apply prefix_empty|].
  destruct s2 as [|b s2]; [discriminate|]. simpl in *.
  destruct (Ascii.ascii_dec a b); [by apply IH|discriminate].
Qed.

Lemma append_assoc (a b c : string) : (a +:+ b) +:+ c = a +:+ (b +:+ c).
Proof.
  induction a as [|x a IH]; [done|].
  change (String x ((a +:+ b) +:+ c) = String x (a +:+ (b +:+ c))). by rewrite IH.
Qed.

Lemma append_nil_r (a : string) : a +:+ "" = a.
Proof.
  induction a as [|x a IH]; [done|].
  change (String x (a +:+ "") = String x a). by rewrite IH.
Qed.

(** The prompt built for a message with an element, line by line. *)
Lemma buildPrompt_lines (m : ChatMessage) (ctx : ElementMetadata) :
  elementContext m = Some ctx ->
  buildPrompt m
  = content m
    +:+ String "010"%char (String "010"%char "[Element Context]")
    +:+ String "010"%char "Tag: " +:+ tagName ctx
    +:+ context_line (truthy_opt (el_id ctx)) "ID: " (default "" (el_id ctx))
    +:+ context_line (0 <? length (classList ctx)) "Classes: "
          (String.concat " " (classList ctx))
    +:+ context_line (truthy (cssSelector ctx)) "CSS Selector: " (cssSelector ctx)
    +:+ context_line (truthy_opt (textContent ctx)) "Text Content: "
          (default "" (textContent ctx)).
Proof.
  intros H. unfold buildPrompt. rewrite H. cbv zeta. unfold context_line.
  destruct (truthy_opt (el_id ctx)), (0 <? length (classList ctx)),
    (truthy (cssSelector ctx)), (truthy_opt (textContent ctx));
    rewrite ?append_assoc, ?append_nil_r; reflexivity.
Qed.

Lemma truthy_inv (s : string) : truthy s = true <-> s ≠ "".
Proof.
  unfold truthy. destruct (String.eqb_spec s ""); split; try done; congruence.
Qed.

(** X9.  [buildPrompt] never alters what the user typed: the prompt
    always begins with the message text, and it is the text itself when
    no element was selected.  With an element, whatever it is, the block
    "[Element Context]" with its tag follows, and then, in this order,
    the line "ID" when the id is there and not empty, "Classes" with the
    classes joined by spaces when there is a class, "CSS Selector" when
    the selector is not empty and "Text Content" when the text is there
    and not empty; a line that is not due adds nothing.  So an empty id
    or text gives the prompt of a missing one, and when all four are
    there they come in the order ID, Classes, CSS Selector, Text
    Content. *)
Theorem buildPrompt_keeps_text :
  (forall m : ChatMessage, String.prefix (content m) (buildPrompt m) = true)
  /\ (forall m : ChatMessage, elementContext m = None -> buildPrompt m = content m)
  /\ (forall (m : ChatMessage) (tag : string),
        elementContext m
        = Some {| tagName := tag; el_id := None; classList := [];
                  textContent := None; cssSelector := "" |} ->
        buildPrompt m
        = content m +:+ String "010"%char (String "010"%char "[Element Context]")
                    +:+ String "010"%char "Tag: " +:+ tag)
  /\ (forall (m : ChatMessage) (tag i sel txt : string) (cls : list string),
        i ≠ "" -> cls ≠ [] -> sel ≠ "" -> txt ≠ "" ->
        elementContext m
        = Some {| tagName := tag; el_id := Some i; classList := cls;
                  textContent := Some txt; cssSelector := sel |} ->
        buildPrompt m
        = ((((content m +:+ String "010"%char (String "010"%char "[Element Context]")
                        +:+ String "010"%char "Tag: " +:+ tag)
             +:+ String "010"%char "ID: " +:+ i)
            +:+ String "010"%char "Classes: " +:+ String.concat " " cls)
           +:+ String "010"%char "CSS Selector: " +:+ sel)
          +:+ String "010"%char "Text Content: " +:+ txt)
  /\ (forall (m : ChatMessage) (ctx : ElementMetadata),
        elementContext m = Some ctx ->
        buildPrompt m
        = content m
          +:+ String "010"%char (String "010"%char "[Element Context]")
          +:+ String "010"%char "Tag: " +:+ tagName ctx
          +:+ context_line (truthy_opt (el_id ctx)) "ID: " (default "" (el_id ctx))
          +:+ context_line (0 <? length (classList ctx)) "Classes: "
                (String.concat " " (classList ctx))
          +:+ context_line (truthy (cssSelector ctx)) "CSS Selector: " (cssSelector ctx)
          +:+ context_line (truthy_opt (textContent ctx)) "Text Content: "
                (default "" (textContent ctx)))
  /\ (forall (shown : bool) (label value : string),
        context_line shown label value
        = if shown then String "010"%char (label +:+ value) else "")
  /\ (forall (m m' : ChatMessage) (ctx ctx' : ElementMetadata),
        elementContext m = Some ctx -> elementContext m' = Some ctx' ->
        content m' = content m -> tagName ctx' = tagName ctx ->
        classList ctx' = classList ctx -> cssSelector ctx' = cssSelector ctx ->
        default "" (el_id ctx') = default "" (el_id ctx) ->
        default "" (textContent ctx') = default "" (textContent ctx) ->
        buildPrompt m' = buildPrompt m).
Proof.
  split; [|split; [|split; [|split; [|split; [exact buildPrompt_lines|
    split; [by intros [] label value|]]]]]].
  5:{ intros m m' ctx ctx' H H' Hc Htag Hcls Hsel Hid Htxt.
      assert (Ht : forall o o' : option string,
                 default "" o' = default "" o -> truthy_opt o' = truthy_opt o).
      { intros [x|] [y|] E; simpl in *; subst; reflexivity. }
      rewrite (buildPrompt_lines m ctx H), (buildPrompt_lines m' ctx' H').
      by rewrite Hc, Htag, Hcls, Hsel, Hid, Htxt, (Ht _ _ Hid), (Ht _ _ Htxt). }
  - intros m. unfold buildPrompt. destruct (elementContext m) as [ctx|].
    + cbv zeta.
      repeat match goal with
             | |- context [if ?b then _ else _] => destruct b
             end;
        repeat apply prefix_weaken; apply prefix_same.
    + apply prefix_same.
  - intros m H. unfold buildPrompt. by rewrite H.
  - intros m tag H. unfold buildPrompt. rewrite H. reflexivity.
  - intros m tag i sel txt cls Hi Hcls Hsel Htxt H. unfold buildPrompt. rewrite H.
    cbv zeta. simpl el_id. simpl classList. simpl cssSelector. simpl textContent.
    simpl tagName. unfold truthy_opt.
    rewrite (proj2 (truthy_inv i) Hi), (proj2 (truthy_inv sel) Hsel),
      (proj2 (truthy_inv txt) Htxt).
    destruct cls as [|x cls]; [done|]. reflexivity.
Qed.

Lemma buildPrompt_keeps_text_witness :
  buildPrompt {| id := "id-1"; role := user; content := "make it blue";
                 timestamp := 0; elementContext := None; status := pending |}
  = "make it blue"
  /\ String.prefix "fix"
       (buildPrompt
          {| id := "id-2"; role := user; content := "fix";
             timestamp := 0;
             elementContext :=
               Some {| tagName := "BUTTON"; el_id := Some "save";
                       classList := ["btn"; "primary"]; textContent := Some "Save";
                       cssSelector := "#save" |};
             status := pending |}) = true
  /\ buildPrompt
       {| id := "id-3"; role := user; content := "fix";
          timestamp := 0;
          elementContext :=
            Some {| tagName := "BUTTON"; el_id := Some "save"; classList := [];
                    textContent := Some ""; cssSelector := "#save" |};
          status := pending |}
     = "fix" +:+ String "010"%char (String "010"%char "[Element Context]")
             +:+ String "010"%char "Tag: BUTTON"
             +:+ String "010"%char "ID: save"
             +:+ String "010"%char "CSS Selector: #save".
Proof.
  destruct buildPrompt_keeps_text as (Hpre & Hnone & _ & _ & Hlines & _).
  split; [apply Hnone; reflexivity|].
  split.
  - exact (Hpre {| id := "id-2"; role := user; content := "fix";
                   timestamp := 0;
                   elementContext :=
                     Some {| tagName := "BUTTON"; el_id := Some "save";
                             classList := ["btn"; "primary"]; textContent := Some "Save";
                             cssSelector := "#save" |};
                   status := pending |}).
  - rewrite (Hlines
               {| id := "id-3"; role := user; content := "fix"; timestamp := 0;
                  elementContext :=
                    Some {| tagName := "BUTTON"; el_id := Some "save"; classList := [];
                            textContent := Some ""; cssSelector := "#save" |};
                  status := pending |}
               {| tagName := "BUTTON"; el_id := Some "save"; classList := [];
                  textContent := Some ""; cssSelector := "#save" |} eq_refl).
    reflexivity.
Defined.

End PromptFacts.

Section ChatMoreFacts.

Import UIRefinementsWebSocket ChatPage.

Variable randomUUID : nat -> string.
Variable now : nat -> Z.

#[local] Abbreviation step := (ChatPage.step randomUUID now).
#[local] Abbreviation run := (ChatPage.run randomUUID now).
#[local] Abbreviation arrivals := (ChatPage.arrivals randomUUID now).
#[local] Abbreviation processMessage_then := (ChatPage.processMessage_then randomUUID now).
#[local] Abbreviation processQueue := (ChatPage.processQueue randomUUID now).
#[local] Abbreviation processNextInQueue := (ChatPage.processNextInQueue randomUUID now).
#[local] Abbreviation processMessage := (ChatPage.processMessage randomUUID now).
#[local] Abbreviation handleSendMessage := (ChatPage.handleSendMessage randomUUID now).
#[local] Abbreviation handleWsMessage := (ChatPage.handleWsMessage randomUUID now).

Lemma waiting_filter (m : string) (l : list QueuedMessage) :
  map q_id (filter (fun q => q_id q ≠ m) l) = filter (fun x => x ≠ m) (map q_id l).
Proof.
  induction l as [|q l IH]; [done|].
  simpl map. rewrite !filter_cons.
  destruct (decide (q_id q ≠ m)); simpl; by rewrite IH.
Qed.

(** With cancellation, the order of the ids can only lose elements. *)
Lemma step_order_cancel (e : Event) (p : Page) :
  idle_means_empty p ->
  (processed (step e p) ++ waiting (step e p))
    `sublist_of` ((processed p ++ waiting p) ++ arrivals [e] p)
  /\ idle_means_empty (step e p).
Proof.
  intros Hinv. destruct (is_cancel e) eqn:Hc.
  - destruct e; try discriminate. simpl. split.
    + rewrite app_nil_r. apply sublist_app; [done|].
      unfold waiting, handleCancelQueue; simpl. rewrite waiting_filter.
      apply sublist_filter.
    + unfold idle_means_empty, handleCancelQueue; simpl.
      intros H. by rewrite (Hinv H).
  - destruct (step_order randomUUID now e p Hinv Hc) as [H1 H2].
    split; [by rewrite H1|exact H2].
Qed.

Lemma run_order_cancel (es : list Event) (p : Page) :
  idle_means_empty p ->
  (processed (run es p) ++ waiting (run es p))
    `sublist_of` ((processed p ++ waiting p) ++ arrivals es p)
  /\ idle_means_empty (run es p).
Proof.
  revert p. induction es as [|e es IH]; intros p Hinv.
  - simpl. by rewrite app_nil_r.
  - destruct (step_order_cancel e p Hinv) as [H1 H2].
    destruct (IH (step e p) H2) as [H3 H4].
    change (run (e :: es) p) with (run es (step e p)).
    split; [|exact H4].
    etrans; [exact H3|].
    simpl in H1. rewrite app_nil_r in H1. simpl.
    rewrite (app_assoc (processed p ++ waiting p)).
    apply sublist_app; [exact H1|done].
Qed.

(** X10.  Cancelling a queued message removes exactly the entries with
    that id from the queue and nothing else: the messages shown, the
    message being processed and the connection are untouched, and no
    frame is sent for it.  With cancellations the order is still that of
    arrival: on every page reachable from the initial one, the ids handed
    over followed by the ids still waiting form a subsequence of the ids
    in the order sent, and an idle page has an empty queue. *)
Theorem cancel_keeps_order :
  (forall (p : Page) (m : string),
     waiting (handleCancelQueue m p) = filter (fun x => x ≠ m) (waiting p)
     /\ (m ∉ waiting (handleCancelQueue m p))
     /\ messages (handleCancelQueue m p) = messages p
     /\ isProcessing (handleCancelQueue m p) = isProcessing p
     /\ currentAssistantMessageId (handleCancelQueue m p) = currentAssistantMessageId p
     /\ wsClient (handleCancelQueue m p) = wsClient p)
  /\ (forall (p : Page) (m : string),
        m ∉ waiting p -> handleCancelQueue m p = p)
  /\ (forall es : list Event,
        (processed (run es initial) ++ waiting (run es initial))
          `sublist_of` arrivals es initial
        /\ idle_means_empty (run es initial)).
Proof.
  split; [|split].
  - intros p m.
    assert (Hw : waiting (handleCancelQueue m p) = filter (fun x => x ≠ m) (waiting p)).
    { unfold waiting, handleCancelQueue; simpl. apply waiting_filter. }
    split; [exact Hw|]. split; [|done].
    rewrite Hw. intros Hin. apply list_elem_of_filter in Hin. by destruct Hin.
  - intros p m Hnot. unfold handleCancelQueue, set_messageQueue.
    assert (Hf : filter (fun q => q_id q ≠ m) (messageQueue p) = messageQueue p).
    { unfold waiting in Hnot. induction (messageQueue p) as [|q l IH]; [done|].
      rewrite filter_cons. simpl in Hnot.
      apply not_elem_of_cons in Hnot. destruct Hnot as [Hne Hl].
      destruct (decide (q_id q ≠ m)) as [_|Hc]; [by rewrite (IH Hl)|].
      exfalso. apply Hc. congruence. }
    rewrite Hf. by destruct p.
  - intros es. by apply (run_order_cancel es initial).
Qed.

(** *** How the queue changes *)

Lemma processQueue_suffix (q : list QueuedMessage) (p : Page) :
  messageQueue p = q -> messageQueue (processQueue q p) `suffix_of` q.
Proof.
  revert p. induction q as [|next rest IH]; intros p Hq.
  - simpl. by rewrite Hq.
  - destruct (processQueue_cons randomUUID now next rest p)
      as (msg & p1 & -> & _ & Hqueue & _).
    apply suffix_cons_r.
    destruct (not_ready p1) eqn:Hready.
    + destruct (processMessage_not_ready randomUUID now (processQueue rest) msg p1 Hready)
        as (p2 & -> & _ & Hqueue2 & _).
      apply IH. congruence.
    + destruct (processMessage_ready randomUUID now (processQueue rest) msg p1 Hready)
        as (_ & -> & _). by rewrite Hqueue.
Qed.

Lemma processMessage_suffix (msg : ChatMessage) (p : Page) :
  messageQueue (processMessage msg p) `suffix_of` messageQueue p.
Proof.
  unfold ChatPage.processMessage. destruct (not_ready p) eqn:Hready.
  - destruct (processMessage_not_ready randomUUID now processNextInQueue msg p Hready)
      as (p2 & -> & _ & Hqueue2 & _).
    rewrite <- Hqueue2. by apply processQueue_suffix.
  - destruct (processMessage_ready randomUUID now processNextInQueue msg p Hready)
      as (_ & -> & _). done.
Qed.

Lemma handleWsMessage_suffix (msg : SessionWsMessage) (p : Page) :
  messageQueue (handleWsMessage msg p) `suffix_of` messageQueue p.
Proof.
  destruct (ends_message msg) eqn:Hend.
  - destruct (handleWsMessage_completion randomUUID now msg p Hend)
      as (p0 & -> & _ & Hq & _).
    rewrite <- Hq. by apply processQueue_suffix.
  - destruct (handleWsMessage_other randomUUID now msg p Hend) as (_ & -> & _). done.
Qed.

(** X11.  The queue changes in three ways only: a message sent while the
    page is busy is added at its end, with the position it has then;
    handing over removes entries from its front; cancelling filters it.
    Entries are never rewritten, so [queuePosition] keeps the value it got
    when the message was sent and is not renumbered as the queue
    shrinks. *)
Theorem queue_changes (e : Event) (p : Page) :
  messageQueue (step e p) `suffix_of` messageQueue p
  \/ (exists text : string,
        e = SendMessage text /\ isProcessing p = true
        /\ messageQueue (step e p)
           = messageQueue p ++
             [{| q_id := randomUUID (uuids p); q_content := text;
                 q_elementContext := selectedElement p;
                 queuePosition := length (messageQueue p) + 1 |}])
  \/ (exists m : string,
        e = CancelQueue m
        /\ messageQueue (step e p) = filter (fun q => q_id q ≠ m) (messageQueue p)).
Proof.
  assert (Hsock : forall ev : UIRefinementsWebSocket.Event,
             messageQueue (socket_event randomUUID now ev p) `suffix_of` messageQueue p).
  { intros ev.
    destruct (socket_event_cases randomUUID now ev p) as [[o ->]|(i & msg & c' & _ & ->)];
      [done|].
    apply (handleWsMessage_suffix msg (set_wsClient (Some c') p)). }
  destruct e as [branchName|path|text|messageId|agent|element| |i|i data|i|k| ]; simpl.
  - left. by destruct (branchCreated p).
  - left. by destruct (truthy_opt path).
  - destruct (isProcessing p) eqn:Hbusy.
    + right; left. exists text.
      destruct (handleSendMessage_busy randomUUID now text p Hbusy) as (Hq & _).
      done.
    + left. unfold ChatPage.handleSendMessage, take_uuid, take_now. simpl.
      match goal with
      | |- context [ChatPage.processMessage _ _ ?m ?x] =>
          apply (processMessage_suffix m x)
      end.
  - right; right. by exists messageId.
  - by left.
  - by left.
  - by left.
  - left. apply Hsock.
  - left. apply Hsock.
  - left. apply Hsock.
  - left. apply Hsock.
  - by left.
Qed.

(** *** Sending while the page cannot reach the agent *)

(** X12.  A message sent on an idle page that has no client or no target
    repository is answered at once by the page itself: the user message
    and an assistant message with the "not connected" error are added,
    nothing is sent or queued, and the page is idle again, so the next
    message is treated the same way.  The user message keeps the status
    [processing]. *)
Theorem send_when_not_ready (p : Page) (text : string) :
  isProcessing p = false -> idle_means_empty p -> not_ready p = true ->
  messages (handleSendMessage text p)
  = messages p ++
    [{| id := randomUUID (uuids p); role := user; content := text;
        timestamp := now (ticks p); elementContext := selectedElement p;
        status := processing |};
     {| id := randomUUID (S (uuids p)); role := assistant; content := NOT_CONNECTED;
        timestamp := now (S (ticks p)); elementContext := None; status := error |}]
  /\ isProcessing (handleSendMessage text p) = false
  /\ messageQueue (handleSendMessage text p) = []
  /\ wsClient (handleSendMessage text p) = wsClient p
  /\ currentAssistantMessageId (handleSendMessage text p) = currentAssistantMessageId p
  /\ selectedElement (handleSendMessage text p) = None.
Proof.
  intros Hidle Hinv Hready. pose proof (Hinv Hidle) as Hq.
  unfold ChatPage.handleSendMessage, take_uuid, take_now. simpl. rewrite Hidle.
  unfold ChatPage.processMessage, ChatPage.processMessage_then.
  match goal with
  | |- context [not_ready ?x] => rewrite (not_ready_ext x p eq_refl eq_refl)
  end.
  rewrite Hready. unfold take_uuid, take_now. simpl.
  unfold ChatPage.processNextInQueue. simpl. rewrite Hq. simpl.
  by rewrite <- app_assoc.
Qed.

(** X13.  A message sent on an idle page whose client exists but whose
    socket is not open (still connecting, or waiting to reconnect) is
    shown as being processed, with an empty assistant message, although
    [spawnAgent] drops the request: no frame is sent and the client is
    as before.  The page stays busy, so later messages are queued. *)
Theorem send_while_socket_closed (p : Page) (c : UIRefinementsWebSocket.t) (text : string) :
  isProcessing p = false -> wsClient p = Some c ->
  truthy (targetRepoPath p) = true -> UIRefinementsWebSocket.isConnected c = false ->
  messages (handleSendMessage text p)
  = messages p ++
    [{| id := randomUUID (uuids p); role := user; content := text;
        timestamp := now (ticks p); elementContext := selectedElement p;
        status := processing |};
     {| id := randomUUID (S (uuids p)); role := assistant; content := "";
        timestamp := now (S (ticks p)); elementContext := None; status := processing |}]
  /\ isProcessing (handleSendMessage text p) = true
  /\ wsClient (handleSendMessage text p) = Some c
  /\ messageQueue (handleSendMessage text p) = messageQueue p
  /\ currentAssistantMessageId (handleSendMessage text p)
     = Some (randomUUID (S (uuids p)))
  /\ (forall text' : string,
        messageQueue (handleSendMessage text' (handleSendMessage text p))
        = messageQueue p ++
          [{| q_id := randomUUID (S (S (uuids p))); q_content := text';
              q_elementContext := None;
              queuePosition := length (messageQueue p) + 1 |}]).
Proof.
  intros Hidle Hc Hpath Hclosed.
  assert (Hmain :
    messages (handleSendMessage text p)
    = messages p ++
      [{| id := randomUUID (uuids p); role := user; content := text;
          timestamp := now (ticks p); elementContext := selectedElement p;
          status := processing |};
       {| id := randomUUID (S (uuids p)); role := assistant; content := "";
          timestamp := now (S (ticks p)); elementContext := None; status := processing |}]
    /\ isProcessing (handleSendMessage text p) = true
    /\ wsClient (handleSendMessage text p) = Some c
    /\ messageQueue (handleSendMessage text p) = messageQueue p
    /\ currentAssistantMessageId (handleSendMessage text p)
       = Some (randomUUID (S (uuids p)))
    /\ uuids (handleSendMessage text p) = S (S (uuids p))
    /\ selectedElement (handleSendMessage text p) = None).
  { unfold ChatPage.handleSendMessage, take_uuid, take_now. simpl. rewrite Hidle.
    unfold ChatPage.processMessage, ChatPage.processMessage_then, not_ready.
    simpl. rewrite Hc, Hpath. unfold take_uuid, take_now. simpl. rewrite ?Hc. simpl.
    unfold UIRefinementsWebSocket.spawnAgent.
    rewrite (send_if_closed _ c Hclosed). simpl.
    by rewrite <- app_assoc. }
  destruct Hmain as (H1 & H2 & H3 & H4 & H5 & H6 & H7).
  repeat (split; [assumption|]).
  intros text'.
  destruct (handleSendMessage_busy randomUUID now text' (handleSendMessage text p) H2)
    as (Hq & _).
  rewrite Hq. by rewrite H4, H6, H7.
Qed.

End ChatMoreFacts.

Lemma cancel_keeps_order_witness :
  let es := [ChatPage.BranchCreate "ui/header"; ChatPage.SettingsLoaded (Some "/repo");
             ChatPage.SocketOpen 0;
             ChatPage.SendMessage "a"; ChatPage.SendMessage "b";
             ChatPage.SendMessage "c"] in
  let p := ChatPage.run ChatPage.example_uuid ChatPage.example_clock es ChatPage.initial in
  ChatPage.waiting p = ["id-3"; "id-4"]
  /\ ChatPage.handleCancelQueue "id-9" p = p.
Proof.
  intros es p. split; [reflexivity|].
  destruct (cancel_keeps_order ChatPage.example_uuid ChatPage.example_clock)
    as (_ & Hnoop & _).
  apply Hnoop. vm_compute. intros H.
  repeat (apply elem_of_cons in H; destruct H as [H|H]; [discriminate|]).
  by apply not_elem_of_nil in H.
Defined.


(** Three messages are sent; the first is handed over, the other two wait
    at positions 1 and 2.  When the first one ends, the second is handed
    over and the third still carries position 2. *)
Example queue_position_not_renumbered :
  let es := [ChatPage.BranchCreate "ui/header"; ChatPage.SettingsLoaded (Some "/repo");
             ChatPage.SocketOpen 0;
             ChatPage.SendMessage "a"; ChatPage.SendMessage "b";
             ChatPage.SendMessage "c";
             ChatPage.SocketMessage 0
               (Some (UIRefinementsWebSocket.OutputMessage "[Process exited with code 0]"
                        false))] in
  let p := ChatPage.run ChatPage.example_uuid ChatPage.example_clock es ChatPage.initial in
  ChatPage.queuePosition <$> ChatPage.messageQueue p = [2].
Proof. reflexivity. Qed.

Lemma send_when_not_ready_witness :
  ChatPage.isProcessing
    (ChatPage.handleSendMessage ChatPage.example_uuid ChatPage.example_clock "hello"
       ChatPage.initial) = false
  /\ length (ChatPage.messages
               (ChatPage.handleSendMessage ChatPage.example_uuid ChatPage.example_clock
                  "hello" ChatPage.initial)) = 2.
Proof.
  destruct (send_when_not_ready ChatPage.example_uuid ChatPage.example_clock
              ChatPage.initial "hello") as (Hm & Hidle & _);
    [reflexivity|intros _; reflexivity|reflexivity|].
  split; [exact Hidle|]. rewrite Hm. reflexivity.
Defined.

Lemma send_while_socket_closed_witness :
  let p := ChatPage.run ChatPage.example_uuid ChatPage.example_clock
             [ChatPage.BranchCreate "ui/header"; ChatPage.SettingsLoaded (Some "/repo")]
             ChatPage.initial in
  let p' := ChatPage.handleSendMessage ChatPage.example_uuid ChatPage.example_clock
              "hello" p in
  ChatPage.isProcessing p' = true
  /\ (fun c => map Net.sent (Ws.sockets c)) <$> ChatPage.wsClient p' = Some [[]].
Proof.
  intros p p'.
  destruct (send_while_socket_closed ChatPage.example_uuid ChatPage.example_clock p
              (UIRefinementsWebSocket.connect (UIRefinementsWebSocket.new "id-0")) "hello")
    as (_ & Hbusy & Hws & _); [reflexivity|reflexivity|reflexivity|reflexivity|].
  split; [exact Hbusy|]. unfold p'. rewrite Hws. reflexivity.
Defined.

(** ** Durations and priorities *)

Section DurationFacts.

Lemma hours_positive (ms : Z) :
  (0 <? ms / 1000 / 60 / 60)%Z = true <-> (3600000 <= ms)%Z.
Proof.
  rewrite Z.ltb_lt. split; intros H.
  - Z.to_euclidean_division_equations. lia.
  - Z.to_euclidean_division_equations. lia.
Qed.

Lemma minutes_positive (ms : Z) :
  (0 <? ms / 1000 / 60)%Z = true <-> (60000 <= ms)%Z.
Proof.
  rewrite Z.ltb_lt. split; intros H.
  - Z.to_euclidean_division_equations. lia.
  - Z.to_euclidean_division_equations. lia.
Qed.

Lemma safe_range (ms : Z) :
  JsNumber.safe ms = true <-> (0 <= ms < 2 ^ 53)%Z.
Proof.
  unfold JsNumber.safe, JsNumber.MAX_SAFE_INTEGER.
  rewrite andb_true_iff, Z.leb_le, Z.leb_le. lia.
Qed.

Lemma duration_parts (ms : Z) :
  (0 <= ms)%Z ->
  (ms / 1000 / 60 / 60 = ms / 3600000)%Z
  /\ (ms / 1000 / 60 = ms / 60000)%Z
  /\ (Z.rem (ms / 1000 / 60) 60 = (ms / 60000) mod 60)%Z
  /\ (Z.rem (ms / 1000) 60 = (ms / 1000) mod 60)%Z.
Proof.
  intros H.
  assert (H1 : (ms / 1000 / 60 = ms / 60000)%Z) by (by rewrite Z.div_div).
  assert (H2 : (ms / 1000 / 60 / 60 = ms / 3600000)%Z) by (by rewrite !Z.div_div).
  split; [exact H2|]. split; [exact H1|]. split.
  - rewrite H1. apply Z.rem_mod_nonneg; [apply Z.div_pos|]; lia.
  - apply Z.rem_mod_nonneg; [apply Z.div_pos|]; lia.
Qed.

(** X14.  For a time spent that is a whole number of milliseconds up to
    [Number.MAX_SAFE_INTEGER]: the card shows the time only when it is
    positive, while the page always shows it ("0s" for 0).  Under one
    minute both print the seconds, under one hour both print minutes and
    seconds; from one hour on the card prints hours and minutes, and the
    page prints the same followed by the seconds, which the card leaves
    out. *)
Theorem durations_on_card_and_page :
  (forall ms : Z,
     (ms <= 0)%Z -> TaskCardScript.time_spent ms = Some [])
  /\ TaskPageScript.time_spent 0 = Some ["0s"]
  /\ (forall ms : Z,
        (0 < ms < 60000)%Z ->
        TaskCardScript.time_spent ms = Some [pretty (ms / 1000)%Z +:+ "s"]
        /\ TaskPageScript.time_spent ms = TaskCardScript.time_spent ms)
  /\ (forall ms : Z,
        (60000 <= ms < 3600000)%Z ->
        TaskCardScript.time_spent ms
        = Some [pretty (ms / 60000)%Z +:+ "m " +:+ pretty ((ms / 1000) mod 60)%Z +:+ "s"]
        /\ TaskPageScript.time_spent ms = TaskCardScript.time_spent ms)
  /\ (forall ms : Z,
        (3600000 <= ms < 2 ^ 53)%Z ->
        TaskCardScript.time_spent ms
        = Some [pretty (ms / 3600000)%Z +:+ "h " +:+ pretty ((ms / 60000) mod 60)%Z +:+ "m"]
        /\ TaskPageScript.time_spent ms
           = Some [(pretty (ms / 3600000)%Z +:+ "h " +:+ pretty ((ms / 60000) mod 60)%Z +:+ "m")
                   +:+ " " +:+ pretty ((ms / 1000) mod 60)%Z +:+ "s"]).
Proof.
  split.
  { intros ms H. unfold TaskCardScript.time_spent.
    destruct (0 <? ms)%Z eqn:Hpos; [apply Z.ltb_lt in Hpos; lia|done]. }
  split; [reflexivity|].
  assert (Hshape : forall ms : Z,
             (0 < ms < 2 ^ 53)%Z ->
             (0 <? ms)%Z = true /\ JsNumber.safe ms = true).
  { intros ms H. split; [apply Z.ltb_lt; lia|apply safe_range; lia]. }
  split; [|split].
  - intros ms H. destruct (Hshape ms) as [Hpos Hsafe]; [lia|].
    unfold TaskPageScript.time_spent, TaskCardScript.time_spent,
      TaskPageScript.formatDuration, TaskCardScript.formatDuration.
    rewrite Hpos, Hsafe. cbv zeta.
    destruct (0 <? ms / 1000 / 60 / 60)%Z eqn:Hh;
      [apply hours_positive in Hh; lia|].
    destruct (0 <? ms / 1000 / 60)%Z eqn:Hm;
      [apply minutes_positive in Hm; lia|].
    done.
  - intros ms H. destruct (Hshape ms) as [Hpos Hsafe]; [lia|].
    destruct (duration_parts ms) as (_ & Hmin & _ & Hsec); [lia|].
    unfold TaskPageScript.time_spent, TaskCardScript.time_spent,
      TaskPageScript.formatDuration, TaskCardScript.formatDuration.
    rewrite Hpos, Hsafe. cbv zeta.
    destruct (0 <? ms / 1000 / 60 / 60)%Z eqn:Hh;
      [apply hours_positive in Hh; lia|].
    rewrite (proj2 (minutes_positive ms)); [|lia].
    rewrite Hmin, Hsec. done.
  - intros ms H. destruct (Hshape ms) as [Hpos Hsafe]; [lia|].
    destruct (duration_parts ms) as (Hhour & Hmin & Hrem & Hsec); [lia|].
    unfold TaskPageScript.time_spent, TaskCardScript.time_spent,
      TaskPageScript.formatDuration, TaskCardScript.formatDuration.
    rewrite Hpos, Hsafe. cbv zeta.
    rewrite (proj2 (hours_positive ms)); [|lia].
    rewrite Hrem, Hsec, Hhour. simpl fmap. split; [done|].
    by rewrite !append_assoc.
Qed.

(** X15.  The card and the task page name a priority alike, and the name
    is "None" exactly for a task without priority or with one outside
    1..4. *)
Theorem priority_names_agree (priority : option Z) :
  fst (TaskCardScript.getPriorityBadge priority) = TaskPageScript.getPriorityLabel priority
  /\ (TaskPageScript.getPriorityLabel priority = "None"
      <-> forall n : Z, priority = Some n -> ~ (1 <= n <= 4)%Z).
Proof.
  destruct priority as [z|]; [|split; [done|split; [intros _ n; discriminate|done]]].
  assert (Hcases : (z = 1 \/ z = 2 \/ z = 3 \/ z = 4 \/ ~ (1 <= z <= 4))%Z) by lia.
  destruct Hcases as [->|[->|[->|[->|Hout]]]];
    try (split; [reflexivity|];
         split; [discriminate|intros H; exfalso; apply (H _ eq_refl); lia]).
  assert (Hnone : TaskCardScript.getPriorityBadge (Some z) = ("None", "bg-gray-100 text-gray-500")
                  /\ TaskPageScript.getPriorityLabel (Some z) = "None").
  { destruct z as [|q|q]; [done| |done].
    destruct q as [[q|q|]|[q|q|]|]; try done; try lia;
      destruct q; try done; lia. }
  destruct Hnone as [Hb Hl]. rewrite Hb, Hl. split; [done|].
  split; [|done]. intros _ n [= <-]. done.
Qed.

End DurationFacts.

Lemma durations_on_card_and_page_witness :
  TaskCardScript.time_spent 61000 = Some ["1m 1s"]
  /\ TaskPageScript.time_spent 61000 = Some ["1m 1s"]
  /\ TaskCardScript.time_spent 3725000 = Some ["1h 2m"]
  /\ TaskPageScript.time_spent 3725000 = Some ["1h 2m 5s"]
  /\ TaskCardScript.time_spent 0 = Some [].
Proof.
  destruct durations_on_card_and_page as (Hzero & _ & _ & Hmin & Hhour).
  destruct (Hmin 61000%Z) as [Hc Hp]; [lia|].
  destruct (Hhour 3725000%Z) as [Hc' Hp']; [lia|].
  split; [rewrite Hc; reflexivity|]. split; [rewrite Hp, Hc; reflexivity|].
  split; [rewrite Hc'; reflexivity|]. split; [rewrite Hp'; reflexivity|].
  apply Hzero. lia.
Defined.

(** ** The tasks store and the board *)

Section BoardMoreFacts.

Import ApiClient.
Import Board.
Import TasksStore.

Lemma elem_of_failed_column (props : Props) (l : list Task) (x : Task * list Control) :
  x ∈ (if 0 <? length l then KanbanColumn props l else []) <-> x ∈ KanbanColumn props l.
Proof. by destruct l. Qed.

Lemma elem_of_KanbanBoard (ts : list Task) (t : Task) (cs : list Control) :
  (t, cs) ∈ KanbanBoard ts
  <-> t ∈ ts
      /\ ((status t = "queued" /\ cs = [ViewTerminal])
          \/ (status t = "in_progress"
              /\ cs = [ViewTerminal; Stop] ++ when (negb (is_running t)) MarkComplete)
          \/ (status t = "stopped" /\ cs = [ViewTerminal; Restart; Delete])
          \/ (status t = "completed" /\ cs = [ViewTerminal; Delete])
          \/ (status t = "failed" /\ cs = [ViewTerminal; Restart; Delete])).
Proof.
  unfold KanbanBoard.
  rewrite !elem_of_app, elem_of_failed_column, !elem_of_KanbanColumn.
  unfold TaskCard. split.
  - intros [(-> & Hin & Hst)|[(-> & Hin & Hst)|[(-> & Hin & Hst)|[(-> & Hin & Hst)
                                                                  |(-> & Hin & Hst)]]]];
      rewrite Hst; simpl; (split; [done|]); rewrite ?app_nil_r; tauto.
  - intros (Hin & [[Hst ->]|[[Hst ->]|[[Hst ->]|[[Hst ->]|[Hst ->]]]]]);
      [left|right; left|right; right; left|right; right; right; left|do 4 right];
      rewrite Hst; simpl; rewrite ?app_nil_r; done.
Qed.

(** X16.  The board shows a task exactly when it is in the store and its
    status is one of the five that have a column; a task with another
    status has no card.  There is one card for each such task: the number
    of cards is the number of tasks with such a status. *)
Theorem board_shows_known_statuses (s : Store) :
  (forall t : Task,
     (exists cs : list Control, (t, cs) ∈ cards s) <-> t ∈ tasks s /\ on_board (status t))
  /\ length (cards s) = length (filter (fun t => on_board (status t)) (tasks s)).
Proof.
  unfold cards. split.
  - intros t. split.
    + intros (cs & H). apply elem_of_KanbanBoard in H. unfold on_board. tauto.
    + intros (Hin & Hst).
      destruct Hst as [Hst|[Hst|[Hst|[Hst|Hst]]]];
        eexists; apply elem_of_KanbanBoard; (split; [done|]);
        [left|right; left|right; right; left|right; right; right; left|do 4 right];
        (split; [exact Hst|reflexivity]).
  - unfold KanbanBoard.
    assert (Hf : forall props l,
               length (if 0 <? length l then KanbanColumn props l else [])
               = length (KanbanColumn props l)) by (by intros props [|x l]).
    rewrite !length_app, Hf. unfold KanbanColumn, Board.getTasksByStatus.
    rewrite !length_map.
    induction (tasks s) as [|t ts IH]; [done|].
    rewrite !filter_cons.
    destruct (decide (on_board (status t))) as [Hon|Hoff].
    + destruct Hon as [Hst|[Hst|[Hst|[Hst|Hst]]]]; rewrite Hst;
        repeat (destruct (decide _) as [Heq|Hne];
                [try discriminate Heq|try (exfalso; by apply Hne)]);
        simpl; lia.
    + unfold on_board in Hoff.
      repeat (destruct (decide _) as [Heq|_]; [exfalso; tauto|]).
      exact IH.
Qed.

Lemma elem_of_replace_task (id : Z) (updated t : Task) (l : list Task) :
  t ∈ replace_task id updated l
  <-> (t = updated /\ exists t0, t0 ∈ l /\ Board.id t0 = id)
      \/ (t ∈ l /\ Board.id t ≠ id).
Proof.
  unfold replace_task. rewrite list_elem_of_fmap. split.
  - intros (t0 & -> & Hin). destruct (Z.eqb_spec (Board.id t0) id) as [Heq|Hne].
    + left. split; [done|]. by exists t0.
    + right. done.
  - intros [(-> & t0 & Hin & Hid)|(Hin & Hne)].
    + exists t0. split; [|done]. apply Z.eqb_eq in Hid. by rewrite Hid.
    + exists t. split; [|done]. apply Z.eqb_neq in Hne. by rewrite Hne.
Qed.

(** X17.  When the request of [stop], [restart] or [complete] has
    succeeded, the answer takes the place of every task with the id, in
    place: the number of tasks and the tasks with another id are as
    before, and an answer for an id that is not in the store adds
    nothing.  The error of an earlier failure is not cleared.  When the
    request has failed, the tasks are as before and the error is its
    message. *)
Theorem update_replaces_in_place (id : Z) (s : Store) :
  (forall updated : Task,
     let s' := updated_settled id (Resolved updated) s in
     length (tasks s') = length (tasks s)
     /\ (forall t : Task,
           t ∈ tasks s'
           <-> (t = updated /\ exists t0, t0 ∈ tasks s /\ Board.id t0 = id)
               \/ (t ∈ tasks s /\ Board.id t ≠ id))
     /\ ((forall t : Task, t ∈ tasks s -> Board.id t ≠ id) -> tasks s' = tasks s)
     /\ error s' = error s)
  /\ (forall r : Outcome Task,
        (forall updated : Task, r ≠ Resolved updated) ->
        tasks (updated_settled id r s) = tasks s
        /\ error (updated_settled id r s) = displayed r
        /\ is_Some (error (updated_settled id r s)))
  /\ stop_settled = updated_settled
  /\ restart_settled = updated_settled
  /\ complete_settled = updated_settled.
Proof.
  split; [|split; [|done]].
  - intros updated s'. unfold s', updated_settled; simpl.
    split; [unfold replace_task; by rewrite length_map|].
    split; [intros t; apply elem_of_replace_task|].
    split; [|done].
    intros Hnone. unfold replace_task.
    rewrite <- (list_fmap_id (tasks s)) at 2.
    apply list_fmap_ext. intros i t Hi.
    assert (Hne : Board.id t ≠ id) by (apply Hnone; by eapply list_elem_of_lookup_2).
    apply Z.eqb_neq in Hne. by rewrite Hne.
  - intros r Hrej. destruct r as [updated|e|msg]; [by destruct (Hrej updated)| |];
      simpl; by eauto.
Qed.

(** X18.  Once [stopTask(id)] has answered with the task in status
    [stopped], the board shows the answer as a card with the buttons View
    Terminal, Restart and Delete, and every card of a task with that id is
    this one. *)
Theorem stopped_task_can_be_restarted_or_deleted (id : Z) (updated t : Task) (s : Store) :
  t ∈ tasks s -> Board.id t = id -> status updated = "stopped" ->
  (updated, [ViewTerminal; Restart; Delete]) ∈ cards (stop_settled id (Resolved updated) s)
  /\ (forall (t' : Task) (cs : list Control),
        (t', cs) ∈ cards (stop_settled id (Resolved updated) s) ->
        Board.id t' = id -> t' = updated /\ cs = [ViewTerminal; Restart; Delete]).
Proof.
  intros Hin Hid Hst. unfold cards, stop_settled, updated_settled; simpl. split.
  - apply elem_of_KanbanBoard. split.
    + apply elem_of_replace_task. left. split; [done|]. by exists t.
    + right; right; left. done.
  - intros t' cs H Hid'. apply elem_of_KanbanBoard in H. destruct H as [Hin' Hcs].
    apply elem_of_replace_task in Hin'.
    destruct Hin' as [(-> & _)|(_ & Hne)]; [|done].
    split; [done|]. rewrite Hst in Hcs.
    destruct Hcs as [[? _]|[[? _]|[[_ ->]|[[? _]|[? _]]]]]; done.
Qed.

(** X19.  When [deleteTask(id)] has answered, whatever the [success] field
    of the answer says, no card of a task with the id is left on the
    board, and the cards of the other tasks are as before.  When the
    request has failed the tasks are as before and the error is its
    message. *)
Theorem removed_task_leaves_board (id : Z) (s : Store) :
  (forall (resp : DeleteResponse) (t : Task) (cs : list Control),
     (t, cs) ∈ cards (remove_settled id (Resolved resp) s)
     <-> (t, cs) ∈ cards s /\ Board.id t ≠ id)
  /\ (forall resp : DeleteResponse,
        tasks (remove_settled id (Resolved resp) s) `sublist_of` tasks s
        /\ error (remove_settled id (Resolved resp) s) = error s)
  /\ (forall r : Outcome DeleteResponse,
        (forall resp : DeleteResponse, r ≠ Resolved resp) ->
        tasks (remove_settled id r s) = tasks s
        /\ error (remove_settled id r s) = displayed r).
Proof.
  split; [|split].
  - intros resp t cs. unfold cards, remove_settled; simpl.
    rewrite !elem_of_KanbanBoard, list_elem_of_filter. tauto.
  - intros resp. unfold remove_settled; simpl. split; [apply sublist_filter|done].
  - intros r Hrej. destruct r as [resp|e|msg]; [by destruct (Hrej resp)| |]; done.
Qed.

Section WithJson.

Context {T : Type}.
Variable json : string -> T + string.

(** X20.  What the red banner shows after a request that the server
    refused: the body of the response, or its status text when the body
    is empty.  When both are empty the request fails without any
    banner. *)
Theorem banner_of_refused_request (response : Response) (s : Store) :
  ok response = false ->
  error_banner (catch (handleResponse json response) s)
  = (if String.eqb (body response) "" then
       if String.eqb (statusText response) "" then None else Some (statusText response)
     else Some (body response))
  /\ (forall k : Outcome T -> Store -> Store,
        (forall r : Outcome T, (forall v : T, r ≠ Resolved v) -> k r s = catch r s) ->
        tasks (k (handleResponse json response) s) = tasks s
        /\ (error_banner (k (handleResponse json response) s) = None
            <-> body response = "" /\ statusText response = "")).
Proof.
  intros Hok.
  assert (Hh : handleResponse json response
               = RejectedApiError
                   (ApiError_new (ApiClient.status response)
                      (or_else (body response) (statusText response)))).
  { unfold handleResponse. by rewrite Hok. }
  assert (Hb : error_banner (catch (handleResponse json response) s)
               = (if String.eqb (body response) "" then
                    if String.eqb (statusText response) "" then None
                    else Some (statusText response)
                  else Some (body response))).
  { rewrite Hh. unfold error_banner, catch; simpl. unfold or_else.
    destruct (String.eqb_spec (body response) "") as [Hbody|Hbody].
    - done.
    - destruct (String.eqb_spec (body response) ""); done. }
  split; [exact Hb|].
  intros k Hk. rewrite Hk; [|rewrite Hh; discriminate].
  split; [by rewrite Hh|]. rewrite Hb.
  destruct (String.eqb_spec (body response) "") as [Hbody|Hbody];
    [destruct (String.eqb_spec (statusText response) "") as [Htext|Htext]|];
    split; try done; try tauto; intros [? ?]; done.
Qed.

End WithJson.

Section ModalFacts.

Import KanbanBoardScript.

Lemma handleDelete_chosen (id : Z) (b : State) :
  handleDelete id b = b
  \/ (exists nm : string,
        taskToDelete (handleDelete id b) = Some (id, nm)
        /\ deleteModalOpen (handleDelete id b) = true
        /\ store (handleDelete id b) = store b).
Proof.
  unfold handleDelete.
  destruct (find _ _) as [task|] eqn:Hfind; [|by left].
  right. apply find_some in Hfind. destruct Hfind as [_ Hid].
  apply Z.eqb_eq in Hid. rewrite Hid. by exists (name task).
Qed.

Lemma step_modal (e : Event) (b : State) (P : Z -> Prop) :
  modal_consistent b ->
  (forall id nm, taskToDelete b = Some (id, nm) -> P id) ->
  modal_consistent (step e b).1
  /\ (forall id nm, taskToDelete (step e b).1 = Some (id, nm) ->
                    P id \/ e = ClickDelete id)
  /\ (forall id, (step e b).2 = Some id -> P id)
  /\ (if (step e b).2 is Some _ then 1 else 0)
     + (if taskToDelete (step e b).1 is Some _ then 1 else 0)
     <= (if is_ClickDelete e then 1 else 0)
        + (if taskToDelete b is Some _ then 1 else 0).
Proof.
  intros Hmod HP.
  assert (Hclosed : modal_consistent
                      {| store := store b; deleteModalOpen := false; taskToDelete := None |}).
  { unfold modal_consistent; simpl. split; [done|by intros [? ?]]. }
  assert (Hsame : forall f : TasksStore.Store -> TasksStore.Store,
             modal_consistent (with_store f b)
             /\ (forall id nm, taskToDelete (with_store f b) = Some (id, nm) ->
                               P id \/ e = ClickDelete id)
             /\ (forall id : Z, @None Z = Some id -> P id)
             /\ 0 + (if taskToDelete (with_store f b) is Some _ then 1 else 0)
                <= (if is_ClickDelete e then 1 else 0)
                   + (if taskToDelete b is Some _ then 1 else 0)).
  { intros f. split; [exact Hmod|].
    split; [intros id' nm H; left; by eapply HP|].
    split; [done|]. simpl. destruct (is_ClickDelete e); lia. }
  destruct e as [id| | | |r|r|id r|id r|id r|id r]; simpl; try apply Hsame.
  - destruct (handleDelete_chosen id b) as [->|(nm & Hsel & Hopen & _)].
    + split; [exact Hmod|]. split; [intros id' nm H; left; by eapply HP|].
      split; [done|]. lia.
    + split; [unfold modal_consistent; rewrite Hsel, Hopen; by eauto|].
      split; [intros id' nm'; rewrite Hsel; intros [= <- <-]; by right|].
      split; [done|]. rewrite Hsel. destruct (taskToDelete b); lia.
  - split; [exact Hclosed|]. split; [done|].
    destruct (taskToDelete b) as [[id' nm]|] eqn:Hsel; simpl.
    + split; [|lia]. intros id [= <-]. by eapply HP.
    + split; [done|lia].
  - split; [exact Hclosed|]. split; [done|]. split; [done|].
    destruct (taskToDelete b); lia.
Qed.

Lemma run_modal (es : list Event) :
  forall (b : State) (P : Z -> Prop),
    modal_consistent b ->
    (forall id nm, taskToDelete b = Some (id, nm) -> P id) ->
    modal_consistent (run es b).1
    /\ (forall id, id ∈ (run es b).2 -> P id \/ ClickDelete id ∈ es)
    /\ length (run es b).2 + (if taskToDelete (run es b).1 is Some _ then 1 else 0)
       <= length (filter is_ClickDelete es) + (if taskToDelete b is Some _ then 1 else 0).
Proof.
  induction es as [|e es IH]; intros b P Hmod HP.
  - simpl. split; [done|]. split; [by intros id H; apply not_elem_of_nil in H|lia].
  - destruct (step_modal e b P Hmod HP) as (Hmod1 & HP1 & Hreq & Hone).
    simpl. destruct (step e b) as [b1 req] eqn:Hstep. simpl in *.
    destruct (IH b1 (fun id => P id \/ e = ClickDelete id) Hmod1 HP1)
      as (Hmod2 & Hreqs & Hlen).
    destruct (run es b1) as [b2 reqs] eqn:Hrun. simpl in *.
    split; [exact Hmod2|]. split.
    + intros id Hin.
      assert (Hin' : id ∈ reqs \/ req = Some id).
      { destruct req as [id'|]; [|by left].
        apply elem_of_cons in Hin. destruct Hin as [->|Hin]; [by right|by left]. }
      destruct Hin' as [Hin'|Hin'].
      * destruct (Hreqs id Hin') as [[HPid| ->]|Hes].
        -- by left.
        -- right. by left.
        -- right. by right.
      * left. by apply Hreq.
    + rewrite filter_cons.
      assert (Hclick : length (if decide (is_ClickDelete e) then e :: filter is_ClickDelete es
                               else filter is_ClickDelete es)
                       = (if is_ClickDelete e then 1 else 0)
                         + length (filter is_ClickDelete es)).
      { by destruct (is_ClickDelete e). }
      rewrite Hclick. destruct req as [id0|]; simpl; lia.
Qed.

(** X21.  Whatever happens to the board, from its initial state: the
    confirmation modal is open exactly when a task has been chosen;
    [tasks.remove] is only called with the id of a task whose Delete
    button was clicked before; and it is called at most once per click,
    so confirming twice does not delete twice. *)
Theorem delete_requests_follow_clicks (es : list Event) :
  modal_consistent (run es initial).1
  /\ (forall id : Z, id ∈ (run es initial).2 -> ClickDelete id ∈ es)
  /\ length (run es initial).2 <= length (filter is_ClickDelete es).
Proof.
  destruct (run_modal es initial (fun _ => False)) as (Hmod & Hreqs & Hlen).
  - unfold modal_consistent; simpl. split; [done|by intros [? ?]].
  - done.
  - split; [exact Hmod|]. split.
    + intros id Hin. destruct (Hreqs id Hin) as [[]|H]. exact H.
    + simpl in Hlen. lia.
Qed.

(** X22.  An error shown on the board stays, possibly replaced by a later
    one, until the tasks are loaded again: a request that succeeds
    afterwards does not clear it. *)
Theorem error_stays_until_refresh (es : list Event) (b : State) :
  Refresh ∉ es -> is_Some (TasksStore.error (store b)) ->
  is_Some (TasksStore.error (store (run es b).1)).
Proof.
  revert b. induction es as [|e es IH]; intros b Hno Herr; [done|].
  simpl. destruct (step e b) as [b1 req] eqn:Hstep.
  specialize (IH b1). destruct (run es b1) as [b2 reqs]. simpl in *.
  apply IH.
  - intros H. apply Hno. by right.
  - destruct e as [id| | | |r|r|id r|id r|id r|id r]; simpl in Hstep;
      try (injection Hstep as <- _; simpl; try done).
    + destruct (handleDelete_chosen id b) as [->|(nm & _ & _ & ->)]; done.
    + exfalso. apply Hno. by left.
    + destruct r; simpl; by eauto.
    + by destruct r.
    + destruct r; simpl; by eauto.
    + destruct r; simpl; by eauto.
    + destruct r; simpl; by eauto.
    + destruct r; simpl; by eauto.
Qed.

End ModalFacts.

End BoardMoreFacts.

Lemma priority_names_agree_witness :
  TaskPageScript.getPriorityLabel (Some 7%Z) = "None"
  /\ fst (TaskCardScript.getPriorityBadge (Some 2%Z)) = "High".
Proof.
  split.
  - apply (priority_names_agree (Some 7%Z)). intros n [= <-]. lia.
  - rewrite (proj1 (priority_names_agree (Some 2%Z))). reflexivity.
Defined.

Lemma update_replaces_in_place_witness :
  TasksStore.tasks
    (TasksStore.updated_settled 9 (ApiClient.Resolved Board.example_task)
       TasksStore.example_store)
  = TasksStore.tasks TasksStore.example_store
  /\ TasksStore.tasks
       (TasksStore.updated_settled 8
          (ApiClient.RejectedApiError (ApiClient.ApiError_new 409 "not running"))
          TasksStore.example_store)
     = TasksStore.tasks TasksStore.example_store.
Proof.
  destruct (update_replaces_in_place 9 TasksStore.example_store) as (Hok & _).
  destruct (update_replaces_in_place 8 TasksStore.example_store) as (_ & Hrej & _).
  split.
  - apply (Hok Board.example_task). intros t Hin.
    repeat (apply elem_of_cons in Hin; destruct Hin as [->|Hin]; [discriminate|]).
    by apply not_elem_of_nil in Hin.
  - apply Hrej. intros updated. discriminate.
Defined.

Lemma stopped_task_can_be_restarted_or_deleted_witness :
  let stopped8 :=
    {| Board.id := 8; Board.clickup_task_id := "86abd"; Board.name := "Add search";
       Board.description := None; Board.priority := None; Board.status := "stopped";
       Board.worktree_path := Some "/wt/8"; Board.time_spent_ms := 3730000;
       Board.started_at := None; Board.completed_at := None;
       Board.is_running := false |} in
  (stopped8, [Board.ViewTerminal; Board.Restart; Board.Delete])
  ∈ TasksStore.cards
      (TasksStore.stop_settled 8 (ApiClient.Resolved stopped8) TasksStore.example_store).
Proof.
  intros stopped8.
  apply (stopped_task_can_be_restarted_or_deleted 8 stopped8 TasksStore.example_running
           TasksStore.example_store); [by left|reflexivity|reflexivity].
Defined.

Lemma removed_task_leaves_board_witness :
  TasksStore.tasks
    (TasksStore.remove_settled 7
       (ApiClient.RejectedApiError (ApiClient.ApiError_new 404 "Task 7 not found"))
       TasksStore.example_store)
  = TasksStore.tasks TasksStore.example_store
  /\ TasksStore.error
       (TasksStore.remove_settled 7
          (ApiClient.RejectedApiError (ApiClient.ApiError_new 404 "Task 7 not found"))
          TasksStore.example_store)
     = Some "Task 7 not found".
Proof.
  destruct (removed_task_leaves_board 7 TasksStore.example_store) as (_ & _ & Hrej).
  apply Hrej. intros resp. discriminate.
Defined.

Lemma banner_of_refused_request_witness :
  TasksStore.error_banner
    (TasksStore.catch
       (ApiClient.handleResponse ApiClient.json_bool
          {| ApiClient.ok := false; ApiClient.status := 502; ApiClient.statusText := "";
             ApiClient.body := "" |})
       TasksStore.initial)
  = None.
Proof.
  destruct (banner_of_refused_request ApiClient.json_bool
              {| ApiClient.ok := false; ApiClient.status := 502;
                 ApiClient.statusText := ""; ApiClient.body := "" |}
              TasksStore.initial) as [H _]; [reflexivity|].
  rewrite H. reflexivity.
Defined.

Lemma delete_requests_follow_clicks_witness :
  let es := [KanbanBoardScript.TasksLoaded
               (ApiClient.Resolved (TasksStore.tasks TasksStore.example_store));
             KanbanBoardScript.ClickDelete 7; KanbanBoardScript.Confirm;
             KanbanBoardScript.Confirm] in
  (KanbanBoardScript.run es KanbanBoardScript.initial).2 = [7%Z]
  /\ KanbanBoardScript.ClickDelete 7 ∈ es.
Proof.
  intros es. split; [reflexivity|].
  destruct (delete_requests_follow_clicks es) as (_ & H & _).
  apply H. vm_compute. by left.
Defined.

Lemma error_stays_until_refresh_witness :
  let b := KanbanBoardScript.with_store (fun _ => TasksStore.example_store)
             KanbanBoardScript.initial in
  is_Some
    (TasksStore.error
       (KanbanBoardScript.store
          (KanbanBoardScript.run
             [KanbanBoardScript.RestartSettled 7 (ApiClient.Resolved Board.example_task)]
             b).1)).
Proof.
  intros b. apply error_stays_until_refresh.
  - intros H. apply list_elem_of_singleton in H. discriminate.
  - by eexists.
Defined.

(** ** The settings store, when a request fails *)

Section SettingsMoreFacts.

Import Settings.

(** X23.  A failed [load] throws the unsaved edits away: every key reads
    as on a fresh store, that is as its default, while the dirty flag
    stays as it was, so the edits can be announced as unsaved when they
    are gone.  A failed [save] keeps the edits and the flag.  Both leave
    the message of the failure as the error and end the loading state. *)
Theorem settings_after_failure (s : Store) (msg : string) :
  (forall k : string, get k (load (inr msg) s) = get k initial)
  /\ dirty (load (inr msg) s) = dirty s
  /\ (forall k : string, get k (save (inr msg) s) = get k s)
  /\ dirty (save (inr msg) s) = dirty s
  /\ error (load (inr msg) s) = Some msg
  /\ error (save (inr msg) s) = Some msg
  /\ loading (load (inr msg) s) = false
  /\ loading (save (inr msg) s) = false
  /\ (forall k v k' : string,
        get k' (load (inr msg) (set k v s)) = get k' initial
        /\ dirty (load (inr msg) (set k v s)) = true).
Proof.
  assert (Hkeys : forall k d : string,
             defaults !! k = Some d -> bool_decide (k ∈ Object_prototype) = false).
  { intros k d Hd. apply bool_decide_eq_false. intros Hin.
    unfold Object_prototype in Hin.
    repeat (apply elem_of_cons in Hin; destruct Hin as [->|Hin];
            [vm_compute in Hd; discriminate Hd|]).
    by apply not_elem_of_nil in Hin. }
  assert (Hload : forall (s0 : Store) (k : string), get k (load (inr msg) s0) = get k initial).
  { intros s0 k. unfold get, read.
    change (settings (load (inr msg) s0)) with defaults.
    change (settings initial) with (∅ : gmap string string).
    rewrite lookup_empty.
    destruct (defaults !! k) as [d|] eqn:Hd; [by rewrite (Hkeys k d Hd)|].
    by destruct (bool_decide (k ∈ Object_prototype)). }
  split; [apply Hload|]. do 7 (split; [done|]).
  intros k v k'. split; [apply Hload|done].
Qed.

End SettingsMoreFacts.

(** ** The branch overlay *)

Section OverlayFacts.

Import BranchProtectionOverlay.

Variable suggestedName : string.
Variable trim : string -> string.

#[local] Abbreviation step := (BranchProtectionOverlay.step trim).
#[local] Abbreviation run := (BranchProtectionOverlay.run trim).
#[local] Abbreviation effects := (BranchProtectionOverlay.effects trim).
#[local] Abbreviation start := (BranchProtectionOverlay.start suggestedName).
#[local] Abbreviation consistent := (BranchProtectionOverlay.consistent trim).

Lemma truthy_ne (x : string) : ChatPage.truthy x = true <-> x <> "".
Proof.
  unfold ChatPage.truthy. destruct (String.eqb_spec x ""); simpl; split; congruence.
Qed.

Lemma prefix_ne (b : string) : String.prefix PREFIX b = true -> b <> "".
Proof. by intros H ->. Qed.

Lemma error_or_ne (e : option string) (fallback : string) :
  fallback <> "" -> error_or e fallback <> "".
Proof.
  intros Hf. destruct e as [msg|]; [|done]. simpl. unfold or_else.
  by destruct (String.eqb_spec msg "").
Qed.

Lemma run_snoc (es : list Event) (e : Event) (y : Sys) :
  run (es ++ [e]) y = (step e (run es y)).1.
Proof. unfold BranchProtectionOverlay.run. by rewrite fold_left_app. Qed.

Lemma effects_snoc (es : list Event) (e : Event) :
  forall y : Sys, effects (es ++ [e]) y = effects es y ++ (step e (run es y)).2.
Proof.
  induction es as [|e0 es IH]; intros y; simpl.
  - by rewrite app_nil_r.
  - rewrite IH. by rewrite app_assoc.
Qed.

Lemma start_consistent : consistent start.
Proof. repeat split; simpl; intros; done. Qed.

Lemma step_consistent (e : Event) (y : Sys) : consistent y -> consistent (step e y).1.
Proof.
  intros Hy. pose proof Hy as (Hpend & Hsel & Hex).
  assert (Hkeep : forall f : State -> State,
             (forall s, isCreating (f s) = isCreating s) ->
             (forall s, branchName (f s) = branchName s) ->
             (forall s, selectedExisting (f s) = selectedExisting s) ->
             (forall s, existingBranches (f s) = existingBranches s) ->
             consistent {| view := f (view y); pending := pending y |}).
  { intros f H1 H2 H3 H4. unfold BranchProtectionOverlay.consistent; simpl.
    rewrite H1, H2, H3, H4. done. }
  destruct e as [path|r|m|b|text| | |r]; simpl.
  - destruct path as [path|]; simpl; [destruct (ChatPage.truthy path); simpl|];
      by apply Hkeep.
  - unfold BranchProtectionOverlay.consistent; simpl.
    split; [|split].
    + intros k path b Hp. destruct (Hpend k path b Hp) as (H1 & H2 & H3).
      destruct r as [branches|err|msg]; simpl;
        [destruct (length _ =? 0); simpl|..]; done.
    + intros b Hb. apply Hsel.
      destruct r as [branches|err|msg]; simpl in Hb;
        [destruct (length _ =? 0); simpl in Hb|..]; done.
    + intros b Hb.
      destruct r as [branches|err|msg]; simpl in Hb;
        [|by apply Hex|by apply Hex].
      assert (Hin : In b (List.filter (String.prefix PREFIX) branches)).
      { destruct (length _ =? 0); exact Hb. }
      apply filter_In in Hin. tauto.
  - destruct (negb (isLoading (view y)) && _); simpl; [by apply Hkeep|done].
  - destruct (negb (isLoading (view y)) && select_view (view y)
              && existsb (String.eqb b) (existingBranches (view y))) eqn:Hg;
      simpl; [|done].
    apply andb_true_iff in Hg. destruct Hg as [_ Hin].
    apply existsb_exists in Hin. destruct Hin as (b' & Hin & Heq).
    apply String.eqb_eq in Heq. subst b'.
    unfold BranchProtectionOverlay.consistent; simpl. split; [|split; [|exact Hex]].
    + intros k path b0 Hp. destruct (Hpend k path b0 Hp) as (H1 & H2 & H3).
      split; [done|]. split; [done|].
      destruct k; [split; [tauto|by eauto]|done].
    + intros b0 [= <-]. by apply Hex.
  - destruct (negb (isLoading (view y)) && negb (select_view (view y))
              && negb (isCreating (view y))) eqn:Hg; simpl; [|done].
    apply andb_true_iff in Hg. destruct Hg as [_ Hidle].
    apply negb_true_iff in Hidle.
    unfold BranchProtectionOverlay.consistent; simpl. split; [|done].
    intros k path b Hp. destruct (Hpend k path b Hp) as (H1 & _). congruence.
  - destruct (negb (isLoading (view y)) && select_view (view y) && _) eqn:Hg;
      simpl; [|done].
    unfold handleSelectExisting_called.
    destruct (selectedExisting (view y)) as [b|] eqn:Hb; simpl.
    + destruct (ChatPage.truthy b) eqn:Ht; simpl.
      * unfold BranchProtectionOverlay.consistent; simpl. rewrite Hb.
        split; [|done]. intros k path b0 [= <- <- <-].
        split; [done|]. split; [by apply truthy_ne|]. split; [by apply Hsel|by eauto].
      * unfold BranchProtectionOverlay.consistent; simpl. by rewrite Hb.
    + unfold BranchProtectionOverlay.consistent; simpl. by rewrite Hb.
  - destruct (negb (isLoading (view y)) && negb (select_view (view y)) && _) eqn:Hg;
      simpl; [|done].
    unfold handleCreate_called.
    destruct (ChatPage.truthy (trim (branchName (view y)))) eqn:Hname; simpl;
      [|done].
    destruct (ChatPage.truthy (targetRepoPath (view y))) eqn:Hpath; simpl; [|done].
    unfold BranchProtectionOverlay.consistent; simpl.
    split; [|done]. intros k path b0 [= <- <- <-].
    split; [done|]. split; [by apply truthy_ne|]. split; [done|by apply truthy_ne].
  - destruct (pending y) as [[[k path] b]|] eqn:Hp; [|exact Hy].
    assert (Hdone : forall s0 : State,
               selectedExisting s0 = selectedExisting (view y) ->
               existingBranches s0 = existingBranches (view y) ->
               consistent {| view := s0; pending := None |}).
    { intros s0 H1 H2. unfold BranchProtectionOverlay.consistent; simpl.
      rewrite H1, H2. done. }
    destruct k; simpl; apply Hdone;
      unfold handleSelectExisting_settled, handleCreate_settled;
      destruct r as [resp|err|msg]; simpl; try done; by destruct (success resp).
Qed.

Lemma run_consistent (es : list Event) : consistent (run es start).
Proof.
  induction es as [|e es IH] using rev_ind; [apply start_consistent|].
  rewrite run_snoc. by apply step_consistent.
Qed.

Lemma step_pending (e : Event) (y : Sys) (k : Kind) (path b : string) :
  pending (step e y).1 = Some (k, path, b) ->
  pending y = Some (k, path, b) \/ In (Post k path b) (step e y).2.
Proof.
  destruct e as [p|r|m|b0|text| | |r]; simpl; try (by left).
  - destruct (_ && _); simpl; by left.
  - destruct (_ && _); simpl; by left.
  - destruct (_ && _); simpl; by left.
  - destruct (_ && _); simpl; [|by left].
    unfold handleSelectExisting_called.
    destruct (selectedExisting (view y)) as [b1|]; simpl; [|by left].
    destruct (ChatPage.truthy b1); simpl; [|by left].
    intros [= <- <- <-]. right. by left.
  - destruct (_ && _); simpl; [|by left].
    unfold handleCreate_called.
    destruct (ChatPage.truthy (trim _)); simpl; [|by left].
    destruct (ChatPage.truthy (targetRepoPath _)); simpl; [|by left].
    intros [= <- <- <-]. right. by left.
  - destruct (pending y) as [[[k0 path0] b1]|] eqn:Hp;
      [|simpl; intros H; left; congruence].
    destruct k0; simpl; discriminate.
Qed.

Lemma run_pending (es : list Event) (k : Kind) (path b : string) :
  pending (run es start) = Some (k, path, b) -> In (Post k path b) (effects es start).
Proof.
  induction es as [|e es IH] using rev_ind; [discriminate|].
  rewrite run_snoc, effects_snoc. intros H. apply in_or_app.
  apply step_pending in H. destruct H as [H|H]; [left; by apply IH|by right].
Qed.

(** X24.  The overlay tells the page a branch only when the request it
    was waiting for has been answered with [success], and that request
    was sent before.  The name it tells is never absent or empty: after a
    creation it is the name that was sent to the server, and the request
    named a repository; after a checkout it is one of the branches that
    start with [ui-refinements]. *)
Theorem overlay_reports_after_success (es : list Event) (e : Event) (n : option string) :
  In (OnBranchCreate n) (step e (run es start)).2 ->
  exists (response : GitResponse) (k : Kind) (path b n' : string),
    e = Settled (ApiClient.Resolved response) /\ success response = true
    /\ pending (run es start) = Some (k, path, b)
    /\ In (Post k path b) (effects es start)
    /\ n = Some n' /\ n' <> ""
    /\ match k with
       | CreateBranch => n' = b /\ path <> ""
       | Checkout => String.prefix PREFIX n' = true
       end.
Proof.
  pose proof (run_consistent es) as (Hpend & Hsel & _).
  pose proof (run_pending es) as Hsent.
  set (y := run es start) in *.
  destruct e as [p|r|m|b0|text| | |r]; simpl.
  - destruct p as [p|]; simpl; [destruct (ChatPage.truthy p); simpl|];
      intros H; by repeat destruct H as [H|H].
  - done.
  - by destruct (_ && _).
  - by destruct (_ && _).
  - by destruct (_ && _).
  - destruct (_ && _); simpl; [|done]. unfold handleSelectExisting_called.
    destruct (selectedExisting (view y)) as [b1|]; simpl; [|done].
    destruct (ChatPage.truthy b1); simpl; intros H; by repeat destruct H as [H|H].
  - destruct (_ && _); simpl; [|done]. unfold handleCreate_called.
    destruct (ChatPage.truthy (trim _)); simpl; [|done].
    destruct (ChatPage.truthy (targetRepoPath _)); simpl; intros H;
      by repeat destruct H as [H|H].
  - destruct (pending y) as [[[k path] b]|] eqn:Hp; [|done].
    destruct (Hpend k path b eq_refl) as (Hbusy & Hb & Hk).
    destruct k; simpl; unfold handleSelectExisting_settled, handleCreate_settled;
      (destruct r as [resp|err|msg]; simpl; [|done|done]);
      (destruct (success resp) eqn:Hok; simpl; [|done]);
      intros [H|[]]; injection H as <-.
    + destruct (selectedExisting (view y)) as [b1|] eqn:Hb1.
      * exists resp, Checkout, path, b, b1.
        repeat (split; [by auto|]). split; [by apply prefix_ne, Hsel|by apply Hsel].
      * destruct Hk as [_ [? ?]]. congruence.
    + destruct Hk as [-> Hpath].
      exists resp, CreateBranch, path, (trim (branchName (view y))),
        (trim (branchName (view y))).
      repeat (split; [by auto|]). done.
Qed.

(** X25.  A request that the server answers without [success], or that
    fails, tells the page nothing and ends the waiting state, so that the
    buttons work again.  Without [success] the overlay always shows an
    error: the one of the answer, or a fixed text when the answer has
    none. *)
Theorem overlay_refusal (y : Sys) (k : Kind) (path b : string)
        (r : ApiClient.Outcome GitResponse) :
  pending y = Some (k, path, b) ->
  (forall response : GitResponse, r = ApiClient.Resolved response -> success response = false) ->
  (step (Settled r) y).2 = []
  /\ isCreating (view (step (Settled r) y).1) = false
  /\ pending (step (Settled r) y).1 = None
  /\ branchName (view (step (Settled r) y).1) = branchName (view y)
  /\ selectedExisting (view (step (Settled r) y).1) = selectedExisting (view y)
  /\ (forall response : GitResponse,
        r = ApiClient.Resolved response ->
        error (view (step (Settled r) y).1) <> ""
        /\ (forall msg : string,
              git_error response = Some msg -> msg <> "" ->
              error (view (step (Settled r) y).1) = msg))
  /\ (forall msg : string,
        ApiClient.displayed r = Some msg -> error (view (step (Settled r) y).1) = msg).
Proof.
  intros Hp Hfail. simpl. rewrite Hp.
  destruct k; simpl; unfold handleSelectExisting_settled, handleCreate_settled;
    destruct r as [resp|err|msg0]; simpl;
    try rewrite (Hfail resp eq_refl); simpl;
    repeat (split; [done|]).
  - split; [|by intros ? [=]]. intros ? [= <-].
    split; [by apply error_or_ne|].
    intros msg -> Hne. simpl. by apply or_else_nonempty.
  - intros msg [= <-]. reflexivity.
  - intros msg [= <-]. reflexivity.
  - split; [|by intros ? [=]]. intros ? [= <-].
    split; [by apply error_or_ne|].
    intros msg -> Hne. simpl. by apply or_else_nonempty.
  - intros msg [= <-]. reflexivity.
  - intros msg [= <-]. reflexivity.
Qed.

(** X26.  While a creation is being waited for, the name cannot be
    edited, and the name told to the page is the one that was sent.
    While a checkout is being waited for, the list of branches still
    takes clicks, and the branch told to the page is the one clicked
    last, whatever branch the request named. *)
Theorem overlay_reports_current_choice (es : list Event) (path a : string)
        (response : GitResponse) :
  let y := run es start in
  success response = true ->
  (pending y = Some (CreateBranch, path, a) ->
   forall text : string,
     effects [TypeName text; Settled (ApiClient.Resolved response)] y
     = [OnBranchCreate (Some a)])
  /\ (pending y = Some (Checkout, path, a) ->
      isLoading (view y) = false -> mode (view y) = select ->
      forall b : string,
        In b (existingBranches (view y)) ->
        effects [ClickBranch b; Settled (ApiClient.Resolved response)] y
        = [OnBranchCreate (Some b)]).
Proof.
  intros y Hok. destruct (run_consistent es) as (Hpend & _). fold y in Hpend. split.
  - intros Hp text. destruct (Hpend _ _ _ Hp) as (Hbusy & _ & -> & _).
    simpl. rewrite Hbusy, !andb_false_r. simpl. rewrite Hp. simpl.
    unfold handleCreate_settled. simpl. by rewrite Hok.
  - intros Hp Hshown Hmode b Hin. simpl.
    assert (Hview : select_view (view y) = true).
    { unfold select_view. rewrite Hmode. destruct (existingBranches (view y)); [done|].
      reflexivity. }
    assert (Hex : existsb (String.eqb b) (existingBranches (view y)) = true).
    { apply existsb_exists. exists b. split; [done|apply String.eqb_refl]. }
    rewrite Hshown, Hview, Hex. simpl. rewrite Hp. simpl.
    unfold handleSelectExisting_settled. simpl. by rewrite Hok.
Qed.

End OverlayFacts.

Lemma overlay_reports_after_success_witness :
  let es := [BranchProtectionOverlay.SettingsLoaded (Some "/repo");
             BranchProtectionOverlay.BranchesLoaded (ApiClient.Resolved ["main"]);
             BranchProtectionOverlay.TypeName " ui-refinements-x";
             BranchProtectionOverlay.ClickCreate] in
  let ok := BranchProtectionOverlay.Settled
              (ApiClient.Resolved
                 {| BranchProtectionOverlay.success := true;
                    BranchProtectionOverlay.git_error := None |}) in
  BranchProtectionOverlay.effects BranchProtectionOverlay.example_trim (es ++ [ok])
    (BranchProtectionOverlay.start "ui-refinements-s")
  = [BranchProtectionOverlay.GetBranches "/repo";
     BranchProtectionOverlay.Post BranchProtectionOverlay.CreateBranch "/repo"
       "ui-refinements-x";
     BranchProtectionOverlay.OnBranchCreate (Some "ui-refinements-x")]
  /\ In (BranchProtectionOverlay.Post BranchProtectionOverlay.CreateBranch "/repo"
           "ui-refinements-x")
        (BranchProtectionOverlay.effects BranchProtectionOverlay.example_trim es
           (BranchProtectionOverlay.start "ui-refinements-s")).
Proof.
  intros es ok. split; [reflexivity|].
  destruct (overlay_reports_after_success "ui-refinements-s"
              BranchProtectionOverlay.example_trim es ok (Some "ui-refinements-x"))
    as (resp & k & path & b & n' & _ & _ & Hp & Hsent & _); [by left|].
  vm_compute in Hp. injection Hp as <- <- <-. exact Hsent.
Defined.

Lemma overlay_refusal_witness :
  let y := BranchProtectionOverlay.run BranchProtectionOverlay.example_trim
             [BranchProtectionOverlay.SettingsLoaded (Some "/repo");
              BranchProtectionOverlay.BranchesLoaded (ApiClient.Resolved ["main"]);
              BranchProtectionOverlay.ClickCreate]
             (BranchProtectionOverlay.start "ui-refinements-s") in
  let refused := BranchProtectionOverlay.Settled
                   (ApiClient.Resolved
                      {| BranchProtectionOverlay.success := false;
                         BranchProtectionOverlay.git_error := Some "" |}) in
  BranchProtectionOverlay.error
    (BranchProtectionOverlay.view
       (BranchProtectionOverlay.step BranchProtectionOverlay.example_trim refused y).1)
  <> "".
Proof.
  intros y refused.
  destruct (overlay_refusal BranchProtectionOverlay.example_trim y
              BranchProtectionOverlay.CreateBranch "/repo" "ui-refinements-s"
              (ApiClient.Resolved
                 {| BranchProtectionOverlay.success := false;
                    BranchProtectionOverlay.git_error := Some "" |}))
    as (_ & _ & _ & _ & _ & H & _); [reflexivity|by intros ? [= <-]|].
  by destruct (H _ eq_refl).
Defined.

Lemma overlay_reports_current_choice_witness :
  let es := [BranchProtectionOverlay.SettingsLoaded (Some "/repo");
             BranchProtectionOverlay.BranchesLoaded
               (ApiClient.Resolved ["main"; "ui-refinements-a"; "ui-refinements-b"]);
             BranchProtectionOverlay.ClickBranch "ui-refinements-a";
             BranchProtectionOverlay.ClickContinue] in
  let y := BranchProtectionOverlay.run BranchProtectionOverlay.example_trim es
             (BranchProtectionOverlay.start "ui-refinements-s") in
  let ok := ApiClient.Resolved
              {| BranchProtectionOverlay.success := true;
                 BranchProtectionOverlay.git_error := None |} in
  BranchProtectionOverlay.pending y
  = Some (BranchProtectionOverlay.Checkout, "/repo", "ui-refinements-a")
  /\ BranchProtectionOverlay.effects BranchProtectionOverlay.example_trim
       [BranchProtectionOverlay.ClickBranch "ui-refinements-b";
        BranchProtectionOverlay.Settled ok] y
     = [BranchProtectionOverlay.OnBranchCreate (Some "ui-refinements-b")].
Proof.
  intros es y ok. split; [reflexivity|].
  destruct (overlay_reports_current_choice "ui-refinements-s"
              BranchProtectionOverlay.example_trim es "/repo" "ui-refinements-a"
              {| BranchProtectionOverlay.success := true;
                 BranchProtectionOverlay.git_error := None |}) as [_ H];
    [reflexivity|].
  apply H; [reflexivity|reflexivity|reflexivity|]. vm_compute. right. by left.
Defined.
